(** * CodeReviewAgent: the asynchronous review worker

    A shallow embedding of the queue-driven review pipeline
    (src/worker/main.py, gitlab_service.py, jira_service.py,
    linter_service.py, bedrock_service.py and the queue helpers of
    src/app/utils/sqs.py), followed by the properties of the
    specification that are checked against it.

    Conventions.
    - A Python [str] is modelled by its UTF-8 encoding, a Rocq [string]
      (one [ascii] per byte).  Every marker the code looks for is ASCII, so
      prefix tests, splitting at line feeds and dropping an ASCII prefix
      agree with the code-point operations of Python, and
      [len(s.encode("utf-8"))] is [String.length].
    - A Python [dict] is an association list kept in insertion order;
      assignment to a key already present replaces the value in place.
    - Exceptions are the subclasses of Python's [Exception]; the worker
      installs its own SIGINT/SIGTERM handlers, so no KeyboardInterrupt is
      raised in the pipeline.
    - Calls that leave the process (GitLab, Jira, Bedrock, SQS, the file
      system, analyzer processes) append an event to a history and take
      their outcome from an environment that may look at the history. *)

From Stdlib Require Import String Ascii List Bool ZArith QArith Lia.
From Stdlib Require Import Numbers.DecimalString.
Import ListNotations.

Local Open Scope string_scope.
Local Open Scope list_scope.

(* ================================================================== *)
(** ** Python strings and dictionaries *)
(* ================================================================== *)

Module Py.

(** [s.startswith(p)] *)
Definition startswith (s p : string) : bool := String.prefix p s.

(** [s[n:]] *)
Fixpoint drop (n : nat) (s : string) : string :=
  match n, s with
  | O, _ => s
  | S _, EmptyString => EmptyString
  | S n', String _ s' => drop n' s'
  end.

(** [s[:n]] *)
Fixpoint take (n : nat) (s : string) : string :=
  match n, s with
  | O, _ => EmptyString
  | S _, EmptyString => EmptyString
  | S n', String c s' => String c (take n' s')
  end.

Definition LF : ascii := ascii_of_nat 10.
Definition NL : string := String LF EmptyString.

(** [s.split(c)] for a one-character separator: never the empty list. *)
Fixpoint split (c : ascii) (s : string) : list string :=
  match s with
  | EmptyString => [EmptyString]
  | String a s' =>
      if Ascii.eqb a c then EmptyString :: split c s'
      else match split c s' with
           | [] => [String a EmptyString]
           | h :: t => String a h :: t
           end
  end.

(** [sep.join(l)] *)
Definition join (sep : string) (l : list string) : string :=
  String.concat sep l.

(** [s.count(c)] for a one-character pattern. *)
Fixpoint count (c : ascii) (s : string) : nat :=
  match s with
  | EmptyString => O
  | String a s' => (if Ascii.eqb a c then 1 else 0) + count c s'
  end.

(** [c in s] for a one-character pattern. *)
Definition contains (c : ascii) (s : string) : bool :=
  negb (Nat.eqb (count c s) 0).

(** Truth value of a [str] and of a [list]. *)
Definition str_truthy (s : string) : bool := negb (String.eqb s EmptyString).
Definition list_truthy {A} (l : list A) : bool :=
  match l with [] => false | _ :: _ => true end.

(** Dictionaries with string keys, in insertion order. *)
Abbreviation dict V := (list (string * V)) (only parsing).

Fixpoint dict_get {V} (d : dict V) (k : string) : option V :=
  match d with
  | [] => None
  | (k', v) :: r => if String.eqb k' k then Some v else dict_get r k
  end.

(** [d[k] = v] *)
Fixpoint dict_set {V} (d : dict V) (k : string) (v : V) : dict V :=
  match d with
  | [] => [(k, v)]
  | (k', v') :: r =>
      if String.eqb k' k then (k, v) :: r else (k', v') :: dict_set r k v
  end.

Definition dict_keys {V} (d : dict V) : list string := map fst d.

Definition dict_mem {V} (d : dict V) (k : string) : bool :=
  match dict_get d k with Some _ => true | None => false end.

End Py.

(* ================================================================== *)
(** ** LinterService._parse_diff (linter_service.py, lines 70-110) *)
(* ================================================================== *)

Module DiffParser.
Import Py.

(** The three locals of the loop: [files], [current_file] ([None] or a
    string, possibly empty) and [current_content]. *)
Record state : Type := mkState {
  files : dict string;
  current_file : option string;
  current_content : list string
}.

Definition init : state := mkState [] None [].

(** Truth value of [current_file]: neither [None] nor the empty string. *)
Definition active (cf : option string) : bool :=
  match cf with
  | None => false
  | Some p => str_truthy p
  end.

Definition path_of (cf : option string) : string :=
  match cf with Some p => p | None => EmptyString end.

(** First statement of the loop body: the header / added-line test. *)
Definition scan_line (st : state) (line : string) : state :=
  if startswith line "--- a/" || startswith line "+++ b/" then
    if startswith line "+++ b/"
    then mkState (files st) (Some (drop 6 line)) []
    else st
  else if active (current_file st) && startswith line "+"
          && negb (startswith line "+++")
  then mkState (files st) (current_file st)
               (current_content st ++ [drop 1 line])
  else st.

(** Second statement of the loop body: the end of a file section. *)
Definition close_section (st : state) (line : string) : state :=
  if active (current_file st)
     && (startswith line "diff " || String.eqb line EmptyString)
  then mkState
         (if list_truthy (current_content st)
          then dict_set (files st) (path_of (current_file st))
                        (join NL (current_content st))
          else files st)
         None []
  else st.

Definition step (st : state) (line : string) : state :=
  close_section (scan_line st line) line.

(** The state when the [for] loop is left. *)
Definition scan (lines : list string) : state := fold_left step lines init.

(** "Save the last file if there is one". *)
Definition finish (st : state) : dict string :=
  if active (current_file st) && list_truthy (current_content st)
  then dict_set (files st) (path_of (current_file st))
                (join NL (current_content st))
  else files st.

Definition _parse_diff (diff : string) : dict string :=
  finish (scan (split LF diff)).

(** *** The parser as section 4.1 of the specification words it

    Written from the specification, to be compared with the code. *)

Inductive line_kind : Type :=
| NewFile (path : string)
| Added (text : string)
| SectionEnd
| Other.

Definition classify (line : string) : line_kind :=
  if startswith line "+++ b/" then NewFile (drop 6 line)
  else if startswith line "+" && negb (startswith line "+++")
  then Added (drop 1 line)
  else if startswith line "diff " || String.eqb line EmptyString then SectionEnd
  else Other.

(** The file sections that reach a flush, each with the added lines it
    accumulated: a section is flushed at a diff header, at a blank line,
    or when the input ends while its file is still active. *)
Fixpoint sections_from (cur : option string) (acc : list string)
         (lines : list string) : list (string * list string) :=
  match lines with
  | [] => match cur with
          | Some p => [(p, acc)]
          | None => []
          end
  | l :: rest =>
      match classify l, cur with
      | NewFile p, _ =>
          sections_from (if str_truthy p then Some p else None) [] rest
      | Added t, Some p => sections_from (Some p) (acc ++ [t]) rest
      | SectionEnd, Some p => (p, acc) :: sections_from None [] rest
      | _, _ => sections_from cur acc rest
      end
  end.

Definition sections (diff : string) : list (string * list string) :=
  sections_from None [] (split LF diff).

(** Flushing a section: nothing for a section without added lines. *)
Definition flush (d : dict string) (s : string * list string) : dict string :=
  match snd s with
  | [] => d
  | _ :: _ => dict_set d (fst s) (join NL (snd s))
  end.

End DiffParser.

(* ================================================================== *)
(** ** Dynamically typed values ([Any], decoded JSON) *)
(* ================================================================== *)

Module PyVal.
Import Py.

(** What [json.loads] can return, which is also all the pipeline ever
    stores in an [Any].  A float carries its exact numeric value. *)
#[local] Set Warnings "-register-all".
Inductive value : Type :=
| VNone
| VBool (b : bool)
| VInt (n : Z)
| VFloat (q : Q)
| VStr (s : string)
| VList (l : list value)
| VDict (d : list (string * value)).

(** [bool(v)] *)
Definition truthy (v : value) : bool :=
  match v with
  | VNone => false
  | VBool b => b
  | VInt n => negb (Z.eqb n 0)
  | VFloat q => negb (Qeq_bool q 0)
  | VStr s => str_truthy s
  | VList l => list_truthy l
  | VDict d => list_truthy d
  end.

(** [v == n] for an integer literal [n]: numbers are compared by value
    and [bool] is a subclass of [int]. *)
Definition eq_int (v : value) (n : Z) : bool :=
  match v with
  | VInt m => Z.eqb m n
  | VBool b => Z.eqb (if b then 1 else 0) n
  | VFloat q => Qeq_bool q (inject_Z n)
  | _ => false
  end.

(** [v == s] for a string literal [s]. *)
Definition eq_str (v : value) (s : string) : bool :=
  match v with
  | VStr t => String.eqb t s
  | _ => false
  end.

(** [v in [s1, ..., sn]] for string literals. *)
Definition in_strs (v : value) (l : list string) : bool :=
  existsb (eq_str v) l.

Definition of_option (o : option value) : value :=
  match o with Some v => v | None => VNone end.

Definition Z_to_string (n : Z) : string :=
  NilEmpty.string_of_int (Z.to_int n).

End PyVal.

(* ================================================================== *)
(** ** Exceptions, events and the effect monad *)
(* ================================================================== *)

Module Eff.
Import Py PyVal.

(** Exception classes the pipeline raises or tells apart. *)
Inductive exn : Type :=
| ClientError                      (* botocore.exceptions.ClientError *)
| BotoCoreError (name : string)    (* EndpointConnectionError, ReadTimeoutError, ... *)
| GitlabError
| JIRAError
| CalledProcessError (output : string)
| JSONDecodeError
| KeyError
| TypeError
| AttributeError
| IndexError
| ValueError
| OSError (name : string)
| OtherException (name : string).

Inductive res (A : Type) : Type :=
| Ret (a : A)
| Raise (e : exn).
Arguments Ret {A} a.
Arguments Raise {A} e.

(** Calls that leave the process, in the order they are made. *)
Inductive event : Type :=
| SqsReceive
| SqsDelete (receipt_handle : string)
| GitlabGetProject (project_id : value)
| GitlabGetMergeRequest (project_id iid : value)
| GitlabChanges (project_id iid : value)
| GitlabCreateNote (project_id iid : value) (body : value)
| JiraConnect (url username token : string)
| JiraIssue (key : value)
| TempDirCreate
| TempDirCleanup (dir : string)
| MakeDirs (path : string)
| WriteFile (path content : string)
| Subprocess (cmd : list string)
| BedrockInvoke (model_id : string) (body : string)
| Sleep (seconds : Z).

Abbreviation history := (list event) (only parsing).

(** Computations over a state [S] that may raise; what was done before
    a raise stays done. *)
Definition M (S A : Type) : Type := S -> res A * S.

Definition ret {S A} (a : A) : M S A := fun s => (Ret a, s).

Definition raise {S A} (e : exn) : M S A := fun s => (Raise e, s).

Definition bind {S A B} (m : M S A) (k : A -> M S B) : M S B :=
  fun s =>
    match m s with
    | (Ret a, s') => k a s'
    | (Raise e, s') => (Raise e, s')
    end.

(** A pure step that may raise ([json.loads], a subscript, ...). *)
Definition lift {S A} (r : res A) : M S A := fun s => (r, s).

(** [try: body  except <classes>: handler] *)
Definition try_except {S A} (body : M S A) (catches : exn -> bool)
           (handler : exn -> M S A) : M S A :=
  fun s =>
    match body s with
    | (Ret a, s') => (Ret a, s')
    | (Raise e, s') => if catches e then handler e s' else (Raise e, s')
    end.

(** [except Exception] *)
Definition any_exception (_ : exn) : bool := true.

(** [try: body  finally: cleanup] (the exit of a [with] block). *)
Definition finally {S A} (body : M S A) (cleanup : M S unit) : M S A :=
  fun s =>
    match body s with
    | (r, s') =>
        match cleanup s' with
        | (Ret _, s'') => (r, s'')
        | (Raise e, s'') => (Raise e, s'')
        end
    end.

(** An external call: the outcome is the environment's, which sees the
    history so far; the call is then recorded. *)
Definition call {A} (e : event) (outcome : history -> res A)
  : M history A :=
  fun h => (outcome h, h ++ [e]).

End Eff.

Declare Scope eff_scope.
Delimit Scope eff_scope with eff.
Notation "x <- m ;; k" := (Eff.bind m (fun x => k))
  (at level 61, m at next level, right associativity) : eff_scope.
Notation "m ;;; k" := (Eff.bind m (fun _ => k))
  (at level 61, right associativity) : eff_scope.

(* ================================================================== *)
(** ** Data of the pipeline and its environment *)
(* ================================================================== *)

Module Model.
Import Py PyVal Eff.

(** app/config.py: the fields of [settings] the worker reads. *)
Record Settings : Type := {
  GITLAB_URL : string;
  GITLAB_API_TOKEN : string;
  JIRA_URL : string;
  JIRA_USERNAME : string;
  JIRA_API_TOKEN : string;
  AWS_REGION : string;
  BEDROCK_MODEL_ID_PRIMARY : string;
  BEDROCK_MODEL_ID_FALLBACK : string;
  MAX_DIFF_SIZE : Z
}.

(** An SQS message: the two keys the worker reads. *)
Record message : Type := {
  Body : option string;
  ReceiptHandle : option string
}.

(** One entry of [merge_request.changes()["changes"]]; a field is
    [None] when the key is absent. *)
Record change : Type := {
  old_path : option string;
  new_path : option string;
  change_diff : option string
}.

Record jira_comment : Type := {
  author : string;
  comment_body : string;
  comment_created : string
}.

(** An attribute of [issue.fields] that may hold [None] and that
    [get_ticket_info] reads without a [hasattr] guard: the object may lack
    it, and reading it then raises [AttributeError]. *)
Inductive unguarded (A : Type) : Type :=
| Missing
| Holds (v : option A).
Arguments Missing {A}.
Arguments Holds {A} v.

(** What [client.issue(key)] gives: the attributes [get_ticket_info]
    reads.
    - [description], [assignee] and [reporter] are read without a guard:
      the attribute is missing, or holds [None] or a value.
    - [priority], [comment] and [customfield_10014] are read behind
      [hasattr]: the [option] is [None] when the attribute is missing or
      holds [None].
    - The key, summary, status, issue type, dates, labels and components
      are those of an issue on which Jira has set them. *)
Record jira_issue : Type := {
  issue_key : string;
  fields_summary : string;
  fields_description : unguarded string;
  fields_status : string;
  fields_issuetype : string;
  fields_priority : option string;
  fields_assignee : unguarded string;
  fields_reporter : unguarded string;
  fields_created : string;
  fields_updated : string;
  fields_comment : option (list jira_comment);
  fields_labels : list string;
  fields_components : list string;
  customfield_10014 : option string
}.

(** The [info] dictionary of [get_ticket_info] (IssueContext). *)
Record ticket_info : Type := {
  key : string;
  summary : string;
  description : string;
  status : string;
  issue_type : string;
  priority : string;
  assignee : string;
  reporter : string;
  created : string;
  updated : string;
  comments : list jira_comment;
  labels : list string;
  components : list string;
  epic : option (string * string)          (* key, summary *)
}.

(** LintFinding: [line], [column] and [message] are whatever the tool's
    JSON held under the key read (or [None]). *)
Record finding : Type := {
  file : string;
  line : value;
  column : value;
  message_text : value;
  severity : string;
  source : string
}.

Record lint_result : Type := {
  language : string;
  issues : list finding
}.

Definition lint_report : Type := dict lint_result.

(** Everything outside the repository: the Python library functions the
    code calls and the services it talks to. *)
Record Env : Type := {
  settings : Settings;
  (* Python library *)
  json_loads : string -> res value;
  json_dumps : value -> string;
  py_repr : value -> string;
  py_int : string -> option Z;
  py_strip : string -> string;
  re_finditer : string -> string -> list nat;   (* pattern, text: match starts *)
  (* the [running] flag, cleared by a signal handler *)
  running : history -> bool;
  (* SQS *)
  sqs_receive_message : history -> res (list message);
  sqs_delete_message : history -> string -> res unit;
  (* python-gitlab *)
  gitlab_projects_get : history -> value -> res unit;
  gitlab_mergerequests_get : history -> value -> value -> res unit;
  gitlab_changes : history -> value -> value -> res (list change);
  gitlab_notes_create : history -> value -> value -> value -> res unit;
  (* jira *)
  jira_connect : history -> res unit;
  jira_issue_get : history -> value -> res jira_issue;
  (* file system and processes *)
  tempdir_create : history -> res string;
  tempdir_cleanup : history -> string -> res unit;
  os_makedirs : history -> string -> res unit;
  write_file : history -> string -> string -> res unit;
  check_output : history -> list string -> res string;
  (* bedrock-runtime: the text read from the response body *)
  bedrock_invoke_model : history -> string -> string -> res string
}.

(** [v.get(k)] on an [Any]: only dictionaries have [get]. *)
Definition py_get (v : value) (k : string) : res value :=
  match v with
  | VDict d => Ret (of_option (dict_get d k))
  | _ => Raise AttributeError
  end.

(** [v.get(k, default)] *)
Definition py_get_default (v : value) (k : string) (default : value)
  : res value :=
  match v with
  | VDict d => Ret (match dict_get d k with Some x => x | None => default end)
  | _ => Raise AttributeError
  end.

(** [v[0]] *)
Definition py_first (v : value) : res value :=
  match v with
  | VList (x :: _) => Ret x
  | VList [] => Raise IndexError
  | VStr (String c _) => Ret (VStr (String c EmptyString))
  | VStr EmptyString => Raise IndexError
  | VDict _ => Raise KeyError
  | _ => Raise TypeError
  end.

Fixpoint chars (s : string) : list value :=
  match s with
  | EmptyString => []
  | String c s' => VStr (String c EmptyString) :: chars s'
  end.

(** The elements a [for] loop over an [Any] visits.  A string is visited
    one byte of its encoding at a time; the loops of the pipeline call
    [get] on each element, which a piece of a string does not have. *)
Definition py_iter (v : value) : res (list value) :=
  match v with
  | VList l => Ret l
  | VDict d => Ret (map (fun kv => VStr (fst kv)) d)
  | VStr s => Ret (chars s)
  | _ => Raise TypeError
  end.

(** [str(v)], as an f-string formats a value. *)
Definition py_str (env : Env) (v : value) : string :=
  match v with
  | VNone => "None"
  | VBool true => "True"
  | VBool false => "False"
  | VInt n => Z_to_string n
  | VStr s => s
  | _ => py_repr env v
  end.

(** [for x in l: body x] *)
Fixpoint for_each {S A} (l : list A) (body : A -> M S unit) : M S unit :=
  match l with
  | [] => ret tt
  | x :: r => bind (body x) (fun _ => for_each r body)
  end.

(** [for x in l: acc = body acc x] for a loop that rebinds a local. *)
Fixpoint for_fold {S A B} (l : list A) (acc : B) (body : B -> A -> M S B)
  : M S B :=
  match l with
  | [] => ret acc
  | x :: r => bind (body acc x) (fun acc' => for_fold r acc' body)
  end.

End Model.

(* ================================================================== *)
(** ** worker/gitlab_service.py *)
(* ================================================================== *)

Module GitLabService.
Import Py PyVal Eff Model.
Local Open Scope eff_scope.

(** Handles of python-gitlab objects; such objects are always true. *)
Record project : Type := { the_project_id : value }.
Record merge_request : Type := { mr_project_id : value; mr_iid : value }.

Definition is_GitlabError (e : exn) : bool :=
  match e with GitlabError => true | _ => false end.

Definition get_project (env : Env) (project_id : value)
  : M history (option project) :=
  try_except
    (_ <- call (GitlabGetProject project_id)
               (fun h => gitlab_projects_get env h project_id) ;;
     ret (Some {| the_project_id := project_id |}))
    is_GitlabError
    (fun _ => ret None).

Definition get_merge_request (env : Env) (project_id merge_request_iid : value)
  : M history (option merge_request) :=
  try_except
    (project <- get_project env project_id ;;
     match project with
     | None => ret None
     | Some p =>
         _ <- call (GitlabGetMergeRequest (the_project_id p) merge_request_iid)
                   (fun h => gitlab_mergerequests_get env h (the_project_id p)
                                                      merge_request_iid) ;;
         ret (Some {| mr_project_id := the_project_id p;
                      mr_iid := merge_request_iid |})
     end)
    is_GitlabError
    (fun _ => ret None).

Definition or_empty (o : option string) : string :=
  match o with Some s => s | None => EmptyString end.

(** The two branches of [if old_path == new_path] append the same lines. *)
Definition change_lines (c : change) : list string :=
  [ ("--- a/" ++ or_empty (old_path c))%string;
    ("+++ b/" ++ or_empty (new_path c))%string;
    or_empty (change_diff c) ].

Definition get_merge_request_diff (env : Env)
           (project_id merge_request_iid : value)
  : M history (option string) :=
  try_except
    (mr <- get_merge_request env project_id merge_request_iid ;;
     match mr with
     | None => ret None
     | Some m =>
         changes <- call (GitlabChanges (mr_project_id m) (mr_iid m))
                         (fun h => gitlab_changes env h (mr_project_id m)
                                                  (mr_iid m)) ;;
         ret (Some (join NL (flat_map change_lines changes)))
     end)
    is_GitlabError
    (fun _ => ret None).

Definition post_comment (env : Env) (project_id merge_request_iid : value)
           (comment : value) : M history bool :=
  try_except
    (mr <- get_merge_request env project_id merge_request_iid ;;
     match mr with
     | None => ret false
     | Some m =>
         _ <- call (GitlabCreateNote (mr_project_id m) (mr_iid m) comment)
                   (fun h => gitlab_notes_create env h (mr_project_id m)
                                                 (mr_iid m) comment) ;;
         ret true
     end)
    is_GitlabError
    (fun _ => ret false).

End GitLabService.

(* ================================================================== *)
(** ** worker/jira_service.py *)
(* ================================================================== *)

Module JiraService.
Import Py PyVal Eff Model.
Local Open Scope eff_scope.

Definition is_JIRAError (e : exn) : bool :=
  match e with JIRAError => true | _ => false end.

(** [JiraService.__init__]: building the [JIRA] client contacts the
    server (the client fetches the server information when it is
    created); nothing here catches what that raises. *)
Definition __init__ (env : Env) (url username token : string)
  : M history unit :=
  call (JiraConnect url username token) (jira_connect env).

Definition or_else (o : option string) (default : string) : string :=
  match o with Some s => s | None => default end.

(** [x] when the attribute is there and true. *)
Definition if_true (o : option string) : option string :=
  match o with
  | Some s => if str_truthy s then Some s else None
  | None => None
  end.

(** [issue.fields.<name>] for an attribute read without a guard. *)
Definition getattr {A} (a : unguarded A) : res (option A) :=
  match a with
  | Missing => Raise AttributeError
  | Holds v => Ret v
  end.

(** The dictionary [info] as it is first built ("Extract basic issue
    information", then the comments).  The three reads without a guard
    raise [AttributeError] on an issue that lacks the attribute; nothing
    is called in between, so the order of the reads is not observable. *)
Definition basic_info (issue : jira_issue) : res ticket_info :=
  match getattr (fields_description issue),
        getattr (fields_assignee issue),
        getattr (fields_reporter issue) with
  | Ret description_, Ret assignee_, Ret reporter_ =>
      Ret {| key := issue_key issue;
             summary := fields_summary issue;
             description := or_else (if_true description_) EmptyString;
             status := fields_status issue;
             issue_type := fields_issuetype issue;
             priority := or_else (fields_priority issue) "Unassigned";
             assignee := or_else assignee_ "Unassigned";
             reporter := or_else reporter_ "Unknown";
             created := fields_created issue;
             updated := fields_updated issue;
             comments := match fields_comment issue with
                         | Some l => l
                         | None => []
                         end;
             labels := fields_labels issue;
             components := fields_components issue;
             epic := None |}
  | Raise e, _, _ => Raise e
  | _, Raise e, _ => Raise e
  | _, _, Raise e => Raise e
  end.

Definition with_epic (info : ticket_info) (e : option (string * string))
  : ticket_info :=
  {| key := key info; summary := summary info;
     description := description info; status := status info;
     issue_type := issue_type info; priority := priority info;
     assignee := assignee info; reporter := reporter info;
     created := created info; updated := updated info;
     comments := comments info; labels := labels info;
     components := components info; epic := e |}.

Definition get_ticket_info (env : Env) (ticket_key : value)
  : M history (option ticket_info) :=
  try_except
    (issue <- call (JiraIssue ticket_key)
                   (fun h => jira_issue_get env h ticket_key) ;;
     info <- lift (basic_info issue) ;;
     match if_true (customfield_10014 issue) with
     | Some epic_key =>
         info' <- try_except
                    (e <- call (JiraIssue (VStr epic_key))
                               (fun h => jira_issue_get env h (VStr epic_key)) ;;
                     ret (with_epic info
                            (Some (issue_key e, fields_summary e))))
                    is_JIRAError
                    (fun _ => ret info) ;;
         ret (Some info')
     | None => ret (Some info)
     end)
    is_JIRAError
    (fun _ => ret None).

End JiraService.

(* ================================================================== *)
(** ** posixpath: the three functions the linter service calls *)
(* ================================================================== *)

Module PosixPath.
Import Py.
Local Open Scope Z_scope.

Fixpoint rfind_from (c : ascii) (s : string) (i last : Z) : Z :=
  match s with
  | EmptyString => last
  | String a s' => rfind_from c s' (i + 1) (if Ascii.eqb a c then i else last)
  end.

(** [s.rfind(c)], -1 when [c] does not occur. *)
Definition rfind (c : ascii) (s : string) : Z := rfind_from c s 0 (-1).

Definition endswith_char (c : ascii) (s : string) : bool :=
  Z.eqb (rfind c s) (Z.of_nat (String.length s) - 1) && str_truthy s.

(** [os.path.join(a, b)] *)
Definition join (a b : string) : string :=
  if startswith b "/" then b
  else if negb (str_truthy a) || endswith_char "/" a then (a ++ b)%string
  else (a ++ "/" ++ b)%string.

(** [s.rstrip(c)] *)
Fixpoint rstrip (c : ascii) (s : string) : string :=
  match s with
  | EmptyString => EmptyString
  | String a s' =>
      match rstrip c s' with
      | EmptyString => if Ascii.eqb a c then EmptyString
                       else String a EmptyString
      | r => String a r
      end
  end.

(** [os.path.dirname(p)] *)
Definition dirname (p : string) : string :=
  let i := Z.to_nat (rfind "/" p + 1) in
  let head := take i p in
  if str_truthy head && str_truthy (rstrip "/" head)
  then rstrip "/" head
  else head.

(** The [while] loop of [genericpath._splitext]: [n] iterations left. *)
Fixpoint splitext_loop (p : string) (dotIndex filenameIndex n : nat)
  : string * string :=
  match n with
  | O => (p, EmptyString)
  | S n' =>
      if negb (String.eqb (String.substring filenameIndex 1 p) ".")
      then (take dotIndex p, drop dotIndex p)
      else splitext_loop p dotIndex (S filenameIndex) n'
  end.

(** [os.path.splitext(p)] *)
Definition splitext (p : string) : string * string :=
  let sepIndex := rfind "/" p in
  let dotIndex := rfind "." p in
  if dotIndex >? sepIndex then
    splitext_loop p (Z.to_nat dotIndex) (Z.to_nat (sepIndex + 1))
                  (Z.to_nat (dotIndex - (sepIndex + 1)))
  else (p, EmptyString).

End PosixPath.

(* ================================================================== *)
(** ** worker/linter_service.py *)
(* ================================================================== *)

Module LinterService.
Import Py PyVal Eff Model.
Local Open Scope eff_scope.

Definition _parse_diff := DiffParser._parse_diff.

Definition supported_languages : dict string :=
  [ (".py", "python"); (".js", "javascript"); (".jsx", "javascript");
    (".ts", "typescript"); (".tsx", "typescript"); (".java", "java");
    (".cs", "csharp"); (".go", "go") ].

Definition group_file (files_by_language : dict (dict string))
           (entry : string * string) : dict (dict string) :=
  let (file_path, content) := entry in
  let ext := snd (PosixPath.splitext file_path) in
  match dict_get supported_languages ext with
  | Some language =>
      if str_truthy language then
        let fbl := if dict_mem files_by_language language
                   then files_by_language
                   else dict_set files_by_language language [] in
        match dict_get fbl language with
        | Some bucket =>
            dict_set fbl language (dict_set bucket file_path content)
        | None => fbl
        end
      else files_by_language
  | None => files_by_language
  end.

Definition _group_files_by_language (files : dict string)
  : dict (dict string) :=
  fold_left group_file files [].

(** Inside a [_run_*_linters] call the state also holds the list
    [results["issues"]]: what is appended before an exception stays. *)
Definition L (A : Type) : Type := M (history * list finding) A.

Definition ext {A} (m : M history A) : L A :=
  fun s => match m (fst s) with (r, h') => (r, (h', snd s)) end.

(** [results["issues"].append(f)] *)
Definition append_issue (f : finding) : L unit :=
  fun s => (Ret tt, (fst s, snd s ++ [f])).

(** [results = {"language": lang, "issues": []}; ...; return results] *)
Definition returning_results (lang : string) (body : L unit)
  : M history lint_result :=
  fun h =>
    match body (h, []) with
    | (Ret _, (h', found)) => (Ret {| language := lang; issues := found |}, h')
    | (Raise e, (h', _)) => (Raise e, h')
    end.

(** [with tempfile.TemporaryDirectory() as temp_dir: body] *)
Definition with_tempdir {A} (env : Env) (body : string -> L A) : L A :=
  temp_dir <- ext (call TempDirCreate (tempdir_create env)) ;;
  finally (body temp_dir)
          (ext (call (TempDirCleanup temp_dir)
                     (fun h => tempdir_cleanup env h temp_dir))).

(** "Write the files to the temporary directory". *)
Definition write_files (env : Env) (temp_dir : string) (files : dict string)
  : L unit :=
  for_each files (fun entry =>
    let path := PosixPath.join temp_dir (fst entry) in
    ext (call (MakeDirs (PosixPath.dirname path))
              (fun h => os_makedirs env h (PosixPath.dirname path))) ;;;
    ext (call (WriteFile path (snd entry))
              (fun h => write_file env h path (snd entry)))).

Definition run_tool (env : Env) (cmd : list string) : L string :=
  ext (call (Subprocess cmd) (fun h => check_output env h cmd)).

(** Both [except] clauses of the per-file [try] only log. *)
Definition log_and_continue (_ : exn) : L unit := ret tt.

Definition flake8_file (env : Env) (temp_dir file_path : string) : L unit :=
  try_except
    (output <- run_tool env ["flake8"; "--format=json";
                             PosixPath.join temp_dir file_path] ;;
     if str_truthy output then
       flake8_results <- lift (json_loads env output) ;;
       results <- lift (py_iter flake8_results) ;;
       for_each results (fun result =>
         line_number <- lift (py_get result "line_number") ;;
         column_number <- lift (py_get result "column_number") ;;
         text <- lift (py_get result "text") ;;
         append_issue {| file := file_path; line := line_number;
                         column := column_number; message_text := text;
                         severity := "warning"; source := "flake8" |})
     else ret tt)
    any_exception log_and_continue.

(** The categorical table: [result.get("type")] to a severity. *)
Definition pylint_severity (raw : value) : string :=
  if in_strs raw ["error"; "fatal"] then "error"
  else if in_strs raw ["warning"] then "warning"
  else "info".

Definition pylint_file (env : Env) (temp_dir file_path : string) : L unit :=
  try_except
    (output <- run_tool env ["pylint"; "--output-format=json";
                             PosixPath.join temp_dir file_path] ;;
     if str_truthy output then
       pylint_results <- lift (json_loads env output) ;;
       results <- lift (py_iter pylint_results) ;;
       for_each results (fun result =>
         type <- lift (py_get result "type") ;;
         line_ <- lift (py_get result "line") ;;
         column_ <- lift (py_get result "column") ;;
         message_ <- lift (py_get result "message") ;;
         append_issue {| file := file_path; line := line_;
                         column := column_; message_text := message_;
                         severity := pylint_severity type;
                         source := "pylint" |})
     else ret tt)
    any_exception log_and_continue.

Definition _run_python_linters (env : Env) (files : dict string)
  : M history lint_result :=
  returning_results "python"
    (with_tempdir env (fun temp_dir =>
       write_files env temp_dir files ;;;
       for_each (dict_keys files) (flake8_file env temp_dir) ;;;
       for_each (dict_keys files) (pylint_file env temp_dir))).

(** The numeric table: [message.get("severity")] to a severity. *)
Definition eslint_severity (raw : value) : string :=
  if eq_int raw 2 then "error"
  else if eq_int raw 1 then "warning"
  else "info".

Definition eslint_file (env : Env) (temp_dir file_path : string) : L unit :=
  try_except
    (output <- run_tool env ["eslint"; "--format=json";
                             PosixPath.join temp_dir file_path] ;;
     if str_truthy output then
       eslint_results <- lift (json_loads env output) ;;
       results <- lift (py_iter eslint_results) ;;
       for_each results (fun result =>
         messages <- lift (py_get_default result "messages" (VList [])) ;;
         msgs <- lift (py_iter messages) ;;
         for_each msgs (fun message =>
           raw <- lift (py_get message "severity") ;;
           line_ <- lift (py_get message "line") ;;
           column_ <- lift (py_get message "column") ;;
           message_ <- lift (py_get message "message") ;;
           append_issue {| file := file_path; line := line_;
                           column := column_; message_text := message_;
                           severity := eslint_severity raw;
                           source := "eslint" |}))
     else ret tt)
    any_exception log_and_continue.

(** [json.dump(config, f)] into the scratch directory. *)
Definition write_config (env : Env) (temp_dir name : string) (config : value)
  : L unit :=
  ext (call (WriteFile (PosixPath.join temp_dir name) (json_dumps env config))
            (fun h => write_file env h (PosixPath.join temp_dir name)
                                 (json_dumps env config))).

Definition eslint_config_js : value :=
  VDict [ ("env", VDict [("browser", VBool true); ("es2021", VBool true);
                         ("node", VBool true)]);
          ("extends", VStr "eslint:recommended");
          ("parserOptions", VDict [("ecmaVersion", VInt 12);
                                   ("sourceType", VStr "module")]);
          ("rules", VDict []) ].

Definition _run_javascript_linters (env : Env) (files : dict string)
  : M history lint_result :=
  returning_results "javascript"
    (with_tempdir env (fun temp_dir =>
       write_files env temp_dir files ;;;
       write_config env temp_dir ".eslintrc.json" eslint_config_js ;;;
       for_each (dict_keys files) (eslint_file env temp_dir))).

Definition tsconfig : value :=
  VDict [ ("compilerOptions",
           VDict [("target", VStr "es2020"); ("module", VStr "commonjs");
                  ("strict", VBool true); ("esModuleInterop", VBool true);
                  ("skipLibCheck", VBool true);
                  ("forceConsistentCasingInFileNames", VBool true)]) ].

Definition eslint_config_ts : value :=
  VDict [ ("env", VDict [("browser", VBool true); ("es2021", VBool true);
                         ("node", VBool true)]);
          ("extends", VList [VStr "eslint:recommended";
                             VStr "plugin:@typescript-eslint/recommended"]);
          ("parser", VStr "@typescript-eslint/parser");
          ("parserOptions", VDict [("ecmaVersion", VInt 12);
                                   ("sourceType", VStr "module")]);
          ("plugins", VList [VStr "@typescript-eslint"]);
          ("rules", VDict []) ].

Definition _run_typescript_linters (env : Env) (files : dict string)
  : M history lint_result :=
  returning_results "typescript"
    (with_tempdir env (fun temp_dir =>
       write_files env temp_dir files ;;;
       write_config env temp_dir "tsconfig.json" tsconfig ;;;
       write_config env temp_dir ".eslintrc.json" eslint_config_ts ;;;
       for_each (dict_keys files) (eslint_file env temp_dir))).

(** One rule of the in-process strategy, applied to one file: a finding
    per match, at the line of the match start. *)
Definition regex_rule (env : Env) (pattern msg sev : string)
           (file_path content : string) : L unit :=
  for_each (re_finditer env pattern content) (fun start =>
    let line_number := Z.of_nat (count LF (take start content) + 1) in
    append_issue {| file := file_path; line := VInt line_number;
                    column := VInt 1; message_text := VStr msg;
                    severity := sev; source := "regex" |}).

Definition empty_catch_pattern : string := "catch\s*\([^)]+\)\s*\{\s*\}".

Definition _run_java_linters (env : Env) (files : dict string)
  : M history lint_result :=
  returning_results "java"
    (for_each files (fun entry =>
       regex_rule env empty_catch_pattern "Empty catch block" "warning"
                  (fst entry) (snd entry) ;;;
       regex_rule env "System\.out\.println"
                  "Use a logger instead of System.out.println" "info"
                  (fst entry) (snd entry))).

Definition _run_csharp_linters (env : Env) (files : dict string)
  : M history lint_result :=
  returning_results "csharp"
    (for_each files (fun entry =>
       regex_rule env empty_catch_pattern "Empty catch block" "warning"
                  (fst entry) (snd entry) ;;;
       regex_rule env "Console\.WriteLine"
                  "Use a logger instead of Console.WriteLine" "info"
                  (fst entry) (snd entry))).

(** [s.split(c, n)]: at most [n] splits. *)
Fixpoint split_max (c : ascii) (n : nat) (s : string) : list string :=
  match s with
  | EmptyString => [EmptyString]
  | String a s' =>
      match n with
      | O => [s]
      | S n' =>
          if Ascii.eqb a c then EmptyString :: split_max c n' s'
          else match split_max c n s' with
               | [] => [String a EmptyString]
               | h :: t => String a h :: t
               end
      end
  end.

Definition is_ValueError_or_IndexError (e : exn) : bool :=
  match e with ValueError | IndexError => true | _ => false end.

(** The handler of [CalledProcessError] in [_run_go_linters]. *)
Definition go_vet_output (env : Env) (file_path output : string) : L unit :=
  for_each (split LF output) (fun line_ =>
    if contains ":" line_ then
      let parts := split_max ":" 3 line_ in
      if Nat.leb 3 (List.length parts) then
        try_except
          (line_number <- lift (match py_int env (nth 1 parts EmptyString) with
                                | Some n => Ret n
                                | None => Raise ValueError
                                end) ;;
           let message_ := py_strip env (nth 2 parts EmptyString) in
           append_issue {| file := file_path; line := VInt line_number;
                           column := VInt 1; message_text := VStr message_;
                           severity := "warning"; source := "go vet" |})
          is_ValueError_or_IndexError
          (fun _ => ret tt)
      else ret tt
    else ret tt).

Definition go_vet_file (env : Env) (temp_dir file_path : string) : L unit :=
  try_except
    (_ <- run_tool env ["go"; "vet"; PosixPath.join temp_dir file_path] ;;
     ret tt)
    any_exception
    (fun e => match e with
              | CalledProcessError output => go_vet_output env file_path output
              | _ => ret tt
              end).

Definition _run_go_linters (env : Env) (files : dict string)
  : M history lint_result :=
  returning_results "go"
    (with_tempdir env (fun temp_dir =>
       write_files env temp_dir files ;;;
       for_each (dict_keys files) (go_vet_file env temp_dir))).

(** The body of the [try] of [run_linters]. *)
Definition run_linters_body (env : Env) (diff : string)
  : M history lint_report :=
  let files := _parse_diff diff in
  let files_by_language := _group_files_by_language files in
  for_fold files_by_language [] (fun results entry =>
    let (language_, file_contents) := entry in
    if String.eqb language_ "python" then
      r <- _run_python_linters env file_contents ;;
      ret (dict_set results "python" r)
    else if String.eqb language_ "javascript" then
      r <- _run_javascript_linters env file_contents ;;
      ret (dict_set results "javascript" r)
    else if String.eqb language_ "typescript" then
      r <- _run_typescript_linters env file_contents ;;
      ret (dict_set results "typescript" r)
    else if String.eqb language_ "java" then
      r <- _run_java_linters env file_contents ;;
      ret (dict_set results "java" r)
    else if String.eqb language_ "csharp" then
      r <- _run_csharp_linters env file_contents ;;
      ret (dict_set results "csharp" r)
    else if String.eqb language_ "go" then
      r <- _run_go_linters env file_contents ;;
      ret (dict_set results "go" r)
    else ret results).

Definition run_linters (env : Env) (diff : string) : M history lint_report :=
  try_except (run_linters_body env diff) any_exception (fun _ => ret []).

End LinterService.

(* ================================================================== *)
(** ** worker/bedrock_service.py *)
(* ================================================================== *)

Module BedrockService.
Import Py PyVal Eff Model.
Local Open Scope eff_scope.

(** The attributes of a [BedrockService]; creating the boto3 client
    contacts nobody. *)
Record service : Type := {
  region : string;
  primary_model_id : string;
  fallback_model_id : string
}.

Definition system_prompt : string :=
  join NL
    [ EmptyString;
      "You are an expert code reviewer with deep knowledge of software engineering best practices, design patterns, and security considerations. Your task is to review a code diff and provide constructive feedback.";
      EmptyString;
      "Your review should focus on:";
      "1. Potential bugs or logic errors";
      "2. Security vulnerabilities";
      "3. Performance issues";
      "4. Code style and readability";
      "5. Design and architecture concerns";
      "6. Maintainability and testability";
      "7. Suggestions for improvement";
      EmptyString;
      "Format your response as a Markdown document with the following sections:";
      "- **Summary**: A brief overview of the changes and your overall assessment";
      "- **Key Findings**: The most important issues that need to be addressed";
      "- **Detailed Review**: A file-by-file breakdown of specific issues and suggestions";
      "- **Recommendations**: Concrete steps to improve the code";
      EmptyString;
      "Be specific in your feedback, referencing line numbers and code snippets where appropriate. Provide explanations for why certain patterns or practices are problematic and suggest alternatives.";
      EmptyString;
      "Your tone should be professional, constructive, and helpful. Focus on the code, not the developer. Highlight both positive aspects and areas for improvement.";
      EmptyString ].

Definition jira_section (info : ticket_info) : string :=
  join NL
    [ EmptyString;
      "## Jira Ticket Information";
      ("- **Key**: " ++ key info)%string;
      ("- **Summary**: " ++ summary info)%string;
      ("- **Description**: " ++ description info)%string;
      ("- **Status**: " ++ status info)%string;
      ("- **Type**: " ++ issue_type info)%string;
      ("- **Priority**: " ++ priority info)%string;
      EmptyString;
      EmptyString ].

Definition epic_section (e : string * string) : string :=
  join NL
    [ EmptyString;
      "## Epic Information";
      ("- **Key**: " ++ fst e)%string;
      ("- **Summary**: " ++ snd e)%string;
      EmptyString;
      EmptyString ].

Definition issue_line (env : Env) (issue : finding) : string :=
  ("- **" ++ severity issue ++ "**: " ++ py_str env (message_text issue)
    ++ " (File: " ++ file issue ++ ", Line: " ++ py_str env (line issue)
    ++ ")" ++ NL)%string.

Definition language_section (env : Env) (entry : string * lint_result)
  : string :=
  ("### " ++ fst entry ++ " Linter Results" ++ NL ++ NL
    ++ (if negb (list_truthy (issues (snd entry)))
        then "No issues found." ++ NL ++ NL
        else String.concat EmptyString
               (map (issue_line env) (issues (snd entry))))
    ++ NL)%string.

Definition closing_request : string :=
  join NL
    [ EmptyString;
      "Please provide a comprehensive code review based on the diff and any additional information provided. Focus on identifying potential issues, suggesting improvements, and providing constructive feedback.";
      EmptyString ].

Definition human_prompt (env : Env) (diff : string)
           (jira_info : option ticket_info) (linter_results : lint_report)
  : string :=
  ("Please review the following code diff:" ++ NL ++ NL
    ++ "```diff" ++ NL ++ diff ++ NL ++ "```" ++ NL ++ NL
    ++ match jira_info with
       | Some info =>
           jira_section info
           ++ match epic info with
              | Some e => epic_section e
              | None => EmptyString
              end
       | None => EmptyString
       end
    ++ (if list_truthy linter_results
        then "## Linter Results" ++ NL ++ NL
             ++ String.concat EmptyString
                  (map (language_section env) linter_results)
        else EmptyString)
    ++ closing_request)%string.

Definition _construct_prompt (env : Env) (self : service) (diff : string)
           (jira_info : option ticket_info) (linter_results : lint_report)
  : string :=
  let human := human_prompt env diff jira_info linter_results in
  if startswith (primary_model_id self) "anthropic.claude"
  then ("<human>" ++ NL ++ human ++ NL ++ "</human>" ++ NL ++ NL
         ++ "<system>" ++ NL ++ system_prompt ++ NL ++ "</system>")%string
  else ("System: " ++ system_prompt ++ NL ++ NL ++ "Human: " ++ human
         ++ NL ++ NL ++ "Assistant:")%string.

Definition claude_request (prompt : string) : value :=
  VDict [ ("prompt", VStr prompt);
          ("max_tokens_to_sample", VInt 4096);
          ("temperature", VFloat (2 # 10));
          ("top_p", VFloat (9 # 10));
          ("top_k", VInt 250);
          ("stop_sequences", VList [VStr "Human:"; VStr "<human>"]) ].

Definition titan_request (prompt : string) : value :=
  VDict [ ("inputText", VStr prompt);
          ("textGenerationConfig",
           VDict [ ("maxTokenCount", VInt 4096);
                   ("temperature", VFloat (2 # 10));
                   ("topP", VFloat (9 # 10));
                   ("stopSequences", VList []) ]) ].

Definition is_ClientError (e : exn) : bool :=
  match e with ClientError => true | _ => false end.

(** [self.client.invoke_model(modelId, body=json.dumps(request_body))]
    followed by [response.get("body").read()] and [json.loads]. *)
Definition invoke_and_decode (env : Env) (model_id : string)
           (request_body : value) : M history value :=
  text <- call (BedrockInvoke model_id (json_dumps env request_body))
               (fun h => bedrock_invoke_model env h model_id
                                              (json_dumps env request_body)) ;;
  lift (json_loads env text).

Definition _invoke_model (env : Env) (model_id prompt : string)
  : M history value :=
  try_except
    (if startswith model_id "anthropic.claude" then
       response_body <- invoke_and_decode env model_id (claude_request prompt) ;;
       lift (py_get response_body "completion")
     else if startswith model_id "amazon.titan" then
       response_body <- invoke_and_decode env model_id (titan_request prompt) ;;
       results <- lift (py_get response_body "results") ;;
       first <- lift (py_first results) ;;
       lift (py_get first "outputText")
     else ret VNone)
    is_ClientError
    (fun _ => ret VNone).

(** The body of the [try] of [generate_review]. *)
Definition generate_review_body (env : Env) (self : service) (diff : string)
           (jira_info : option ticket_info) (linter_results : lint_report)
  : M history value :=
  let prompt := _construct_prompt env self diff jira_info linter_results in
  response <- _invoke_model env (primary_model_id self) prompt ;;
  response <- (if negb (truthy response)
               then _invoke_model env (fallback_model_id self) prompt
               else ret response) ;;
  if negb (truthy response) then ret VNone else ret response.

Definition generate_review (env : Env) (self : service) (diff : string)
           (jira_info : option ticket_info) (linter_results : lint_report)
  : M history value :=
  try_except (generate_review_body env self diff jira_info linter_results)
             any_exception
             (fun _ => ret VNone).

End BedrockService.

(* ================================================================== *)
(** ** app/utils/sqs.py and worker/main.py *)
(* ================================================================== *)

Module Worker.
Import Py PyVal Eff Model.
Local Open Scope eff_scope.

(** [receive_messages_from_sqs]: a [ClientError] is logged and raised
    again. *)
Definition receive_messages_from_sqs (env : Env) : M history (list message) :=
  call SqsReceive (sqs_receive_message env).

(** [delete_message_from_sqs]: a [ClientError] is logged and raised
    again. *)
Definition delete_message_from_sqs (env : Env) (receipt_handle : string)
  : M history unit :=
  call (SqsDelete receipt_handle)
       (fun h => sqs_delete_message env h receipt_handle).

Definition too_large_notice : string :=
  "⚠️ The diff for this merge request is too large for automated review. Please consider breaking it down into smaller changes.".

Definition opt_str_truthy (o : option string) : bool :=
  match o with Some s => str_truthy s | None => false end.

Definition bedrock_service (env : Env) : BedrockService.service :=
  {| BedrockService.region := AWS_REGION (settings env);
     BedrockService.primary_model_id := BEDROCK_MODEL_ID_PRIMARY (settings env);
     BedrockService.fallback_model_id := BEDROCK_MODEL_ID_FALLBACK (settings env) |}.

(** "Fetch Jira ticket information if available". *)
Definition fetch_jira_info (env : Env) (jira_ticket_key : value)
  : M history (option ticket_info) :=
  if truthy jira_ticket_key then
    JiraService.__init__ env (JIRA_URL (settings env))
                         (JIRA_USERNAME (settings env))
                         (JIRA_API_TOKEN (settings env)) ;;;
    JiraService.get_ticket_info env jira_ticket_key
  else ret None.

(** What follows the size check: issue context, linters, model, comment. *)
Definition review_and_post (env : Env) (project_id merge_request_iid
                                        jira_ticket_key : value)
           (diff : string) : M history bool :=
  jira_info <- fetch_jira_info env jira_ticket_key ;;
  linter_results <- LinterService.run_linters env diff ;;
  review <- BedrockService.generate_review env (bedrock_service env) diff
                                           jira_info linter_results ;;
  if negb (truthy review) then ret false
  else
    GitLabService.post_comment env project_id merge_request_iid review ;;;
    ret true.

(** The body of the [try] of [process_message]. *)
Definition process_message_body (env : Env) (msg : message) : M history bool :=
  body <- lift (match Body msg with
                | Some text => json_loads env text
                | None => Raise KeyError
                end) ;;
  project_id <- lift (py_get body "project_id") ;;
  merge_request_iid <- lift (py_get body "merge_request_iid") ;;
  jira_ticket_key <- lift (py_get body "jira_ticket_key") ;;
  if negb (truthy project_id) || negb (truthy merge_request_iid)
  then ret false
  else
    diff <- GitLabService.get_merge_request_diff env project_id
                                                 merge_request_iid ;;
    if negb (opt_str_truthy diff) then ret false
    else
      let diff := GitLabService.or_empty diff in
      if (Z.of_nat (String.length diff) >? MAX_DIFF_SIZE (settings env))%Z
      then
        GitLabService.post_comment env project_id merge_request_iid
                                   (VStr too_large_notice) ;;;
        ret true
      else
        review_and_post env project_id merge_request_iid jira_ticket_key diff.

Definition process_message (env : Env) (msg : message) : M history bool :=
  try_except (process_message_body env msg) any_exception
             (fun _ => ret false).

(** The body of [for message in messages]. *)
Definition handle_message (env : Env) (msg : message) : M history unit :=
  if negb (opt_str_truthy (ReceiptHandle msg)) then ret tt
  else
    let receipt_handle := GitLabService.or_empty (ReceiptHandle msg) in
    success <- process_message env msg ;;
    if success then delete_message_from_sqs env receipt_handle
    else ret tt.

Definition sleep (seconds : Z) : M history unit :=
  call (Sleep seconds) (fun _ => Ret tt).

(** One turn of [while running]. *)
Definition main_iteration (env : Env) : M history unit :=
  try_except
    (messages <- receive_messages_from_sqs env ;;
     if negb (list_truthy messages) then sleep 5
     else for_each messages (handle_message env))
    any_exception
    (fun _ => sleep 5).

(** [main]: at most [turns] turns of the loop are followed. *)
Fixpoint main (env : Env) (turns : nat) : M history unit :=
  match turns with
  | O => ret tt
  | S n =>
      fun h =>
        if running env h then bind (main_iteration env) (fun _ => main env n) h
        else (Ret tt, h)
  end.

(** The message was acknowledged: a delete was issued for its handle. *)
Definition deleted (receipt_handle : string) (h : history) : Prop :=
  In (SqsDelete receipt_handle) h.

End Worker.

(* ================================================================== *)
(** ** Concrete environments and messages *)
(* ================================================================== *)

Module Scenario.
Import Py PyVal Eff Model.

Definition quote : string := String (ascii_of_nat 34) EmptyString.

(** JSON text of a value: enough of [json.dumps] for the values used
    here (strings without escapes, floats with one decimal). *)
Fixpoint dumps (v : value) : string :=
  match v with
  | VNone => "null"
  | VBool true => "true"
  | VBool false => "false"
  | VInt n => Z_to_string n
  | VFloat q => (Z_to_string (Qnum q / Z.pos (Qden q)) ++ "."
                 ++ Z_to_string ((Qnum q * 10 / Z.pos (Qden q)) mod 10))%string
  | VStr s => (quote ++ s ++ quote)%string
  | VList l =>
      ("[" ++ String.concat ", " (map dumps l) ++ "]")%string
  | VDict d =>
      ("{" ++ String.concat ", "
                ((fix items (d : list (string * value)) : list string :=
                    match d with
                    | [] => []
                    | (k, x) :: r =>
                        (quote ++ k ++ quote ++ ": " ++ dumps x)%string
                        :: items r
                    end) d)
           ++ "}")%string
  end.

(** [json.loads] on the texts of a table of values; anything else is
    not JSON. *)
Definition loads (table : list value) (text : string) : res value :=
  match find (fun v => String.eqb (dumps v) text) table with
  | Some v => Ret v
  | None => Raise JSONDecodeError
  end.

Definition the_settings : Settings :=
  {| GITLAB_URL := "https://gitlab.example.com";
     GITLAB_API_TOKEN := "glpat-token";
     JIRA_URL := "https://jira.example.com";
     JIRA_USERNAME := "reviewer";
     JIRA_API_TOKEN := "jira-token";
     AWS_REGION := "us-west-2";
     BEDROCK_MODEL_ID_PRIMARY := "anthropic.claude-instant-v1";
     BEDROCK_MODEL_ID_FALLBACK := "amazon.titan-text-lite-v1";
     MAX_DIFF_SIZE := 100000 |}.

(** A job for merge request 3 of project 7. *)
Definition job (jira_ticket_key : value) : value :=
  VDict [ ("project_id", VInt 7); ("merge_request_iid", VInt 3);
          ("source_branch", VStr "feature"); ("target_branch", VStr "main");
          ("jira_ticket_key", jira_ticket_key) ].

Definition job_without_project : value :=
  VDict [ ("merge_request_iid", VInt 3);
          ("source_branch", VStr "feature"); ("target_branch", VStr "main");
          ("jira_ticket_key", VNone) ].

Definition job_project_zero : value :=
  VDict [ ("project_id", VInt 0); ("merge_request_iid", VInt 3);
          ("source_branch", VStr "feature"); ("target_branch", VStr "main");
          ("jira_ticket_key", VNone) ].

Definition message_of (v : value) (receipt_handle : string) : message :=
  {| Body := Some (dumps v); ReceiptHandle := Some receipt_handle |}.

Definition small_change : change :=
  {| old_path := Some "README.md"; new_path := Some "README.md";
     change_diff := Some ("@@ -1 +1,2 @@" ++ NL ++ " Title" ++ NL
                           ++ "+More text" ++ NL)%string |}.

(** A change whose diff is longer than the ceiling of [low_ceiling]. *)
Definition huge_change : change :=
  {| old_path := Some "big.txt"; new_path := Some "big.txt";
     change_diff := Some (join NL
                            [ "@@ -0,0 +1,3 @@";
                              "+The first of many, many lines of text.";
                              "+The second of many, many lines of text.";
                              "+The third of many, many lines of text." ]) |}.

Definition huge_diff : string :=
  join NL (flat_map GitLabService.change_lines [huge_change]).

Definition completion_text : value :=
  VDict [ ("completion", VStr "Looks good to me.") ].

Definition titan_text : value :=
  VDict [ ("results", VList [VDict [("outputText", VStr "Fine.")]]) ].

Definition the_issue : jira_issue :=
  {| issue_key := "PROJ-1"; fields_summary := "Improve the README";
     fields_description := Holds None; fields_status := "Open";
     fields_issuetype := "Task"; fields_priority := Some "Medium";
     fields_assignee := Holds None; fields_reporter := Holds (Some "Ada");
     fields_created := "2024-01-01"; fields_updated := "2024-01-02";
     fields_comment := None; fields_labels := []; fields_components := [];
     customfield_10014 := None |}.

Definition eslint_message (sev : value) (at_line : Z) (text : string)
  : dict value :=
  [ ("ruleId", VStr "no-undef"); ("severity", sev); ("message", VStr text);
    ("line", VInt at_line); ("column", VInt 5) ].

(** What ESLint prints for one file: the first message twice. *)
Definition eslint_messages : list (dict value) :=
  [ eslint_message (VInt 2) 1 "'x' is not defined.";
    eslint_message (VInt 2) 1 "'x' is not defined.";
    eslint_message (VInt 1) 2 "Unexpected console statement.";
    eslint_message (VInt 0) 3 "Rule is off." ].

Definition eslint_result : dict value :=
  [ ("filePath", VStr "/tmp/tmpq1w2e3/test.js");
    ("messages", VList (map VDict eslint_messages)) ].

Definition eslint_output : value := VList [VDict eslint_result].

Definition pylint_message (type : string) (at_line : Z) (text : string)
  : dict value :=
  [ ("type", VStr type); ("line", VInt at_line); ("column", VInt 0);
    ("message", VStr text) ].

Definition pylint_messages : list (dict value) :=
  [ pylint_message "fatal" 1 "Cannot import module";
    pylint_message "error" 2 "Undefined variable 'y'";
    pylint_message "warning" 3 "Unused import os";
    pylint_message "convention" 4 "Missing module docstring";
    pylint_message "convention" 4 "Missing module docstring" ].

Definition pylint_output : value := VList (map VDict pylint_messages).

Definition table : list value :=
  [ job VNone; job (VStr "PROJ-1"); job_without_project; job_project_zero;
    completion_text; titan_text; eslint_output; pylint_output ].

(** An environment in which every service answers, but for the parts
    given as arguments. *)
Definition make_env
           (changes : list change)
           (notes_create : history -> value -> value -> value -> res unit)
           (connect : history -> res unit)
           (issue_get : history -> value -> res jira_issue)
           (write : history -> string -> string -> res unit)
           (invoke : history -> string -> string -> res string) : Env :=
  {| settings := the_settings;
     json_loads := loads table;
     json_dumps := dumps;
     py_repr := fun _ => "<repr>";
     py_int := fun _ => None;
     py_strip := fun s => s;
     re_finditer := fun _ _ => [];
     running := fun _ => true;
     sqs_receive_message := fun _ => Ret [];
     sqs_delete_message := fun _ _ => Ret tt;
     gitlab_projects_get := fun _ _ => Ret tt;
     gitlab_mergerequests_get := fun _ _ _ => Ret tt;
     gitlab_changes := fun _ _ _ => Ret changes;
     gitlab_notes_create := notes_create;
     jira_connect := connect;
     jira_issue_get := issue_get;
     tempdir_create := fun _ => Ret "/tmp/tmpq1w2e3";
     tempdir_cleanup := fun _ _ => Ret tt;
     os_makedirs := fun _ _ => Ret tt;
     write_file := write;
     check_output := fun _ _ => Ret EmptyString;
     bedrock_invoke_model := invoke |}.

Definition notes_ok : history -> value -> value -> value -> res unit :=
  fun _ _ _ _ => Ret tt.
Definition connect_ok : history -> res unit := fun _ => Ret tt.
Definition issue_ok : history -> value -> res jira_issue :=
  fun _ _ => Ret the_issue.
Definition write_ok : history -> string -> string -> res unit :=
  fun _ _ _ => Ret tt.
Definition invoke_ok : history -> string -> string -> res string :=
  fun _ model_id _ =>
    if startswith model_id "anthropic.claude" then Ret (dumps completion_text)
    else Ret (dumps titan_text).

(** Everything works. *)
Definition env_ok : Env :=
  make_env [small_change] notes_ok connect_ok issue_ok write_ok invoke_ok.

(** GitLab refuses the note (a [GitlabError], e.g. 403 or 500). *)
Definition env_note_refused : Env :=
  make_env [small_change] (fun _ _ _ _ => Raise GitlabError)
           connect_ok issue_ok write_ok invoke_ok.

(** The connection to GitLab breaks while the note is sent: the HTTP
    library's error, which is no [GitlabError]. *)
Definition env_note_connection_lost (changes : list change) : Env :=
  make_env changes (fun _ _ _ _ => Raise (OtherException "requests.ConnectionError"))
           connect_ok issue_ok write_ok invoke_ok.

(** The settings with a ceiling of 64 bytes (MAX_DIFF_SIZE=64). *)
Definition low_ceiling : Settings :=
  {| GITLAB_URL := GITLAB_URL the_settings;
     GITLAB_API_TOKEN := GITLAB_API_TOKEN the_settings;
     JIRA_URL := JIRA_URL the_settings;
     JIRA_USERNAME := JIRA_USERNAME the_settings;
     JIRA_API_TOKEN := JIRA_API_TOKEN the_settings;
     AWS_REGION := AWS_REGION the_settings;
     BEDROCK_MODEL_ID_PRIMARY := BEDROCK_MODEL_ID_PRIMARY the_settings;
     BEDROCK_MODEL_ID_FALLBACK := BEDROCK_MODEL_ID_FALLBACK the_settings;
     MAX_DIFF_SIZE := 64 |}.

Definition with_settings (env : Env) (s : Settings) : Env :=
  {| settings := s;
     json_loads := json_loads env;
     json_dumps := json_dumps env;
     py_repr := py_repr env;
     py_int := py_int env;
     py_strip := py_strip env;
     re_finditer := re_finditer env;
     running := running env;
     sqs_receive_message := sqs_receive_message env;
     sqs_delete_message := sqs_delete_message env;
     gitlab_projects_get := gitlab_projects_get env;
     gitlab_mergerequests_get := gitlab_mergerequests_get env;
     gitlab_changes := gitlab_changes env;
     gitlab_notes_create := gitlab_notes_create env;
     jira_connect := jira_connect env;
     jira_issue_get := jira_issue_get env;
     tempdir_create := tempdir_create env;
     tempdir_cleanup := tempdir_cleanup env;
     os_makedirs := os_makedirs env;
     write_file := write_file env;
     check_output := check_output env;
     bedrock_invoke_model := bedrock_invoke_model env |}.

(** Every service answers; the diff is larger than the ceiling. *)
Definition env_huge_diff : Env :=
  with_settings
    (make_env [huge_change] notes_ok connect_ok issue_ok write_ok invoke_ok)
    low_ceiling.

(** The diff is larger than the ceiling and the connection to GitLab
    breaks while the notice is sent. *)
Definition env_huge_diff_connection_lost : Env :=
  with_settings (env_note_connection_lost [huge_change]) low_ceiling.

(** Jira cannot be reached when the client is created. *)
Definition env_jira_down : Env :=
  make_env [small_change] notes_ok (fun _ => Raise JIRAError)
           issue_ok write_ok invoke_ok.

(** Jira is reached, but the issue request dies with an error of the
    HTTP library. *)
Definition env_jira_timeout : Env :=
  make_env [small_change] notes_ok connect_ok
           (fun _ _ => Raise (OtherException "requests.ReadTimeout"))
           write_ok invoke_ok.

(** Jira answers the issue request with an error ([JIRAError]). *)
Definition env_jira_not_found : Env :=
  make_env [small_change] notes_ok connect_ok (fun _ _ => Raise JIRAError)
           write_ok invoke_ok.

(** The Bedrock endpoint cannot be reached: botocore raises
    [EndpointConnectionError], which is no [ClientError]. *)
Definition env_bedrock_unreachable : Env :=
  make_env [small_change] notes_ok connect_ok issue_ok write_ok
           (fun _ model_id _ =>
              if startswith model_id "anthropic.claude"
              then Raise (BotoCoreError "EndpointConnectionError")
              else Ret (dumps titan_text)).

(** Bedrock answers the primary model with a service error. *)
Definition env_bedrock_throttled : Env :=
  make_env [small_change] notes_ok connect_ok issue_ok write_ok
           (fun _ model_id _ =>
              if startswith model_id "anthropic.claude"
              then Raise ClientError
              else Ret (dumps titan_text)).

(** Both models answer with a service error. *)
Definition env_bedrock_all_fail : Env :=
  make_env [small_change] notes_ok connect_ok issue_ok write_ok
           (fun _ _ _ => Raise ClientError).

(** The scratch directory cannot be written. *)
Definition env_disk_full : Env :=
  make_env [small_change] notes_ok connect_ok issue_ok
           (fun _ _ _ => Raise (OSError "No space left on device"))
           invoke_ok.


Definition the_service : BedrockService.service :=
  Worker.bedrock_service env_ok.

(** A two-file diff: a Python file and a JavaScript file. *)
Definition two_file_diff : string :=
  join NL
    [ "diff --git a/test.py b/test.py";
      "--- a/test.py";
      "+++ b/test.py";
      "@@ -1,3 +1,4 @@";
      " def hello():";
      "+    # This is a comment";
      "+    return None";
      "diff --git a/test.js b/test.js";
      "--- a/test.js";
      "+++ b/test.js";
      "@@ -1,3 +1,4 @@";
      "+    return null;" ].

(** A diff whose first file only loses lines. *)
Definition removal_diff : string :=
  join NL
    [ "--- a/old.py";
      "+++ b/old.py";
      "@@ -1,2 +1,1 @@";
      "-import os";
      "diff --git a/new.py b/new.py";
      "--- a/new.py";
      "+++ b/new.py";
      "+x = 1" ].

End Scenario.

(* ================================================================== *)
(** ** What the properties speak of *)
(* ================================================================== *)

Module Observations.
Import Py PyVal Eff Model DiffParser LinterService BedrockService Worker.

(** The active path as the specification sees it. *)
Definition cur_of (st : state) : option string :=
  if active (current_file st) then current_file st else None.

(** A computation of the linter only appends to the issues it finds
    already there, and does not look at them. *)
Definition appends {A} (m : M (history * list finding) A) : Prop :=
  forall h found,
    m (h, found)
    = (fst (m (h, [])),
       (fst (snd (m (h, []))), found ++ snd (snd (m (h, []))))).






(** The command lines of the two analyzers. *)
Definition eslint_cmd (temp_dir file_path : string) : list string :=
  ["eslint"; "--format=json"; PosixPath.join temp_dir file_path].


Definition pylint_cmd (temp_dir file_path : string) : list string :=
  ["pylint"; "--output-format=json"; PosixPath.join temp_dir file_path].

(** The request a model identifier selects, if it is supported. *)
Definition request_for (model_id prompt : string) : option value :=
  if startswith model_id "anthropic.claude" then Some (claude_request prompt)
  else if startswith model_id "amazon.titan" then Some (titan_request prompt)
  else None.

(** The calls one invocation makes: one for a supported model, with the
    prompt it was given, none otherwise. *)
Definition invocation (env : Env) (model_id prompt : string) : list event :=
  match request_for model_id prompt with
  | Some request_body => [BedrockInvoke model_id (json_dumps env request_body)]
  | None => []
  end.

(** What [generate_review] makes of the outcome of the fallback. *)
Definition fallback_result (out : res value) : value :=
  match out with
  | Ret r => if truthy r then r else VNone
  | Raise _ => VNone
  end.

(** A call to the repository host. *)
Definition is_gitlab_event (ev : event) : bool :=
  match ev with
  | GitlabGetProject _ | GitlabGetMergeRequest _ _ | GitlabChanges _ _
  | GitlabCreateNote _ _ _ => true
  | _ => false
  end.

(** A call of the lint dispatcher: a temporary directory made or
    removed, a directory made, a file written, a process run.  The class
    says nothing about where a file is written. *)
Definition is_lint_event (ev : event) : bool :=
  match ev with
  | TempDirCreate | TempDirCleanup _ | MakeDirs _ | WriteFile _ _
  | Subprocess _ => true
  | _ => false
  end.

(** A model invocation. *)
Definition is_model_event (ev : event) : bool :=
  match ev with
  | BedrockInvoke _ _ => true
  | _ => false
  end.

(** The delete of the message with the given receipt handle. *)
Definition is_delete_of (receipt_handle : string) (ev : event) : bool :=
  match ev with
  | SqsDelete r => String.eqb r receipt_handle
  | _ => false
  end.

(** Neither a lint run nor a model invocation. *)
Definition quiet (ev : event) : Prop :=
  is_lint_event ev = false /\ is_model_event ev = false.

End Observations.

(* ================================================================== *)
(** ** Diff texts as the repository host service builds them *)
(* ================================================================== *)

Module DiffText.
Import Py DiffParser.

(** A string without line feed. *)
Definition one_line (s : string) : Prop := count LF s = O.

(** A line of a hunk as the parser sees it: not blank, neither a
    ["diff "] header nor a new-file marker. *)
Definition hunk_line (l : string) : bool :=
  str_truthy l && negb (startswith l "diff ")
  && negb (startswith l "+++ b/").

(** The test of the parser for an added line. *)
Definition is_added (l : string) : bool :=
  startswith l "+" && negb (startswith l "+++").

(** What the parser keeps of the lines of a hunk: the lines that pass
    its test, without their first character.  This is the code's reading,
    not the diff's: the test also fails on an added line whose text
    begins with two plus signs. *)
Definition kept_lines (ls : list string) : list string :=
  map (drop 1) (filter is_added ls).

(** A changed file: old path, new path and the lines of its diff. *)
Record file_change : Type := {
  fc_old : string;
  fc_new : string;
  fc_lines : list string
}.

(** The entry of [changes] for it: the diff is its lines, each ended by
    a line feed. *)
Definition to_change (c : file_change) : Model.change :=
  {| Model.old_path := Some (fc_old c);
     Model.new_path := Some (fc_new c);
     Model.change_diff := Some (join NL (fc_lines c ++ [EmptyString])) |}.

Definition well_formed (c : file_change) : Prop :=
  one_line (fc_old c) /\ one_line (fc_new c) /\ str_truthy (fc_new c) = true
  /\ Forall one_line (fc_lines c)
  /\ Forall (fun l => hunk_line l = true) (fc_lines c).

(** The lines of the text [get_merge_request_diff] builds for it. *)
Definition text_lines (c : file_change) : list string :=
  ("--- a/" ++ fc_old c)%string :: ("+++ b/" ++ fc_new c)%string
  :: fc_lines c ++ [EmptyString].

(** A section that carries a path taken from a new-file marker of the
    input and added lines taken from its lines. *)
Definition from_input (lines : list string) (s : string * list string) : Prop :=
  str_truthy (fst s) = true
  /\ In ("+++ b/" ++ fst s)%string lines
  /\ Forall (fun t => In ("+" ++ t)%string lines) (snd s).

End DiffText.

(* ================================================================== *)
(** ** Classes of calls and what a computation may do *)
(* ================================================================== *)

Module Traces.
Import Py PyVal Eff Model.

(** A call to the issue tracker. *)
Definition is_jira_event (ev : event) : bool :=
  match ev with
  | JiraConnect _ _ _ | JiraIssue _ => true
  | _ => false
  end.

(** A call to the queue, or a pause of the consumer loop. *)
Definition is_queue_event (ev : event) : bool :=
  match ev with
  | SqsReceive | SqsDelete _ | Sleep _ => true
  | _ => false
  end.

(** A call of message processing: anything but the queue's. *)
Definition is_processing_event (ev : event) : bool :=
  negb (is_queue_event ev).

(** The computation only adds calls to the history it is given, which it
    reads in its state through [proj], and all of them are of the class
    [P]. *)
Definition emits {S A} (proj : S -> list event) (P : event -> bool)
           (m : M S A) : Prop :=
  forall s, exists evs,
      proj (snd (m s)) = proj s ++ evs /\ Forall (fun ev => P ev = true) evs.

(** The class of no call at all. *)
Definition silent (ev : event) : bool := false.

(** The computation never raises. *)
Definition returns {S A} (m : M S A) : Prop :=
  forall s, exists a s', m s = (Ret a, s').

(** The history, for a computation of the worker and for one of a
    linter run. *)
Definition whole (h : list event) : list event := h.
Definition of_run (s : list event * list finding) : list event := fst s.

End Traces.

(* ================================================================== *)
(** ** Environments for the consumer loop *)
(* ================================================================== *)

Module QueueScenario.
Import Py PyVal Eff Model.

(** [env] with another queue. *)
Definition with_queue (env : Env)
           (receive : list event -> res (list message))
           (delete : list event -> string -> res unit) : Env :=
  {| settings := settings env;
     json_loads := json_loads env;
     json_dumps := json_dumps env;
     py_repr := py_repr env;
     py_int := py_int env;
     py_strip := py_strip env;
     re_finditer := re_finditer env;
     running := running env;
     sqs_receive_message := receive;
     sqs_delete_message := delete;
     gitlab_projects_get := gitlab_projects_get env;
     gitlab_mergerequests_get := gitlab_mergerequests_get env;
     gitlab_changes := gitlab_changes env;
     gitlab_notes_create := gitlab_notes_create env;
     jira_connect := jira_connect env;
     jira_issue_get := jira_issue_get env;
     tempdir_create := tempdir_create env;
     tempdir_cleanup := tempdir_cleanup env;
     os_makedirs := os_makedirs env;
     write_file := write_file env;
     check_output := check_output env;
     bedrock_invoke_model := bedrock_invoke_model env |}.

Definition first_message : message :=
  Scenario.message_of (Scenario.job VNone) "rh-1".

Definition second_message : message :=
  Scenario.message_of (Scenario.job VNone) "rh-2".

Definition malformed_message : message :=
  Scenario.message_of Scenario.job_without_project "rh-0".

(** The queue hands out two messages and then refuses every delete. *)
Definition env_delete_refused : Env :=
  with_queue Scenario.env_ok
             (fun _ => Ret [first_message; second_message])
             (fun _ _ => Raise ClientError).

(** The queue hands out a malformed message followed by a good one. *)
Definition env_malformed_first : Env :=
  with_queue Scenario.env_ok
             (fun _ => Ret [malformed_message; second_message])
             (fun _ _ => Ret tt).

(** The queue cannot be reached. *)
Definition env_queue_down : Env :=
  with_queue Scenario.env_ok (fun _ => Raise ClientError) (fun _ _ => Ret tt).

(** A merge request without changes. *)
Definition env_no_changes : Env :=
  Scenario.make_env [] Scenario.notes_ok Scenario.connect_ok Scenario.issue_ok
                    Scenario.write_ok Scenario.invoke_ok.



End QueueScenario.

(* ================================================================== *)
(** ** What the lint dispatcher is expected to find *)
(* ================================================================== *)

Module LintTerms.
Import Py PyVal Eff Model LinterService.

(** The language of a path, by its extension. *)
Definition language_of (file_path : string) : option string :=
  dict_get supported_languages (snd (PosixPath.splitext file_path)).

Definition in_language (lang file_path : string) : bool :=
  match language_of file_path with
  | Some l => String.eqb l lang
  | None => false
  end.

(** The content under a path in the bucket of a language. *)
Definition in_bucket (groups : dict (dict string)) (lang file_path : string)
  : option string :=
  match dict_get groups lang with
  | Some bucket => dict_get bucket file_path
  | None => None
  end.

(** The findings of one pattern rule on one file: one per match, at the
    line of the start of the match. *)
Definition regex_findings (env : Env) (pattern msg sev : string)
           (file_path content : string) : list finding :=
  map (fun start =>
         {| file := file_path;
            line := VInt (Z.of_nat (count LF (take start content) + 1));
            column := VInt 1; message_text := VStr msg;
            severity := sev; source := "regex" |})
      (re_finditer env pattern content).

Definition java_findings (env : Env) (entry : string * string) : list finding :=
  regex_findings env empty_catch_pattern "Empty catch block" "warning"
                 (fst entry) (snd entry)
  ++ regex_findings env "System\.out\.println"
                    "Use a logger instead of System.out.println" "info"
                    (fst entry) (snd entry).

Definition csharp_findings (env : Env) (entry : string * string)
  : list finding :=
  regex_findings env empty_catch_pattern "Empty catch block" "warning"
                 (fst entry) (snd entry)
  ++ regex_findings env "Console\.WriteLine"
                    "Use a logger instead of Console.WriteLine" "info"
                    (fst entry) (snd entry).

(** A finding of an in-process rule points into the file it names: a
    line between 1 and one more than the line feeds of the content. *)
Definition points_into (files : dict string) (f : finding) : Prop :=
  exists content n,
    In (file f, content) files /\ line f = VInt n
    /\ (1 <= n <= Z.of_nat (count LF content) + 1)%Z.

(** The command lines of the other two analyzers. *)
Definition flake8_cmd (temp_dir file_path : string) : list string :=
  ["flake8"; "--format=json"; PosixPath.join temp_dir file_path].

Definition go_vet_cmd (temp_dir file_path : string) : list string :=
  ["go"; "vet"; PosixPath.join temp_dir file_path].

(** A run of an analyzer on one file that never raises, makes the one
    call [cmd file_path] and only appends findings. *)
Definition isolated (run : string -> L unit) (cmd : string -> list string)
  : Prop :=
  forall file_path h found,
  exists new,
    run file_path (h, found)
    = (Ret tt, (h ++ [Subprocess (cmd file_path)], found ++ new)).

End LintTerms.

(* ================================================================== *)
(** ** app/utils/validators.py, app/main.py and app/tasks.py *)
(* ================================================================== *)

Module Ingress.
Import Py PyVal Eff Model.

(** What the endpoint reads of a request: the raw body and the value of
    the [X-Gitlab-Token] header, if the request has one. *)
Record request : Type := {
  request_body : string;
  x_gitlab_token : option string
}.

(** A [JSONResponse]: the status code and the one entry of its content. *)
Record response : Type := {
  status_code : Z;
  content_key : string;
  content_text : string
}.

(** What the endpoint and the task can raise: FastAPI's [HTTPException],
    itself a subclass of [Exception], or an exception of the worker's
    kinds. *)
Inductive failure : Type :=
| HTTPException (status : Z) (detail : string)
| Python (e : exn).

Inductive outcome (A : Type) : Type :=
| Done (a : A)
| Failed (f : failure).
Arguments Done {A} a.
Arguments Failed {A} f.

(** Calls of the ingress side, in the order they are made. *)
Inductive app_event : Type :=
| TaskDelay (project_id merge_request_iid source_branch target_branch
                        description : value)
| SqsSend (body : string)
| TaskRetry (e : failure).

Definition H (A : Type) : Type := list app_event -> outcome A * list app_event.

Definition done {A} (a : A) : H A := fun h => (Done a, h).

Definition fail {A} (f : failure) : H A := fun h => (Failed f, h).

Definition then_ {A B} (m : H A) (k : A -> H B) : H B :=
  fun h =>
    match m h with
    | (Done a, h') => k a h'
    | (Failed f, h') => (Failed f, h')
    end.

(** A pure step of the worker's kind. *)
Definition pure {A} (r : res A) : H A :=
  fun h => (match r with Ret a => Done a | Raise e => Failed (Python e) end, h).

(** [try: body  except ...: handler], the handler choosing by class. *)
Definition try_ {A} (body : H A) (handler : failure -> H A) : H A :=
  fun h =>
    match body h with
    | (Done a, h') => (Done a, h')
    | (Failed f, h') => handler f h'
    end.

Definition app_call {A} (e : app_event) (result : list app_event -> res A)
  : H A :=
  fun h =>
    (match result h with Ret a => Done a | Raise x => Failed (Python x) end,
     h ++ [e]).

(** Everything outside the two modules. *)
Record AppEnv : Type := {
  worker_env : Env;                       (* json.loads, json.dumps, str *)
  GITLAB_WEBHOOK_TOKEN : option string;   (* settings.GITLAB_WEBHOOK_TOKEN *)
  str_of_failure : failure -> string;     (* str(e) *)
  re_search : string -> string -> option string;   (* group 1 of the first match *)
  celery_delay : list app_event -> res unit;
  sqs_send_message : list app_event -> string -> res value;
  celery_retry : list app_event -> failure -> failure   (* what self.retry raises *)
}.

(** [validate_gitlab_webhook]: the payload is not looked at. *)
Definition validate_gitlab_webhook (aenv : AppEnv) (req : request)
  : bool * string :=
  if negb (match GITLAB_WEBHOOK_TOKEN aenv with
           | Some t => str_truthy t
           | None => false
           end)
  then (true, EmptyString)
  else
    match x_gitlab_token req with
    | None => (false, "Missing X-Gitlab-Token header")
    | Some gitlab_token =>
        if negb (str_truthy gitlab_token)
        then (false, "Missing X-Gitlab-Token header")
        else if negb (String.eqb gitlab_token
                        (match GITLAB_WEBHOOK_TOKEN aenv with
                         | Some t => t
                         | None => EmptyString
                         end))
             then (false, "Invalid GitLab webhook token")
             else (true, EmptyString)
    end.

Definition valid_actions : list string := ["open"; "update"; "reopen"].

Definition ok_200 (text : string) : response :=
  {| status_code := 200; content_key := "message"; content_text := text |}.

(** The body of the [try] of [review_code]. *)
Definition review_code_body (aenv : AppEnv) (req : request) : H response :=
  then_ (pure (json_loads (worker_env aenv) (request_body req))) (fun payload =>
  let (is_valid, error_msg) := validate_gitlab_webhook aenv req in
  if negb is_valid
  then fail (HTTPException 400 ("Invalid GitLab webhook: " ++ error_msg)%string)
  else
    then_ (pure (py_get payload "object_kind")) (fun object_kind =>
    if negb (eq_str object_kind "merge_request")
    then done (ok_200 "Ignoring non-merge request event")
    else
      then_ (pure (py_get_default payload "object_attributes" (VDict [])))
            (fun attributes =>
      then_ (pure (py_get attributes "action")) (fun action =>
      if negb (in_strs action valid_actions)
      then done (ok_200 ("Ignoring merge request action: "
                           ++ py_str (worker_env aenv) action)%string)
      else
        then_ (pure (py_get_default payload "object_attributes" (VDict [])))
              (fun merge_request =>
        then_ (pure (py_get merge_request "target_project_id"))
              (fun project_id =>
        then_ (pure (py_get merge_request "iid")) (fun merge_request_iid =>
        then_ (pure (py_get merge_request "source_branch"))
              (fun source_branch =>
        then_ (pure (py_get merge_request "target_branch"))
              (fun target_branch =>
        then_ (pure (py_get_default merge_request "description"
                                    (VStr EmptyString)))
              (fun description =>
        if negb (forallb truthy [project_id; merge_request_iid;
                                 source_branch; target_branch])
        then fail (HTTPException 400
                                 "Missing required merge request information")
        else
          then_ (app_call (TaskDelay project_id merge_request_iid
                                     source_branch target_branch description)
                          (celery_delay aenv))
                (fun _ =>
          done {| status_code := 202; content_key := "message";
                  content_text :=
                    ("Code review initiated for merge request "
                       ++ py_str (worker_env aenv) project_id ++ "/"
                       ++ py_str (worker_env aenv) merge_request_iid)%string
               |}))))))))))).

(** [review_code]: the two [except] clauses. *)
Definition review_code (aenv : AppEnv) (req : request) : H response :=
  try_ (review_code_body aenv req)
       (fun f =>
          match f with
          | Python JSONDecodeError =>
              fail (HTTPException 400 "Invalid JSON payload")
          | _ =>
              fail (HTTPException 500 ("Error processing webhook: "
                                         ++ str_of_failure aenv f)%string)
          end).

(** The two exception handlers of the application. *)
Definition http_exception_handler (status : Z) (detail : string) : response :=
  {| status_code := status; content_key := "detail"; content_text := detail |}.

Definition general_exception_handler : response :=
  {| status_code := 500; content_key := "detail";
     content_text := "An unexpected error occurred" |}.

(** What a client of [POST /review] gets, and the calls made for it. *)
Definition serve_review (aenv : AppEnv) (req : request)
  : list app_event -> response * list app_event :=
  fun h =>
    match review_code aenv req h with
    | (Done r, h') => (r, h')
    | (Failed (HTTPException status detail), h') =>
        (http_exception_handler status detail, h')
    | (Failed (Python _), h') => (general_exception_handler, h')
    end.

(** [GET /health] *)
Definition health_check : string * string := ("status", "healthy").

Definition jira_pattern : string := "([A-Z]+-\d+)".

(** The job descriptor of [process_pull_request]. *)
Definition job_message (project_id merge_request_iid source_branch
                                   target_branch jira_ticket_key : value)
  : value :=
  VDict [ ("project_id", project_id);
          ("merge_request_iid", merge_request_iid);
          ("source_branch", source_branch);
          ("target_branch", target_branch);
          ("jira_ticket_key", jira_ticket_key) ].

(** [send_message_to_sqs]: a [ClientError] is logged and raised again. *)
Definition send_message_to_sqs (aenv : AppEnv) (message : value) : H value :=
  app_call (SqsSend (json_dumps (worker_env aenv) message))
           (fun h => sqs_send_message
                       aenv h (json_dumps (worker_env aenv) message)).

(** What the task returns. *)
Record task_result : Type := {
  task_status : string;
  task_message : string;
  sqs_message_id : value
}.

(** "Extract Jira ticket key from description (if present)":
    [re.search] on anything but a string raises [TypeError]. *)
Definition extract_ticket_key (aenv : AppEnv) (description : value)
  : res value :=
  match description with
  | VStr text =>
      Ret (match re_search aenv jira_pattern text with
           | Some key => VStr key
           | None => VNone
           end)
  | _ => Raise TypeError
  end.

Definition process_pull_request (aenv : AppEnv)
           (project_id merge_request_iid source_branch target_branch
                       description : value) : H task_result :=
  try_
    (then_ (pure (extract_ticket_key aenv description)) (fun jira_ticket_key =>
     then_ (send_message_to_sqs
              aenv (job_message project_id merge_request_iid source_branch
                                target_branch jira_ticket_key))
           (fun sqs_response =>
     then_ (pure (py_get sqs_response "MessageId")) (fun message_id =>
     done {| task_status := "success";
             task_message :=
               ("Merge request " ++ py_str (worker_env aenv) project_id ++ "/"
                  ++ py_str (worker_env aenv) merge_request_iid
                  ++ " sent to SQS for review")%string;
             sqs_message_id := message_id |}))))
    (fun f => fun h =>
       (Failed (celery_retry aenv h f), h ++ [TaskRetry f])).

(** A request as GitLab sends it for a merge request. *)
Definition merge_request_event (action : string)
           (project_id merge_request_iid : value) (description : value)
  : value :=
  VDict [ ("object_kind", VStr "merge_request");
          ("object_attributes",
           VDict [ ("action", VStr action);
                   ("target_project_id", project_id);
                   ("iid", merge_request_iid);
                   ("source_branch", VStr "feature");
                   ("target_branch", VStr "main");
                   ("description", description) ]) ].

Definition opened_event : value :=
  merge_request_event "open" (VInt 7) (VInt 3) (VStr "Closes PROJ-1").

Definition closed_event : value :=
  merge_request_event "close" (VInt 7) (VInt 3) (VStr "Closes PROJ-1").

(** An application with the webhook token [secret]; [json.loads] knows
    the two events and the jobs of the scenarios. *)
Definition the_app : AppEnv :=
  {| worker_env :=
       Scenario.with_settings
         {| settings := Scenario.the_settings;
            json_loads := Scenario.loads (opened_event :: closed_event
                                            :: Scenario.table);
            json_dumps := Scenario.dumps;
            py_repr := py_repr Scenario.env_ok;
            py_int := py_int Scenario.env_ok;
            py_strip := py_strip Scenario.env_ok;
            re_finditer := re_finditer Scenario.env_ok;
            running := running Scenario.env_ok;
            sqs_receive_message := sqs_receive_message Scenario.env_ok;
            sqs_delete_message := sqs_delete_message Scenario.env_ok;
            gitlab_projects_get := gitlab_projects_get Scenario.env_ok;
            gitlab_mergerequests_get := gitlab_mergerequests_get Scenario.env_ok;
            gitlab_changes := gitlab_changes Scenario.env_ok;
            gitlab_notes_create := gitlab_notes_create Scenario.env_ok;
            jira_connect := jira_connect Scenario.env_ok;
            jira_issue_get := jira_issue_get Scenario.env_ok;
            tempdir_create := tempdir_create Scenario.env_ok;
            tempdir_cleanup := tempdir_cleanup Scenario.env_ok;
            os_makedirs := os_makedirs Scenario.env_ok;
            write_file := write_file Scenario.env_ok;
            check_output := check_output Scenario.env_ok;
            bedrock_invoke_model := bedrock_invoke_model Scenario.env_ok |}
         Scenario.the_settings;
     GITLAB_WEBHOOK_TOKEN := Some "secret";
     str_of_failure := fun f =>
       match f with
       | HTTPException status detail =>
           (Z_to_string status ++ ": " ++ detail)%string
       | Python _ => "error"
       end;
     re_search := fun _ text =>
       if String.eqb text "Closes PROJ-1" then Some "PROJ-1" else None;
     celery_delay := fun _ => Ret tt;
     sqs_send_message := fun _ _ => Ret (VDict [("MessageId", VStr "m-1")]);
     celery_retry := fun _ f => f |}.

End Ingress.

(* ================================================================== *)
(** ** A worker that is told to stop *)
(* ================================================================== *)

Module Shutdown.
Import Py PyVal Eff Model.

(** [env] in which [signal_handler] clears the [running] flag once
    [calls] calls have been made. *)
Definition signalled_after (calls : nat) (env : Env) : Env :=
  {| settings := settings env;
     json_loads := json_loads env;
     json_dumps := json_dumps env;
     py_repr := py_repr env;
     py_int := py_int env;
     py_strip := py_strip env;
     re_finditer := re_finditer env;
     running := fun h => Nat.ltb (List.length h) calls;
     sqs_receive_message := sqs_receive_message env;
     sqs_delete_message := sqs_delete_message env;
     gitlab_projects_get := gitlab_projects_get env;
     gitlab_mergerequests_get := gitlab_mergerequests_get env;
     gitlab_changes := gitlab_changes env;
     gitlab_notes_create := gitlab_notes_create env;
     jira_connect := jira_connect env;
     jira_issue_get := jira_issue_get env;
     tempdir_create := tempdir_create env;
     tempdir_cleanup := tempdir_cleanup env;
     os_makedirs := os_makedirs env;
     write_file := write_file env;
     check_output := check_output env;
     bedrock_invoke_model := bedrock_invoke_model env |}.

End Shutdown.

(* ================================================================== *)
(** ** An issue with a hidden field *)
(* ================================================================== *)

Module IssueScenario.
Import Py PyVal Eff Model.

(** The issue of the scenarios on a Jira whose field configuration hides
    the assignee: the attribute is not on the object. *)
Definition issue_without_assignee : jira_issue :=
  {| issue_key := "PROJ-1"; fields_summary := "Improve the README";
     fields_description := Holds None; fields_status := "Open";
     fields_issuetype := "Task"; fields_priority := Some "Medium";
     fields_assignee := Missing; fields_reporter := Holds (Some "Ada");
     fields_created := "2024-01-01"; fields_updated := "2024-01-02";
     fields_comment := None; fields_labels := []; fields_components := [];
     customfield_10014 := None |}.

Definition env_assignee_hidden : Env :=
  Scenario.make_env [Scenario.small_change] Scenario.notes_ok
                    Scenario.connect_ok
                    (fun _ _ => Ret issue_without_assignee)
                    Scenario.write_ok Scenario.invoke_ok.

End IssueScenario.

(* ================================================================== *)
(** ** What the analyzers print, and what is found in it *)
(* ================================================================== *)

Module Discovery.
Import Py PyVal Eff Model LinterService Observations LintTerms.










End Discovery.

(* ================================================================== *)
(** ** The diff of a file, line by line *)
(* ================================================================== *)

Module Hunks.
Import Py DiffParser DiffText.

(** A line of the diff of one file, as a unified diff has them: the
    range of a hunk, a line of context, an added line, a removed line, or
    the note on a missing end of line. *)
Inductive hunk_entry : Type :=
| RangeLine (text : string)
| ContextLine (text : string)
| AddedLine (text : string)
| RemovedLine (text : string)
| NoNewlineNote.

(** The line as it stands in the diff. *)
Definition render (e : hunk_entry) : string :=
  match e with
  | RangeLine text => "@@" ++ text
  | ContextLine text => " " ++ text
  | AddedLine text => "+" ++ text
  | RemovedLine text => "-" ++ text
  | NoNewlineNote => "\ No newline at end of file"
  end.

Definition text_of (e : hunk_entry) : string :=
  match e with
  | RangeLine text | ContextLine text | AddedLine text | RemovedLine text =>
      text
  | NoNewlineNote => EmptyString
  end.

(** The added lines of a file: the text of every added line, in order. *)
Definition added_lines (es : list hunk_entry) : list string :=
  flat_map (fun e => match e with AddedLine text => [text] | _ => [] end) es.

(** No added line has a text that the parser would read as the header of
    another file. *)
Definition no_marker (e : hunk_entry) : bool :=
  match e with
  | AddedLine text => negb (startswith text "++ b/")
  | _ => true
  end.

(** A changed file: old path, new path and the lines of its diff. *)
Record changed_file : Type := {
  cf_old : string;
  cf_new : string;
  cf_entries : list hunk_entry
}.

(** Its lines as text. *)
Definition rendered (c : changed_file) : file_change :=
  {| fc_old := cf_old c; fc_new := cf_new c;
     fc_lines := map render (cf_entries c) |}.

(** Paths and texts hold no line feed, the new path is not empty, and no
    added line looks like a file header. *)
Definition proper (c : changed_file) : Prop :=
  one_line (cf_old c) /\ one_line (cf_new c) /\ str_truthy (cf_new c) = true
  /\ Forall (fun e => one_line (text_of e)) (cf_entries c)
  /\ Forall (fun e => no_marker e = true) (cf_entries c).

(** The text [get_merge_request_diff] builds for the changed files, the
    diff of each made of its lines, each ended by a line feed. *)
Definition built_diff (cs : list changed_file) : string :=
  join NL (flat_map GitLabService.change_lines
                    (map (fun c => to_change (rendered c)) cs)).

(** An added line that the parser's test lets through: its text does not
    begin with two plus signs. *)
Definition survives (text : string) : bool := negb (startswith text "++").

End Hunks.

(* ================================================================== *)
(** * Properties *)
(* ================================================================== *)

(** ** Strings and dictionaries *)

Module PyFacts.
Import Py.

Lemma startswith_cons (c : ascii) (p s : string) :
  startswith s (String c p) = true ->
  exists s', s = String c s' /\ startswith s' p = true.
Proof.
  unfold startswith. destruct s as [|a s']; simpl; [discriminate|].
  destruct (ascii_dec c a) as [->|]; [|discriminate].
  intros H. exists s'. split; [reflexivity|exact H].
Qed.

(** Two markers that start with different characters exclude each other. *)
Lemma startswith_disjoint (c1 c2 : ascii) (p1 p2 s : string) :
  c1 <> c2 ->
  startswith s (String c1 p1) = true ->
  startswith s (String c2 p2) = false.
Proof.
  intros Hne H. apply startswith_cons in H as (s' & -> & _).
  unfold startswith. simpl.
  destruct (ascii_dec c2 c1) as [->|]; [contradiction Hne; reflexivity|].
  reflexivity.
Qed.

Lemma startswith_not_empty (c : ascii) (p s : string) :
  startswith s (String c p) = true -> String.eqb s EmptyString = false.
Proof.
  intros H. apply startswith_cons in H as (s' & -> & _). reflexivity.
Qed.

(** A longer marker implies its own prefixes. *)
Lemma startswith_shorter (s p q : string) :
  startswith s (p ++ q)%string = true -> startswith s p = true.
Proof.
  unfold startswith. revert s. induction p as [|c p IH]; intros s.
  - destruct s; reflexivity.
  - destruct s as [|a s']; simpl; [discriminate|].
    destruct (ascii_dec c a); [apply IH|discriminate].
Qed.

Lemma dict_get_set_same {V} (d : dict V) (k : string) (v : V) :
  dict_get (dict_set d k v) k = Some v.
Proof.
  induction d as [|[k' v'] r IH]; simpl.
  - rewrite String.eqb_refl. reflexivity.
  - destruct (String.eqb k' k) eqn:E; simpl.
    + rewrite String.eqb_refl. reflexivity.
    + rewrite E. exact IH.
Qed.

Lemma dict_get_set_other {V} (d : dict V) (k k' : string) (v : V) :
  k <> k' -> dict_get (dict_set d k v) k' = dict_get d k'.
Proof.
  intros Hne. induction d as [|[k0 v0] r IH]; simpl.
  - destruct (String.eqb k k') eqn:E; [|reflexivity].
    apply String.eqb_eq in E. contradiction.
  - destruct (String.eqb k0 k) eqn:E; simpl.
    + apply String.eqb_eq in E. subst k0.
      destruct (String.eqb k k') eqn:E'; [|reflexivity].
      apply String.eqb_eq in E'. contradiction.
    + destruct (String.eqb k0 k'); [reflexivity|exact IH].
Qed.

End PyFacts.

(** ** The diff parser *)

Module DiffParserFacts.
Import Py PyFacts DiffParser Observations.

Lemma new_file_marker (l : string) :
  startswith l "+++ b/" = true ->
  startswith l "--- a/" = false /\ startswith l "+" = true
  /\ startswith l "+++" = true /\ startswith l "diff " = false
  /\ String.eqb l EmptyString = false.
Proof.
  intros H. repeat split.
  - eapply startswith_disjoint; [|exact H]. discriminate.
  - apply (startswith_shorter l "+" "++ b/"). exact H.
  - apply (startswith_shorter l "+++" " b/"). exact H.
  - eapply startswith_disjoint; [|exact H]. discriminate.
  - eapply startswith_not_empty. exact H.
Qed.

Lemma old_file_marker (l : string) :
  startswith l "--- a/" = true ->
  startswith l "+" = false /\ startswith l "diff " = false
  /\ String.eqb l EmptyString = false.
Proof.
  intros H. repeat split.
  - eapply startswith_disjoint; [|exact H]. discriminate.
  - eapply startswith_disjoint; [|exact H]. discriminate.
  - eapply startswith_not_empty. exact H.
Qed.

Lemma added_marker (l : string) :
  startswith l "+" = true ->
  startswith l "--- a/" = false /\ startswith l "diff " = false
  /\ String.eqb l EmptyString = false.
Proof.
  intros H. repeat split.
  - eapply startswith_disjoint; [|exact H]. discriminate.
  - eapply startswith_disjoint; [|exact H]. discriminate.
  - eapply startswith_not_empty. exact H.
Qed.

Lemma finish_flush (st : state) :
  finish st =
  fold_left flush (sections_from (cur_of st) (current_content st) []) (files st).
Proof.
  unfold finish, cur_of. destruct (current_file st) as [p|]; simpl.
  - destruct (str_truthy p); simpl; [|reflexivity].
    unfold flush. simpl. destruct (current_content st); reflexivity.
  - reflexivity.
Qed.

End DiffParserFacts.

Module DiffParserRefinement.
Import Py PyFacts DiffParser DiffParserFacts Observations.

Lemma cur_of_active (st : state) :
  active (current_file st) = true ->
  cur_of st = Some (path_of (current_file st)).
Proof.
  unfold cur_of. intros H. rewrite H.
  destruct (current_file st); [reflexivity|discriminate H].
Qed.

Lemma cur_of_inactive (st : state) :
  active (current_file st) = false -> cur_of st = None.
Proof. unfold cur_of. intros ->. reflexivity. Qed.

Lemma flush_code (d : dict string) (p : string) (acc : list string) :
  (if list_truthy acc then dict_set d p (join NL acc) else d) = flush d (p, acc).
Proof. destruct acc; reflexivity. Qed.

(** One line of input moves the code and the specification alike. *)
Lemma step_sections (st : state) (l : string) (rest : list string) :
  fold_left flush
    (sections_from (cur_of (step st l)) (current_content (step st l)) rest)
    (files (step st l))
  = fold_left flush
      (sections_from (cur_of st) (current_content st) (l :: rest))
      (files st).
Proof.
  cbn [sections_from]. unfold classify, step, scan_line, close_section.
  destruct (startswith l "+++ b/") eqn:E1.
  - destruct (new_file_marker l E1) as (-> & _ & _ & -> & ->).
    cbn [orb andb]. rewrite andb_false_r. unfold cur_of. cbn.
    reflexivity.
  - destruct (startswith l "--- a/") eqn:E2.
    + destruct (old_file_marker l E2) as (-> & -> & ->).
      cbn [orb andb negb]. rewrite andb_false_r. reflexivity.
    + cbn [orb].
      destruct (startswith l "+") eqn:E3.
      * destruct (added_marker l E3) as (_ & -> & ->). cbn [orb].
        destruct (startswith l "+++") eqn:E4; cbn [negb andb].
        -- rewrite andb_false_r, andb_false_r. reflexivity.
        -- rewrite andb_true_r.
           destruct (active (current_file st)) eqn:A; cbn [andb].
           ++ cbn [current_file]. rewrite A. cbn [andb].
              rewrite (cur_of_active st A).
              unfold cur_of. cbn [current_file current_content files].
              rewrite A. destruct (current_file st); [reflexivity|discriminate].
           ++ rewrite A. cbn [andb]. rewrite (cur_of_inactive st A). reflexivity.
      * rewrite andb_false_r. cbn [andb].
        destruct (startswith l "diff " || String.eqb l EmptyString)%bool eqn:E5.
        -- destruct (active (current_file st)) eqn:A; cbn [andb].
           ++ rewrite (cur_of_active st A). cbn [fold_left].
              rewrite <- flush_code. reflexivity.
           ++ rewrite (cur_of_inactive st A). reflexivity.
        -- rewrite andb_false_r. reflexivity.
Qed.

(** The loop and the final flush build the map by flushing, in order,
    the sections of the specification. *)
Lemma scan_sections (lines : list string) (st : state) :
  finish (fold_left step lines st)
  = fold_left flush
      (sections_from (cur_of st) (current_content st) lines) (files st).
Proof.
  revert st. induction lines as [|l rest IH]; intros st.
  - apply finish_flush.
  - cbn [fold_left]. rewrite IH. apply step_sections.
Qed.

Lemma parse_diff_flushes_sections (diff : string) :
  _parse_diff diff = fold_left flush (sections diff) [].
Proof. unfold _parse_diff, scan, sections. apply scan_sections. Qed.

(** A path all of whose sections are empty is never written. *)
Lemma flush_empty_sections (p : string) (secs : list (string * list string))
      (d : dict string) :
  (forall added, In (p, added) secs -> added = []) ->
  dict_get (fold_left flush secs d) p = dict_get d p.
Proof.
  revert d. induction secs as [|[q acc] secs IH]; intros d H; [reflexivity|].
  cbn [fold_left]. rewrite IH.
  - unfold flush. cbn [fst snd]. destruct acc as [|a acc]; [reflexivity|].
    apply dict_get_set_other. intros ->.
    specialize (H (a :: acc) (or_introl eq_refl)). discriminate.
  - intros added Hin. apply H. right. exact Hin.
Qed.

End DiffParserRefinement.

Module ParserProps.
Import Py PyFacts DiffParser DiffParserFacts DiffParserRefinement Observations.

(** C7.  For every diff text, [_parse_diff] builds its map by flushing
    the file sections of the input in order, where a section that
    accumulated no added line writes nothing: a path whose sections all
    accumulated no added line is absent from the map.  If the input ends
    while a file is still active, the content accumulated for it is
    flushed under the active path: the result is the map built so far
    with that section flushed, and when the section has added lines the
    active path maps to them, joined by line feeds. *)
Theorem parse_diff_omits_empty_sections_and_flushes_last (diff : string) :
  _parse_diff diff = fold_left flush (sections diff) []
  /\ (forall p,
         (forall added, In (p, added) (sections diff) -> added = []) ->
         dict_get (_parse_diff diff) p = None)
  /\ (active (current_file (scan (split LF diff))) = true ->
      _parse_diff diff
      = flush (files (scan (split LF diff)))
              (path_of (current_file (scan (split LF diff))),
               current_content (scan (split LF diff)))
      /\ (current_content (scan (split LF diff)) <> [] ->
          dict_get (_parse_diff diff)
                   (path_of (current_file (scan (split LF diff))))
          = Some (join NL (current_content (scan (split LF diff)))))).
Proof.
  split; [apply parse_diff_flushes_sections|]. split.
  - intros p H. rewrite parse_diff_flushes_sections.
    rewrite (flush_empty_sections p (sections diff) [] H). reflexivity.
  - intros A. unfold _parse_diff, finish. rewrite A. cbn [andb].
    rewrite flush_code. split; [reflexivity|].
    intros Hne. unfold flush. cbn [fst snd].
    destruct (current_content (scan (split LF diff))) as [|a acc];
      [contradiction Hne; reflexivity|].
    apply dict_get_set_same.
Qed.

(** On a diff whose first file only loses lines and whose last file is
    still active when the input ends. *)
Lemma parse_diff_omits_empty_sections_and_flushes_last_witness :
  dict_get (_parse_diff Scenario.removal_diff) "old.py" = None
  /\ dict_get (_parse_diff Scenario.removal_diff) "new.py" = Some "x = 1".
Proof.
  destruct (parse_diff_omits_empty_sections_and_flushes_last
              Scenario.removal_diff) as (_ & Homit & Hlast).
  split.
  - apply Homit. intros added Hin. vm_compute in Hin.
    destruct Hin as [H|[H|[]]]; inversion H; reflexivity.
  - exact (proj2 (Hlast eq_refl) ltac:(discriminate)).
Defined.

(** The two-file scenario of the test suite. *)
Example parse_two_files :
  _parse_diff Scenario.two_file_diff
  = [ ("test.py", join NL ["    # This is a comment"; "    return None"]);
      ("test.js", "    return null;") ].
Proof. reflexivity. Qed.

(** A header that follows another without a section end drops what the
    first file had accumulated. *)
Example parse_superseded_section :
  _parse_diff (join NL ["+++ b/a.py"; "+x = 1"; "+++ b/b.py"; "+y = 2"])
  = [("b.py", "y = 2")].
Proof. reflexivity. Qed.

(** The classifier scenario of the test suite: seven files, six
    languages; the text file is in no bucket. *)
Example group_seven_files :
  map fst (LinterService._group_files_by_language
             [ ("test.py", "def hello(): pass"); ("test.js", "function hello() {}");
               ("test.ts", "function hello(): void {}");
               ("test.java", "public class Test {}");
               ("test.cs", "public class Test {}"); ("test.go", "package main");
               ("test.txt", "Hello, world!") ])
  = ["python"; "javascript"; "typescript"; "java"; "csharp"; "go"].
Proof. reflexivity. Qed.

(** [line.split(":", 3)] on a line of [go vet]. *)
Example split_go_vet_line :
  LinterService.split_max ":" 3 "./main.go:12:2: unreachable code: after return"
  = ["./main.go"; "12"; "2"; " unreachable code: after return"].
Proof. reflexivity. Qed.

End ParserProps.

(** ** The effect monad *)

Module EffFacts.
Import Py PyVal Eff Model Observations.

Create HintDb eff_ops.
#[export] Hint Unfold ret raise bind lift try_except finally call
  any_exception : eff_ops.

(** Unfold the monad operations in the goal. *)
Ltac eff_unfold := autounfold with eff_ops.

Lemma bind_ret_l {S A B} (a : A) (k : A -> M S B) (s : S) :
  bind (ret a) k s = k a s.
Proof. reflexivity. Qed.

Lemma bind_eq_ret {S A B} (m : M S A) (k : A -> M S B) (s s' : S) (a : A) :
  m s = (Ret a, s') -> bind m k s = k a s'.
Proof. unfold bind. intros ->. reflexivity. Qed.

Lemma bind_eq_raise {S A B} (m : M S A) (k : A -> M S B) (s s' : S) (e : exn) :
  m s = (Raise e, s') -> bind m k s = (Raise e, s').
Proof. unfold bind. intros ->. reflexivity. Qed.

(** [except Exception] leaves nothing to propagate. *)
Lemma try_except_all_returns {S A} (body : M S A) (handler : exn -> M S A)
      (s : S) :
  (forall e s', exists a s'', handler e s' = (Ret a, s'')) ->
  exists a s', try_except body any_exception handler s = (Ret a, s').
Proof.
  intros Hh. unfold try_except, any_exception.
  destruct (body s) as [[a|e] s'].
  - exists a, s'. reflexivity.
  - apply Hh.
Qed.

Lemma appends_ret {A} (a : A) : appends (ret a).
Proof. intros h found. cbn. rewrite app_nil_r. reflexivity. Qed.

Lemma appends_lift {A} (r : res A) : appends (lift r).
Proof. intros h found. cbn. rewrite app_nil_r. reflexivity. Qed.

Lemma appends_bind {A B} (m : M (history * list finding) A)
      (k : A -> M (history * list finding) B) :
  appends m -> (forall a, appends (k a)) -> appends (bind m k).
Proof.
  intros Hm Hk h found. unfold bind. rewrite (Hm h found).
  destruct (m (h, [])) as [[a|e] [h0 new0]]; cbn [fst snd].
  - rewrite (Hk a h0 (found ++ new0)), (Hk a h0 new0).
    cbn [fst snd]. rewrite app_assoc. reflexivity.
  - reflexivity.
Qed.

Lemma appends_try_except {A} (body : M (history * list finding) A)
      (catches : exn -> bool) (handler : exn -> M (history * list finding) A) :
  appends body -> (forall e, appends (handler e)) ->
  appends (try_except body catches handler).
Proof.
  intros Hb Hh h found. unfold try_except. rewrite (Hb h found).
  destruct (body (h, [])) as [[a|e] [h0 new0]]; cbn [fst snd];
    [reflexivity|].
  destruct (catches e); [|reflexivity].
  rewrite (Hh e h0 (found ++ new0)), (Hh e h0 new0).
  cbn [fst snd]. rewrite app_assoc. reflexivity.
Qed.

Lemma appends_finally {A} (body : M (history * list finding) A)
      (cleanup : M (history * list finding) unit) :
  appends body -> appends cleanup -> appends (finally body cleanup).
Proof.
  intros Hb Hc h found. unfold finally. rewrite (Hb h found).
  destruct (body (h, [])) as [r [h0 new0]]; cbn [fst snd].
  rewrite (Hc h0 (found ++ new0)), (Hc h0 new0).
  destruct (cleanup (h0, [])) as [[u|e] [h1 new1]]; cbn [fst snd];
    rewrite app_assoc; reflexivity.
Qed.

Lemma appends_for_each {A} (l : list A)
      (body : A -> M (history * list finding) unit) :
  (forall a, appends (body a)) -> appends (for_each l body).
Proof.
  intros Hb. induction l as [|a l IH]; cbn [for_each].
  - apply appends_ret.
  - apply appends_bind; [apply Hb|]. intros _. exact IH.
Qed.

Lemma appends_if {A} (b : bool) (m1 m2 : M (history * list finding) A) :
  appends m1 -> appends m2 -> appends (if b then m1 else m2).
Proof. destruct b; intros; assumption. Qed.

End EffFacts.

(** ** The lint dispatcher *)

Module LinterFacts.
Import Py PyVal Eff Model EffFacts LinterService Observations.

Lemma appends_ext {A} (m : M history A) : appends (ext m).
Proof.
  intros h found. unfold ext. cbn [fst snd].
  destruct (m h) as [r h']. cbn [fst snd]. rewrite app_nil_r. reflexivity.
Qed.

Lemma appends_append_issue (f : finding) : appends (append_issue f).
Proof. intros h found. reflexivity. Qed.

(** Break a linter computation into its steps. *)
Ltac appends_steps :=
  repeat first
    [ apply appends_ret | apply appends_lift | apply appends_ext
    | apply appends_append_issue | apply appends_try_except
    | apply appends_finally | apply appends_for_each | apply appends_bind
    | apply appends_if | intro ].










End LinterFacts.

Module DiscoveryFacts.
Import Py PyVal Eff Model EffFacts LinterService LinterFacts Observations
  LintTerms Discovery.
Local Open Scope eff_scope.












End DiscoveryFacts.

Module LinterProps.
Import Py PyVal Eff Model EffFacts LinterService LinterFacts Observations
  LintTerms Discovery DiscoveryFacts.



(** C10.  [run_linters] never raises: it returns a report for every
    diff, and when anything escapes the per-language runs it returns the
    empty report.  Message processing therefore always goes on from the
    linters to the model invocation. *)
Theorem run_linters_never_raises (env : Env) (diff : string) (h : history) :
  (exists report h', run_linters env diff h = (Ret report, h'))
  /\ (forall e h', run_linters_body env diff h = (Raise e, h') ->
                   run_linters env diff h = (Ret [], h'))
  /\ (forall project_id merge_request_iid jira_ticket_key h0 jira_info,
         Worker.fetch_jira_info env jira_ticket_key h0 = (Ret jira_info, h) ->
         exists report h',
           run_linters env diff h = (Ret report, h')
           /\ Worker.review_and_post env project_id merge_request_iid
                                     jira_ticket_key diff h0
              = bind (BedrockService.generate_review
                        env (Worker.bedrock_service env) diff jira_info report)
                     (fun review =>
                        if negb (truthy review) then ret false
                        else bind (GitLabService.post_comment
                                     env project_id merge_request_iid review)
                                  (fun _ => ret true))
                     h').
Proof.
  assert (Hret : exists report h', run_linters env diff h = (Ret report, h')).
  { apply try_except_all_returns. intros e s'. exists [], s'. reflexivity. }
  split; [exact Hret|]. split.
  - intros e h' H. unfold run_linters, try_except. rewrite H. reflexivity.
  - intros project_id merge_request_iid jira_ticket_key h0 jira_info Hjira.
    destruct Hret as (report & h' & Hrun). exists report, h'.
    split; [exact Hrun|]. unfold Worker.review_and_post.
    rewrite (bind_eq_ret _ _ _ _ _ Hjira).
    rewrite (bind_eq_ret _ _ _ _ _ Hrun). reflexivity.
Qed.

(** The scratch directory cannot be written: the Python run raises, the
    report is empty. *)
Lemma run_linters_never_raises_witness :
  fst (run_linters_body Scenario.env_disk_full Scenario.two_file_diff [])
  = Raise (OSError "No space left on device")
  /\ fst (run_linters Scenario.env_disk_full Scenario.two_file_diff [])
     = Ret [].
Proof.
  split; [reflexivity|].
  rewrite (proj1 (proj2 (run_linters_never_raises
                           Scenario.env_disk_full Scenario.two_file_diff []))
                 (OSError "No space left on device")
                 (snd (run_linters_body Scenario.env_disk_full
                                        Scenario.two_file_diff []))
                 eq_refl).
  reflexivity.
Defined.

End LinterProps.

(** ** Model invocation with fallback *)

Module BedrockFacts.
Import Py PyVal Eff Model EffFacts BedrockService Observations.

Lemma invoke_and_decode_history env model_id request_body h :
  snd (invoke_and_decode env model_id request_body h)
  = h ++ [BedrockInvoke model_id (json_dumps env request_body)].
Proof.
  unfold invoke_and_decode, bind, call, lift.
  destruct (bedrock_invoke_model env h model_id (json_dumps env request_body));
    reflexivity.
Qed.

Lemma invoke_model_history env model_id prompt h :
  snd (_invoke_model env model_id prompt h)
  = h ++ invocation env model_id prompt.
Proof.
  unfold _invoke_model, invocation, request_for, try_except.
  destruct (startswith model_id "anthropic.claude").
  - unfold bind at 1.
    pose proof (invoke_and_decode_history env model_id
                  (claude_request prompt) h) as H.
    destruct (invoke_and_decode env model_id (claude_request prompt) h)
      as [[body|e] h']; cbn [snd] in H; subst h'.
    + unfold lift. destruct (py_get body "completion") as [v|e];
        [reflexivity|]. destruct (is_ClientError e); reflexivity.
    + destruct (is_ClientError e); reflexivity.
  - destruct (startswith model_id "amazon.titan").
    + unfold bind at 1.
      pose proof (invoke_and_decode_history env model_id
                    (titan_request prompt) h) as H.
      destruct (invoke_and_decode env model_id (titan_request prompt) h)
        as [[body|e] h']; cbn [snd] in H; subst h'.
      * unfold bind, lift.
        destruct (py_get body "results") as [v|e];
          [|destruct (is_ClientError e); reflexivity].
        destruct (py_first v) as [x|e];
          [|destruct (is_ClientError e); reflexivity].
        destruct (py_get x "outputText") as [t|e];
          [reflexivity|destruct (is_ClientError e); reflexivity].
      * destruct (is_ClientError e); reflexivity.
    + cbn. rewrite app_nil_r. reflexivity.
Qed.

Lemma generate_review_after_silent_primary env self diff jira lint h r1 h1 :
  _invoke_model env (primary_model_id self)
                (_construct_prompt env self diff jira lint) h = (Ret r1, h1) ->
  truthy r1 = false ->
  generate_review env self diff jira lint h
  = (Ret (fallback_result
            (fst (_invoke_model env (fallback_model_id self)
                                (_construct_prompt env self diff jira lint) h1))),
     snd (_invoke_model env (fallback_model_id self)
                        (_construct_prompt env self diff jira lint) h1)).
Proof.
  intros H1 Hfalsy.
  unfold generate_review, try_except, generate_review_body.
  rewrite (bind_eq_ret _ _ _ _ _ H1). rewrite Hfalsy. cbn [negb].
  unfold bind.
  destruct (_invoke_model env (fallback_model_id self)
              (_construct_prompt env self diff jira lint) h1) as [[r2|e] h2];
    cbn [fst snd fallback_result].
  - destruct (truthy r2); reflexivity.
  - reflexivity.
Qed.

(** A service error ([ClientError]) is caught inside the invocation. *)
Lemma invoke_model_catches_ClientError env model_id prompt h request_body :
  request_for model_id prompt = Some request_body ->
  bedrock_invoke_model env h model_id (json_dumps env request_body)
  = Raise ClientError ->
  _invoke_model env model_id prompt h
  = (Ret VNone, h ++ [BedrockInvoke model_id (json_dumps env request_body)]).
Proof.
  cbv [request_for _invoke_model try_except bind invoke_and_decode call lift].
  destruct (startswith model_id "anthropic.claude").
  - intros [= <-] H. rewrite H. reflexivity.
  - destruct (startswith model_id "amazon.titan"); [|discriminate].
    intros [= <-] H. rewrite H. reflexivity.
Qed.

End BedrockFacts.

Module BedrockProps.
Import Py PyVal Eff Model EffFacts BedrockService BedrockFacts Observations.

(** C3.  [generate_review] renders one prompt and every request it
    sends carries that prompt: the calls it makes are those of the
    primary invocation, followed or not by those of the fallback
    invocation, both with the same prompt.  If the primary invocation
    returns no text (an absent or empty result), the fallback model is
    invoked once, with that prompt, right after it and nothing follows:
    one request to the fallback model when its identifier is supported.
    The result is then the text of the fallback, or absent when the
    fallback gives no text either. *)
Theorem generate_review_falls_back_once
        (env : Env) (self : service) (diff : string)
        (jira_info : option ticket_info) (linter_results : lint_report)
        (h : list event) (prompt : string) :
  prompt = _construct_prompt env self diff jira_info linter_results ->
  (snd (generate_review env self diff jira_info linter_results h)
   = h ++ invocation env (primary_model_id self) prompt
   \/ snd (generate_review env self diff jira_info linter_results h)
      = h ++ invocation env (primary_model_id self) prompt
          ++ invocation env (fallback_model_id self) prompt)
  /\ forall r1 h1,
      _invoke_model env (primary_model_id self) prompt h = (Ret r1, h1) ->
      truthy r1 = false ->
      generate_review env self diff jira_info linter_results h
      = (Ret (fallback_result
                (fst (_invoke_model env (fallback_model_id self) prompt h1))),
         h1 ++ invocation env (fallback_model_id self) prompt)
      /\ (forall request_body,
             request_for (fallback_model_id self) prompt = Some request_body ->
             snd (generate_review env self diff jira_info linter_results h)
             = h1 ++ [BedrockInvoke (fallback_model_id self)
                                    (json_dumps env request_body)])
      /\ (forall r2 h2,
             _invoke_model env (fallback_model_id self) prompt h1 = (Ret r2, h2) ->
             truthy r2 = false ->
             generate_review env self diff jira_info linter_results h
             = (Ret VNone, h2)).
Proof.
  intros ->. split.
  - unfold generate_review, try_except, generate_review_body, bind.
    pose proof (invoke_model_history env (primary_model_id self)
                  (_construct_prompt env self diff jira_info linter_results) h)
      as H1.
    destruct (_invoke_model env (primary_model_id self)
                (_construct_prompt env self diff jira_info linter_results) h)
      as [[r1|e] h1]; cbn [snd] in H1; subst h1; [|left; reflexivity].
    destruct (truthy r1) eqn:T1; cbn [negb].
    + left. cbn. rewrite T1. reflexivity.
    + right.
      pose proof (invoke_model_history env (fallback_model_id self)
                    (_construct_prompt env self diff jira_info linter_results)
                    (h ++ invocation env (primary_model_id self)
                            (_construct_prompt env self diff jira_info
                                               linter_results))) as H2.
      destruct (_invoke_model env (fallback_model_id self) _ _)
        as [[r2|e] h2]; cbn [snd] in H2; subst h2.
      * rewrite <- app_assoc. destruct (truthy r2); reflexivity.
      * rewrite <- app_assoc. reflexivity.
  - intros r1 h1 H1 Hfalsy.
    pose proof (generate_review_after_silent_primary
                  env self diff jira_info linter_results h r1 h1 H1 Hfalsy)
      as Hgen.
    rewrite invoke_model_history in Hgen.
    split; [exact Hgen|]. split.
    + intros request_body Hreq. rewrite Hgen. cbn [snd].
      unfold invocation. rewrite Hreq. reflexivity.
    + intros r2 h2 H2 Hfalsy2. rewrite Hgen.
      pose proof (invoke_model_history env (fallback_model_id self)
                    (_construct_prompt env self diff jira_info linter_results)
                    h1) as Hh.
      rewrite H2 in *. cbn [fst snd fallback_result] in *.
      rewrite Hfalsy2, Hh. reflexivity.
Qed.

(** Both models answer with a service error: the primary invocation
    returns nothing, the fallback is asked once and returns nothing. *)
Lemma generate_review_falls_back_once_witness :
  generate_review Scenario.env_bedrock_all_fail Scenario.the_service
                  Scenario.two_file_diff None [] []
  = (Ret VNone,
     invocation Scenario.env_bedrock_all_fail "anthropic.claude-instant-v1"
                (_construct_prompt Scenario.env_bedrock_all_fail
                                   Scenario.the_service
                                   Scenario.two_file_diff None [])
     ++ invocation Scenario.env_bedrock_all_fail "amazon.titan-text-lite-v1"
                   (_construct_prompt Scenario.env_bedrock_all_fail
                                      Scenario.the_service
                                      Scenario.two_file_diff None [])).
Proof.
  destruct (generate_review_falls_back_once
              Scenario.env_bedrock_all_fail Scenario.the_service
              Scenario.two_file_diff None [] [] _ eq_refl) as (_ & Hfall).
  destruct (Hfall VNone
                  (invocation Scenario.env_bedrock_all_fail
                     "anthropic.claude-instant-v1"
                     (_construct_prompt Scenario.env_bedrock_all_fail
                                        Scenario.the_service
                                        Scenario.two_file_diff None []))
                  eq_refl eq_refl) as (Hgen & _).
  exact Hgen.
Defined.

(** C2.  The endpoint of the primary model cannot be reached: botocore
    raises [EndpointConnectionError], a transport error that is not a
    [ClientError].  [_invoke_model] lets it through to its caller, and
    [generate_review] returns absent after the one request to the
    primary model: the fallback model, which would have answered, is
    never invoked.  The docstring of [_invoke_model] promises [None]
    "if an error occurred". *)
Theorem transport_error_escapes_invoke_model :
  fst (_invoke_model Scenario.env_bedrock_unreachable
                     "anthropic.claude-instant-v1"
                     (_construct_prompt Scenario.env_bedrock_unreachable
                                        Scenario.the_service
                                        Scenario.two_file_diff None [])
                     [])
  = Raise (BotoCoreError "EndpointConnectionError")
  /\ generate_review Scenario.env_bedrock_unreachable Scenario.the_service
                     Scenario.two_file_diff None [] []
     = (Ret VNone,
        invocation Scenario.env_bedrock_unreachable
                   "anthropic.claude-instant-v1"
                   (_construct_prompt Scenario.env_bedrock_unreachable
                                      Scenario.the_service
                                      Scenario.two_file_diff None []))
  /\ fst (_invoke_model Scenario.env_bedrock_unreachable
                        "amazon.titan-text-lite-v1"
                        (_construct_prompt Scenario.env_bedrock_unreachable
                                           Scenario.the_service
                                           Scenario.two_file_diff None [])
                        (invocation Scenario.env_bedrock_unreachable
                           "anthropic.claude-instant-v1"
                           (_construct_prompt Scenario.env_bedrock_unreachable
                                              Scenario.the_service
                                              Scenario.two_file_diff None [])))
     = Ret (VStr "Fine.").
Proof. repeat split; vm_compute; reflexivity. Qed.

(** With a service error instead, the same job gets its review from the
    fallback model. *)
Example service_error_reaches_fallback :
  fst (generate_review Scenario.env_bedrock_throttled Scenario.the_service
                       Scenario.two_file_diff None [] [])
  = Ret (VStr "Fine.").
Proof. vm_compute. reflexivity. Qed.

End BedrockProps.

(** ** The queue consumer *)

Module WorkerFacts.
Import Py PyVal Eff Model EffFacts GitLabService Worker Observations.

Lemma deleted_iff (receipt_handle : string) (h : list event) :
  existsb (is_delete_of receipt_handle) h = true <-> deleted receipt_handle h.
Proof.
  unfold deleted. rewrite existsb_exists. split.
  - intros (ev & Hin & Hev). destruct ev; try discriminate.
    cbn in Hev. apply String.eqb_eq in Hev. subst. exact Hin.
  - intros Hin. exists (SqsDelete receipt_handle). split; [exact Hin|].
    cbn. apply String.eqb_refl.
Qed.

Lemma not_deleted_iff (receipt_handle : string) (h : list event) :
  existsb (is_delete_of receipt_handle) h = false <-> ~ deleted receipt_handle h.
Proof.
  rewrite <- deleted_iff. destruct (existsb _ h); split;
    intros H; try reflexivity; try discriminate.
  contradiction H. reflexivity.
Qed.

(** Split on the outcome of every GitLab call and handler in the goal. *)
Ltac split_outcomes :=
  repeat (match goal with
          | |- context [gitlab_projects_get ?e ?h ?p] =>
              destruct (gitlab_projects_get e h p) as [[]|?]
          | |- context [gitlab_mergerequests_get ?e ?h ?p ?i] =>
              destruct (gitlab_mergerequests_get e h p i) as [[]|?]
          | |- context [gitlab_changes ?e ?h ?p ?i] =>
              destruct (gitlab_changes e h p i) as [?|?]
          | |- context [gitlab_notes_create ?e ?h ?p ?i ?c] =>
              destruct (gitlab_notes_create e h p i c) as [[]|?]
          | |- context [is_GitlabError ?e] =>
              destruct (is_GitlabError e)
          end; cbv beta iota).

(** Close a goal [exists evs, h' = h ++ evs /\ Forall P evs]. *)
Ltac gitlab_trace :=
  cbn [fst snd]; repeat rewrite <- app_assoc;
  eexists; split; [reflexivity|cbn [app]; repeat constructor].

Lemma get_merge_request_diff_trace env project_id merge_request_iid h :
  exists evs,
    snd (get_merge_request_diff env project_id merge_request_iid h) = h ++ evs
    /\ Forall (fun ev => is_gitlab_event ev = true) evs.
Proof.
  cbv [get_merge_request_diff get_merge_request get_project try_except bind
       call ret the_project_id mr_project_id mr_iid].
  split_outcomes; gitlab_trace.
Qed.

Lemma post_comment_trace env project_id merge_request_iid comment h :
  exists evs,
    snd (post_comment env project_id merge_request_iid comment h) = h ++ evs
    /\ Forall (fun ev => is_gitlab_event ev = true) evs.
Proof.
  cbv [post_comment get_merge_request get_project try_except bind
       call ret the_project_id mr_project_id mr_iid].
  split_outcomes; gitlab_trace.
Qed.

(** [post_comment] returns [True] only after the note was created. *)
Lemma post_comment_posted env project_id merge_request_iid comment h h' :
  post_comment env project_id merge_request_iid comment h = (Ret true, h') ->
  h' = h ++ [ GitlabGetProject project_id;
              GitlabGetMergeRequest project_id merge_request_iid;
              GitlabCreateNote project_id merge_request_iid comment ]
  /\ gitlab_notes_create
       env (h ++ [ GitlabGetProject project_id;
                   GitlabGetMergeRequest project_id merge_request_iid ])
       project_id merge_request_iid comment = Ret tt.
Proof.
  cbv [post_comment get_merge_request get_project try_except bind
       call ret the_project_id mr_project_id mr_iid].
  repeat rewrite <- app_assoc. cbn [app].
  destruct (gitlab_projects_get env h project_id) as [[]|e1]; cbv beta iota.
  - destruct (gitlab_mergerequests_get env _ project_id merge_request_iid)
      as [[]|e2]; cbv beta iota.
    + destruct (gitlab_notes_create env _ project_id merge_request_iid comment)
        as [[]|e3] eqn:E3; cbv beta iota.
      * intros [= <-]. repeat rewrite <- app_assoc in *. cbn [app] in *.
        split; [reflexivity|exact E3].
      * split_outcomes; intros [=].
    + split_outcomes; intros [=].
  - split_outcomes; intros [=].
Qed.

End WorkerFacts.

Module WorkerSteps.
Import Py PyVal Eff Model EffFacts GitLabService Worker WorkerFacts Observations.

(** [process_message] catches everything. *)
Lemma process_message_returns env msg h :
  exists success h', process_message env msg h = (Ret success, h').
Proof.
  apply try_except_all_returns. intros e s'. exists false, s'. reflexivity.
Qed.

(** The loop body deletes the message exactly when processing says
    success (and the message has a receipt handle). *)
Lemma handle_message_outcome env msg h success h' receipt_handle :
  ReceiptHandle msg = Some receipt_handle ->
  str_truthy receipt_handle = true ->
  process_message env msg h = (Ret success, h') ->
  snd (handle_message env msg h)
  = if success then h' ++ [SqsDelete receipt_handle] else h'.
Proof.
  intros Hrh Htrue Hproc. unfold handle_message.
  rewrite Hrh. cbn [opt_str_truthy or_empty]. rewrite Htrue. cbn [negb].
  rewrite (bind_eq_ret _ _ _ _ _ Hproc). destruct success; reflexivity.
Qed.

(** A job one of whose two identifiers is false in Python's sense. *)
Lemma process_message_rejects env msg h text d :
  Body msg = Some text ->
  json_loads env text = Ret (VDict d) ->
  truthy (of_option (dict_get d "project_id")) = false
  \/ truthy (of_option (dict_get d "merge_request_iid")) = false ->
  process_message env msg h = (Ret false, h).
Proof.
  intros Hbody Hjson Hfalsy.
  unfold process_message, try_except, process_message_body.
  rewrite Hbody. cbv [bind lift]. rewrite Hjson. cbv [py_get].
  destruct Hfalsy as [-> | ->]; cbn [negb orb]; [reflexivity|].
  rewrite orb_true_r. reflexivity.
Qed.

Lemma handle_message_rejects env msg h :
  process_message env msg h = (Ret false, h) ->
  handle_message env msg h = (Ret tt, h).
Proof.
  intros Hproc. unfold handle_message.
  destruct (negb (opt_str_truthy (ReceiptHandle msg))); [reflexivity|].
  rewrite (bind_eq_ret _ _ _ _ _ Hproc). reflexivity.
Qed.

(** The size check: past it, only the notice is sent. *)
Lemma process_message_oversized env msg h text d diff h1 :
  Body msg = Some text ->
  json_loads env text = Ret (VDict d) ->
  truthy (of_option (dict_get d "project_id")) = true ->
  truthy (of_option (dict_get d "merge_request_iid")) = true ->
  get_merge_request_diff env (of_option (dict_get d "project_id"))
                         (of_option (dict_get d "merge_request_iid")) h
  = (Ret (Some diff), h1) ->
  str_truthy diff = true ->
  (Z.of_nat (String.length diff) > MAX_DIFF_SIZE (settings env))%Z ->
  process_message env msg h
  = match post_comment env (of_option (dict_get d "project_id"))
                       (of_option (dict_get d "merge_request_iid"))
                       (VStr too_large_notice) h1 with
    | (Ret _, h2) => (Ret true, h2)
    | (Raise _, h2) => (Ret false, h2)
    end.
Proof.
  intros Hbody Hjson Hpid Hiid Hdiff Htrue Hsize.
  unfold process_message, try_except, process_message_body.
  rewrite Hbody. unfold bind at 1, lift at 1. rewrite Hjson.
  unfold bind at 1, lift at 1. cbn [py_get].
  unfold bind at 1, lift at 1. unfold bind at 1, lift at 1.
  rewrite Hpid, Hiid. cbn [negb orb].
  rewrite (bind_eq_ret _ _ _ _ _ Hdiff).
  cbn [opt_str_truthy or_empty]. rewrite Htrue. cbn [negb].
  replace (Z.of_nat (String.length diff) >? MAX_DIFF_SIZE (settings env))%Z
    with true by (symmetry; apply Z.gtb_lt; lia).
  unfold bind, ret.
  destruct (post_comment env _ _ (VStr too_large_notice) h1) as [[b|e] h2];
    reflexivity.
Qed.

End WorkerSteps.

Module WorkerProps.
Import Py PyVal Eff Model EffFacts GitLabService Worker WorkerFacts WorkerSteps Observations.

(** C6.  A message whose decoded body lacks the project identifier or
    the change-request identifier is processed to failure without any
    call being made; the loop body leaves the history as it found it, so
    no delete is issued for it, and so it is again however many times
    the message is delivered. *)
Theorem malformed_job_is_not_acknowledged
        (env : Env) (msg : message) (h : list event) (text : string)
        (d : list (string * value)) :
  Body msg = Some text ->
  json_loads env text = Ret (VDict d) ->
  dict_get d "project_id" = None \/ dict_get d "merge_request_iid" = None ->
  process_message env msg h = (Ret false, h)
  /\ handle_message env msg h = (Ret tt, h)
  /\ forall deliveries : nat,
      for_each (repeat msg deliveries) (handle_message env) h = (Ret tt, h).
Proof.
  intros Hbody Hjson Hmissing.
  assert (Hproc : forall h0, process_message env msg h0 = (Ret false, h0)).
  { intros h0. apply (process_message_rejects env msg h0 text d Hbody Hjson).
    destruct Hmissing as [-> | ->]; [left|right]; reflexivity. }
  split; [apply Hproc|]. split; [apply handle_message_rejects, Hproc|].
  intros deliveries. induction deliveries as [|n IH]; [reflexivity|].
  cbn [repeat for_each].
  rewrite (bind_eq_ret _ _ _ _ _ (handle_message_rejects env msg h (Hproc h))).
  exact IH.
Qed.

(** A job without project identifier, in an environment where every
    service answers. *)
Lemma malformed_job_is_not_acknowledged_witness :
  handle_message Scenario.env_ok
                 (Scenario.message_of Scenario.job_without_project "rh-1") []
  = (Ret tt, []).
Proof.
  apply (malformed_job_is_not_acknowledged
           Scenario.env_ok
           (Scenario.message_of Scenario.job_without_project "rh-1") []
           (Scenario.dumps Scenario.job_without_project)
           [ ("merge_request_iid", VInt 3); ("source_branch", VStr "feature");
             ("target_branch", VStr "main"); ("jira_ticket_key", VNone) ]
           eq_refl eq_refl (or_introl eq_refl)).
Defined.

(** C9.  A message whose body holds [project_id] or
    [merge_request_iid] equal to 0 is processed to failure without any
    call being made, which is the outcome for a body that lacks the
    field. *)
Theorem zero_identifier_is_malformed
        (env : Env) (msg : message) (h : list event) (text : string)
        (d : list (string * value)) :
  Body msg = Some text ->
  json_loads env text = Ret (VDict d) ->
  dict_get d "project_id" = Some (VInt 0)
  \/ dict_get d "merge_request_iid" = Some (VInt 0) ->
  process_message env msg h = (Ret false, h)
  /\ handle_message env msg h = (Ret tt, h)
  /\ forall msg' text' d',
      Body msg' = Some text' ->
      json_loads env text' = Ret (VDict d') ->
      dict_get d' "project_id" = None
      \/ dict_get d' "merge_request_iid" = None ->
      process_message env msg' h = process_message env msg h.
Proof.
  intros Hbody Hjson Hzero.
  assert (Hproc : process_message env msg h = (Ret false, h)).
  { apply (process_message_rejects env msg h text d Hbody Hjson).
    destruct Hzero as [-> | ->]; [left|right]; reflexivity. }
  split; [exact Hproc|]. split; [apply handle_message_rejects, Hproc|].
  intros msg' text' d' Hbody' Hjson' Hmissing. rewrite Hproc.
  apply (process_message_rejects env msg' h text' d' Hbody' Hjson').
  destruct Hmissing as [-> | ->]; [left|right]; reflexivity.
Qed.

(** A job for project 0 of an environment where every service answers. *)
Lemma zero_identifier_is_malformed_witness :
  process_message Scenario.env_ok
                  (Scenario.message_of Scenario.job_project_zero "rh-1") []
  = (Ret false, []).
Proof.
  apply (zero_identifier_is_malformed
           Scenario.env_ok
           (Scenario.message_of Scenario.job_project_zero "rh-1") []
           (Scenario.dumps Scenario.job_project_zero)
           [ ("project_id", VInt 0); ("merge_request_iid", VInt 3);
             ("source_branch", VStr "feature"); ("target_branch", VStr "main");
             ("jira_ticket_key", VNone) ]
           eq_refl eq_refl (or_introl eq_refl)).
Defined.

Lemma gitlab_events_are_quiet (evs : list event) :
  Forall (fun ev => is_gitlab_event ev = true) evs -> Forall quiet evs.
Proof.
  apply Forall_impl. intros ev H. destruct ev; try discriminate H;
    split; reflexivity.
Qed.

(** C5, as the specification states it, fails when the connection to
    GitLab breaks while the notice is sent: the diff was fetched and is
    larger than the ceiling, yet processing returns failure and the
    message is not deleted. *)
Lemma oversized_notice_lost_connection :
  get_merge_request_diff
    Scenario.env_huge_diff_connection_lost
    (VInt 7) (VInt 3) []
  = (Ret (Some Scenario.huge_diff),
     [ GitlabGetProject (VInt 7); GitlabGetMergeRequest (VInt 7) (VInt 3);
       GitlabChanges (VInt 7) (VInt 3) ])
  /\ (Z.of_nat (String.length Scenario.huge_diff)
      > MAX_DIFF_SIZE
          (settings Scenario.env_huge_diff_connection_lost))%Z
  /\ fst (process_message
            Scenario.env_huge_diff_connection_lost
            (Scenario.message_of (Scenario.job VNone) "rh-1") [])
     = Ret false
  /\ ~ deleted "rh-1"
       (snd (handle_message
               Scenario.env_huge_diff_connection_lost
               (Scenario.message_of (Scenario.job VNone) "rh-1") [])).
Proof.
  split; [vm_compute; reflexivity|].
  split; [vm_compute; reflexivity|].
  split; [vm_compute; reflexivity|].
  apply not_deleted_iff. vm_compute. reflexivity.
Qed.

(** C5, amended.  For a job whose fetched diff is larger than the
    configured ceiling, processing makes no call of the lint dispatcher
    and no model invocation: after the fetch it only calls
    [post_comment] with the fixed notice.  When that call posts the
    notice, processing returns success and the message is deleted; when
    it raises, processing returns failure and the loop body makes no
    call after it: the message is not deleted. *)
Theorem oversized_diff_is_answered_with_notice
        (env : Env) (msg : message) (h : list event) (text : string)
        (d : list (string * value)) (diff : string) (h1 : list event) :
  Body msg = Some text ->
  json_loads env text = Ret (VDict d) ->
  truthy (of_option (dict_get d "project_id")) = true ->
  truthy (of_option (dict_get d "merge_request_iid")) = true ->
  get_merge_request_diff env (of_option (dict_get d "project_id"))
                         (of_option (dict_get d "merge_request_iid")) h
  = (Ret (Some diff), h1) ->
  str_truthy diff = true ->
  (Z.of_nat (String.length diff) > MAX_DIFF_SIZE (settings env))%Z ->
  (exists evs,
      snd (process_message env msg h) = h ++ evs /\ Forall quiet evs)
  /\ snd (process_message env msg h)
     = snd (post_comment env (of_option (dict_get d "project_id"))
                         (of_option (dict_get d "merge_request_iid"))
                         (VStr too_large_notice) h1)
  /\ (forall h2,
         post_comment env (of_option (dict_get d "project_id"))
                      (of_option (dict_get d "merge_request_iid"))
                      (VStr too_large_notice) h1 = (Ret true, h2) ->
         process_message env msg h = (Ret true, h2)
         /\ In (GitlabCreateNote (of_option (dict_get d "project_id"))
                                 (of_option (dict_get d "merge_request_iid"))
                                 (VStr too_large_notice)) h2
         /\ forall receipt_handle,
             ReceiptHandle msg = Some receipt_handle ->
             str_truthy receipt_handle = true ->
             deleted receipt_handle (snd (handle_message env msg h)))
  /\ (forall e h2,
         post_comment env (of_option (dict_get d "project_id"))
                      (of_option (dict_get d "merge_request_iid"))
                      (VStr too_large_notice) h1 = (Raise e, h2) ->
         process_message env msg h = (Ret false, h2)
         /\ forall receipt_handle,
             ReceiptHandle msg = Some receipt_handle ->
             str_truthy receipt_handle = true ->
             snd (handle_message env msg h) = h2).
Proof.
  intros Hbody Hjson Hpid Hiid Hdiff Htrue Hsize.
  pose proof (process_message_oversized env msg h text d diff h1
                Hbody Hjson Hpid Hiid Hdiff Htrue Hsize) as Hproc.
  assert (Hsnd : snd (process_message env msg h)
                 = snd (post_comment env (of_option (dict_get d "project_id"))
                          (of_option (dict_get d "merge_request_iid"))
                          (VStr too_large_notice) h1)).
  { rewrite Hproc. destruct (post_comment env _ _ _ h1) as [[b|e] h2];
      reflexivity. }
  split; [|split; [exact Hsnd|split]].
  - rewrite Hsnd.
    destruct (get_merge_request_diff_trace
                env (of_option (dict_get d "project_id"))
                (of_option (dict_get d "merge_request_iid")) h)
      as (evs0 & H0 & F0).
    rewrite Hdiff in H0. cbn [snd] in H0. subst h1.
    destruct (post_comment_trace
                env (of_option (dict_get d "project_id"))
                (of_option (dict_get d "merge_request_iid"))
                (VStr too_large_notice) (h ++ evs0)) as (evs1 & H1 & F1).
    exists (evs0 ++ evs1). rewrite H1, app_assoc. split; [reflexivity|].
    apply gitlab_events_are_quiet, Forall_app. split; assumption.
  - intros h2 Hpost. rewrite Hpost in Hproc.
    split; [exact Hproc|]. split.
    + destruct (post_comment_posted _ _ _ _ _ _ Hpost) as (-> & _).
      apply in_or_app. right. right. right. left. reflexivity.
    + intros receipt_handle Hrh Hrh_true.
      rewrite (handle_message_outcome env msg h true h2 receipt_handle
                                      Hrh Hrh_true Hproc).
      apply in_or_app. right. left. reflexivity.
  - intros e h2 Hpost. rewrite Hpost in Hproc.
    split; [exact Hproc|].
    intros receipt_handle Hrh Hrh_true.
    exact (handle_message_outcome env msg h false h2 receipt_handle
                                  Hrh Hrh_true Hproc).
Qed.

(** A diff of more than 64 bytes under a ceiling of 64 bytes, in an
    environment where every service answers. *)
Lemma oversized_diff_is_answered_with_notice_witness :
  process_message Scenario.env_huge_diff
                  (Scenario.message_of (Scenario.job VNone) "rh-1") []
  = (Ret true,
     [ GitlabGetProject (VInt 7); GitlabGetMergeRequest (VInt 7) (VInt 3);
       GitlabChanges (VInt 7) (VInt 3);
       GitlabGetProject (VInt 7); GitlabGetMergeRequest (VInt 7) (VInt 3);
       GitlabCreateNote (VInt 7) (VInt 3) (VStr too_large_notice) ])
  /\ deleted "rh-1"
       (snd (handle_message Scenario.env_huge_diff
               (Scenario.message_of (Scenario.job VNone) "rh-1") [])).
Proof.
  assert (Hdiff : get_merge_request_diff Scenario.env_huge_diff
                    (VInt 7) (VInt 3) []
                  = (Ret (Some Scenario.huge_diff),
                     [ GitlabGetProject (VInt 7);
                       GitlabGetMergeRequest (VInt 7) (VInt 3);
                       GitlabChanges (VInt 7) (VInt 3) ])).
  { vm_compute. reflexivity. }
  assert (Htrue : str_truthy Scenario.huge_diff = true).
  { vm_compute. reflexivity. }
  assert (Hsize : (Z.of_nat (String.length Scenario.huge_diff)
                   > MAX_DIFF_SIZE (settings Scenario.env_huge_diff))%Z).
  { vm_compute. reflexivity. }
  destruct (oversized_diff_is_answered_with_notice
              Scenario.env_huge_diff
              (Scenario.message_of (Scenario.job VNone) "rh-1") []
              (Scenario.dumps (Scenario.job VNone))
              [ ("project_id", VInt 7); ("merge_request_iid", VInt 3);
                ("source_branch", VStr "feature");
                ("target_branch", VStr "main"); ("jira_ticket_key", VNone) ]
              Scenario.huge_diff _
              eq_refl eq_refl eq_refl eq_refl Hdiff Htrue Hsize)
    as (_ & _ & Hposted & _).
  destruct (Hposted _ eq_refl) as (Hproc & _ & Hdel).
  split; [exact Hproc|]. apply (Hdel "rh-1"); reflexivity.
Defined.

(** C1.  GitLab refuses the note ([GitlabError]): [post_comment]
    catches the error and returns [False], [process_message] does not
    look at what [post_comment] returns and reports success, and the
    loop deletes the message although the review was never posted.  The
    same job is deleted as well when the note is accepted, and is kept
    when the review cannot be generated. *)
Theorem unposted_review_is_acknowledged :
  (forall h project_id merge_request_iid comment,
      gitlab_notes_create Scenario.env_note_refused h project_id
                          merge_request_iid comment = Raise GitlabError)
  /\ (forall h comment,
         fst (post_comment Scenario.env_note_refused (VInt 7) (VInt 3)
                           comment h) = Ret false)
  /\ fst (process_message Scenario.env_note_refused
                          (Scenario.message_of (Scenario.job VNone) "rh-1") [])
     = Ret true
  /\ deleted "rh-1"
       (snd (handle_message Scenario.env_note_refused
               (Scenario.message_of (Scenario.job VNone) "rh-1") []))
  /\ deleted "rh-1"
       (snd (handle_message Scenario.env_ok
               (Scenario.message_of (Scenario.job VNone) "rh-1") []))
  /\ ~ deleted "rh-1"
       (snd (handle_message Scenario.env_bedrock_all_fail
               (Scenario.message_of (Scenario.job VNone) "rh-1") [])).
Proof.
  split; [reflexivity|]. split; [reflexivity|].
  split; [vm_compute; reflexivity|].
  split; [apply deleted_iff; vm_compute; reflexivity|].
  split; [apply deleted_iff; vm_compute; reflexivity|].
  apply not_deleted_iff. vm_compute. reflexivity.
Qed.

(** C4.  The diff is fetched and within the ceiling and the job names
    an issue.  When Jira cannot be reached as [JiraService] is created,
    or when the issue request fails with an error that is not a
    [JIRAError], the error leaves [process_message] no choice: it
    returns failure and the message is not deleted.  Only a [JIRAError]
    of the issue request is caught by [get_ticket_info], whose result is
    then absent, and the review goes on without issue context. *)
Theorem issue_fetch_failure_aborts_message :
  fst (get_merge_request_diff Scenario.env_jira_down (VInt 7) (VInt 3) [])
  = Ret (Some (join NL (flat_map change_lines [Scenario.small_change])))
  /\ (Z.of_nat (String.length
                  (join NL (flat_map change_lines [Scenario.small_change])))
      <= MAX_DIFF_SIZE (settings Scenario.env_jira_down))%Z
  /\ fst (process_message Scenario.env_jira_down
            (Scenario.message_of (Scenario.job (VStr "PROJ-1")) "rh-1") [])
     = Ret false
  /\ ~ deleted "rh-1"
       (snd (handle_message Scenario.env_jira_down
               (Scenario.message_of (Scenario.job (VStr "PROJ-1")) "rh-1") []))
  /\ fst (process_message Scenario.env_jira_timeout
            (Scenario.message_of (Scenario.job (VStr "PROJ-1")) "rh-1") [])
     = Ret false
  /\ ~ deleted "rh-1"
       (snd (handle_message Scenario.env_jira_timeout
               (Scenario.message_of (Scenario.job (VStr "PROJ-1")) "rh-1") []))
  /\ fst (fetch_jira_info Scenario.env_jira_not_found (VStr "PROJ-1") [])
     = Ret None
  /\ deleted "rh-1"
       (snd (handle_message Scenario.env_jira_not_found
               (Scenario.message_of (Scenario.job (VStr "PROJ-1")) "rh-1") []))
  /\ deleted "rh-1"
       (snd (handle_message Scenario.env_jira_down
               (Scenario.message_of (Scenario.job VNone) "rh-1") [])).
Proof.
  split; [vm_compute; reflexivity|].
  split; [vm_compute; discriminate|].
  split; [vm_compute; reflexivity|].
  split; [apply not_deleted_iff; vm_compute; reflexivity|].
  split; [vm_compute; reflexivity|].
  split; [apply not_deleted_iff; vm_compute; reflexivity|].
  split; [vm_compute; reflexivity|].
  split; [apply deleted_iff; vm_compute; reflexivity|].
  apply deleted_iff. vm_compute. reflexivity.
Qed.

(** A diff that cannot be fetched aborts the message. *)
Lemma diff_fetch_failure_aborts env msg h text d :
  Body msg = Some text ->
  json_loads env text = Ret (VDict d) ->
  fst (get_merge_request_diff env (of_option (dict_get d "project_id"))
                              (of_option (dict_get d "merge_request_iid")) h)
  = Ret None ->
  truthy (of_option (dict_get d "project_id")) = true ->
  truthy (of_option (dict_get d "merge_request_iid")) = true ->
  fst (process_message env msg h) = Ret false.
Proof.
  intros Hbody Hjson Hdiff Hpid Hiid.
  unfold process_message, try_except, process_message_body.
  rewrite Hbody. unfold bind at 1, lift at 1. rewrite Hjson.
  unfold bind at 1, lift at 1. cbn [py_get].
  unfold bind at 1, lift at 1. unfold bind at 1, lift at 1.
  rewrite Hpid, Hiid. cbn [negb orb]. unfold bind.
  destruct (get_merge_request_diff env _ _ h) as [[o|e] h2];
    cbn [fst] in Hdiff; [|discriminate Hdiff].
  injection Hdiff as ->. reflexivity.
Qed.

End WorkerProps.

(** ** More on the diff parser *)

Module ParserInvariants.
Import Py PyFacts DiffParser Observations DiffText DiffParserFacts
  DiffParserRefinement.

Lemma startswith_split (s p : string) :
  startswith s p = true -> s = (p ++ drop (String.length p) s)%string.
Proof.
  unfold startswith. revert s. induction p as [|c p IH]; intros s H.
  - reflexivity.
  - destruct s as [|a s']; cbn in H; [discriminate|].
    destruct (ascii_dec c a) as [->|]; [|discriminate].
    cbn. f_equal. apply IH. exact H.
Qed.

Lemma dict_keys_set {V} (d : list (string * V)) (k : string) (v : V) :
  dict_keys (dict_set d k v)
  = if dict_mem d k then dict_keys d else dict_keys d ++ [k].
Proof.
  unfold dict_mem, dict_keys. induction d as [|[k' v'] r IH]; [reflexivity|].
  cbn. destruct (String.eqb k' k) eqn:E.
  - apply String.eqb_eq in E. subst k'. reflexivity.
  - cbn. rewrite IH. destruct (dict_get r k); reflexivity.
Qed.

Lemma dict_mem_in_keys {V} (d : list (string * V)) (k : string) :
  dict_mem d k = true <-> In k (dict_keys d).
Proof.
  unfold dict_mem, dict_keys. induction d as [|[k' v'] r IH]; cbn.
  - split; [discriminate|contradiction].
  - destruct (String.eqb k' k) eqn:E.
    + apply String.eqb_eq in E. split; [left; exact E|reflexivity].
    + apply String.eqb_neq in E. rewrite IH. split; [right; assumption|].
      intros [H|H]; [contradiction|exact H].
Qed.

Lemma dict_set_NoDup {V} (d : list (string * V)) (k : string) (v : V) :
  NoDup (dict_keys d) -> NoDup (dict_keys (dict_set d k v)).
Proof.
  intros H. rewrite dict_keys_set. destruct (dict_mem d k) eqn:E; [exact H|].
  apply NoDup_app; [exact H|repeat constructor; intros []|].
  intros x Hx [<-|[]]. apply dict_mem_in_keys in Hx. congruence.
Qed.

Lemma dict_set_keys_truthy {V} (d : list (string * V)) (k : string) (v : V) :
  str_truthy k = true ->
  Forall (fun p => str_truthy p = true) (dict_keys d) ->
  Forall (fun p => str_truthy p = true) (dict_keys (dict_set d k v)).
Proof.
  intros Hk H. rewrite dict_keys_set. destruct (dict_mem d k); [exact H|].
  apply Forall_app. split; [exact H|repeat constructor; exact Hk].
Qed.

Lemma sections_from_input (all : list string) (lines : list string)
      (cur : option string) (acc : list string) :
  (forall l, In l lines -> In l all) ->
  (forall p, cur = Some p -> from_input all (p, acc)) ->
  Forall (from_input all) (sections_from cur acc lines).
Proof.
  revert cur acc. induction lines as [|l rest IH]; intros cur acc Hsub Hcur.
  - cbn. destruct cur as [p|]; [|constructor].
    constructor; [apply Hcur; reflexivity|constructor].
  - assert (Hrest : forall l0, In l0 rest -> In l0 all)
      by (intros l0 H0; apply Hsub; right; exact H0).
    assert (Hl : In l all) by (apply Hsub; left; reflexivity).
    cbn [sections_from]. unfold classify.
    destruct (startswith l "+++ b/") eqn:E1.
    + apply IH; [exact Hrest|]. intros p Hp.
      destruct (str_truthy (drop 6 l)) eqn:T; [|discriminate].
      injection Hp as <-. repeat split; cbn [fst snd].
      * exact T.
      * pose proof (startswith_split l "+++ b/" E1) as Hs.
        change (String.length "+++ b/") with 6%nat in Hs.
        change (In ("+++ b/" ++ drop 6 l)%string all).
        rewrite <- Hs. exact Hl.
      * constructor.
    + destruct (startswith l "+" && negb (startswith l "+++"))%bool eqn:E2.
      * destruct cur as [p|]; [|apply IH; [exact Hrest|discriminate]].
        apply IH; [exact Hrest|]. intros q [= <-].
        destruct (Hcur p eq_refl) as (Hp & Hhdr & Hacc).
        repeat split; cbn [fst snd] in *; [exact Hp|exact Hhdr|].
        apply Forall_app. split; [exact Hacc|]. repeat constructor.
        apply andb_true_iff in E2 as [E2 _].
        pose proof (startswith_split l "+" E2) as Hs.
        change (String.length "+") with 1%nat in Hs.
        rewrite <- Hs. exact Hl.
      * destruct (startswith l "diff " || String.eqb l EmptyString)%bool.
        -- destruct cur as [p|]; [|apply IH; [exact Hrest|discriminate]].
           constructor; [apply Hcur; reflexivity|].
           apply IH; [exact Hrest|discriminate].
        -- apply IH; [exact Hrest|exact Hcur].
Qed.

(** What a lookup in the flushed sections finds. *)
Lemma flush_lookup (secs : list (string * list string))
      (d : list (string * string)) (p content : string) :
  dict_get (fold_left flush secs d) p = Some content ->
  dict_get d p = Some content
  \/ exists added, In (p, added) secs /\ added <> []
                   /\ content = join NL added.
Proof.
  revert d. induction secs as [|[q acc] secs IH]; intros d H; [left; exact H|].
  cbn [fold_left] in H. destruct (IH _ H) as [Hd|(added & Hin & Hne & Hc)].
  - unfold flush in Hd. cbn [fst snd] in Hd. destruct acc as [|a acc].
    + left. exact Hd.
    + destruct (String.eqb q p) eqn:E.
      * apply String.eqb_eq in E. subst q. rewrite dict_get_set_same in Hd.
        injection Hd as <-. right. exists (a :: acc).
        split; [left; reflexivity|]. split; [discriminate|reflexivity].
      * apply String.eqb_neq in E.
        rewrite (dict_get_set_other d q p _ E) in Hd. left. exact Hd.
  - right. exists added. split; [right; exact Hin|]. split; assumption.
Qed.

Lemma flush_keeps_keys (secs : list (string * list string))
      (d : list (string * string)) :
  Forall (fun s => str_truthy (fst s) = true) secs ->
  NoDup (dict_keys d) /\ Forall (fun p => str_truthy p = true) (dict_keys d) ->
  NoDup (dict_keys (fold_left flush secs d))
  /\ Forall (fun p => str_truthy p = true) (dict_keys (fold_left flush secs d)).
Proof.
  intros Hsecs. revert d. induction Hsecs as [|[q acc] secs Hq _ IH];
    intros d [Hnd Hne]; [split; assumption|].
  cbn [fold_left]. apply IH. unfold flush. cbn [fst snd] in *.
  destruct acc as [|a acc]; [split; assumption|]. split.
  - apply dict_set_NoDup. exact Hnd.
  - apply dict_set_keys_truthy; assumption.
Qed.

End ParserInvariants.

Module DiffTextFacts.
Import Py PyFacts DiffParser Observations DiffText DiffParserFacts
  DiffParserRefinement ParserInvariants.

Lemma count_app (c : ascii) (a b : string) :
  count c (a ++ b)%string = (count c a + count c b)%nat.
Proof.
  induction a as [|x a IH]; [reflexivity|]. cbn. rewrite IH.
  destruct (Ascii.eqb x c); reflexivity.
Qed.

Lemma split_one_line (a : string) : one_line a -> split LF a = [a].
Proof.
  unfold one_line. induction a as [|x a IH]; [reflexivity|].
  cbn [count split]. destruct (Ascii.eqb x LF); intros H; [discriminate H|].
  rewrite (IH H). reflexivity.
Qed.

Lemma split_first_line (a s : string) :
  one_line a -> split LF (a ++ NL ++ s)%string = a :: split LF s.
Proof.
  unfold one_line. induction a as [|x a IH]; [reflexivity|].
  cbn [count]. change (String x a ++ NL ++ s)%string
    with (String x (a ++ NL ++ s)%string).
  cbn [split]. destruct (Ascii.eqb x LF); intros H; [discriminate H|].
  rewrite (IH H). reflexivity.
Qed.

Lemma join_cons (x : string) (ys : list string) :
  ys <> [] -> join NL (x :: ys) = (x ++ NL ++ join NL ys)%string.
Proof. destruct ys; [contradiction|reflexivity]. Qed.

Lemma append_assoc (a b c : string) :
  ((a ++ b) ++ c)%string = (a ++ b ++ c)%string.
Proof. induction a as [|x a IH]; [reflexivity|]. cbn. rewrite IH. reflexivity. Qed.

Lemma join_app (xs ys : list string) :
  xs <> [] -> ys <> [] ->
  join NL (xs ++ ys) = (join NL xs ++ NL ++ join NL ys)%string.
Proof.
  intros Hx Hy. induction xs as [|x xs IH]; [contradiction|].
  destruct xs as [|x' xs].
  - cbn [app]. apply join_cons. exact Hy.
  - change ((x :: x' :: xs) ++ ys) with (x :: ((x' :: xs) ++ ys)).
    rewrite join_cons by discriminate.
    rewrite (join_cons x (x' :: xs)) by discriminate.
    rewrite IH by discriminate. rewrite !append_assoc. reflexivity.
Qed.

(** Splitting at line feeds undoes joining with line feeds. *)
Lemma split_join (ls : list string) :
  Forall one_line ls -> ls <> [] -> split LF (join NL ls) = ls.
Proof.
  intros H. induction H as [|l ls Hl Hls IH]; [contradiction|]. intros _.
  destruct ls as [|l' ls].
  - apply split_one_line. exact Hl.
  - rewrite join_cons by discriminate. rewrite split_first_line by exact Hl.
    rewrite IH by discriminate. reflexivity.
Qed.

Lemma text_lines_not_nil (c : file_change) : text_lines c <> [].
Proof. discriminate. Qed.

Lemma flat_map_text_lines_not_nil (cs : list file_change) :
  cs <> [] -> flat_map text_lines cs <> [].
Proof. destruct cs; [contradiction|discriminate]. Qed.

(** The text built from the changes, line by line. *)
Lemma built_text (cs : list file_change) :
  join NL (flat_map GitLabService.change_lines (map to_change cs))
  = join NL (flat_map text_lines cs).
Proof.
  induction cs as [|c cs IH]; [reflexivity|].
  cbn [map flat_map].
  assert (Hc : join NL (GitLabService.change_lines (to_change c))
               = join NL (text_lines c)).
  { unfold GitLabService.change_lines, to_change, text_lines. cbn [Model.old_path
      Model.new_path Model.change_diff GitLabService.or_empty].
    rewrite (join_cons _ (_ :: fc_lines c ++ [EmptyString])) by discriminate.
    rewrite (join_cons _ (fc_lines c ++ [EmptyString]))
      by (destruct (fc_lines c); discriminate).
    reflexivity. }
  destruct cs as [|c' cs].
  - cbn [map flat_map]. rewrite !app_nil_r. exact Hc.
  - rewrite join_app; [|discriminate|discriminate].
    rewrite (join_app (text_lines c)); [|discriminate|discriminate].
    rewrite Hc, IH. reflexivity.
Qed.

Lemma one_line_marker (m p : string) :
  one_line m -> one_line p -> one_line (m ++ p)%string.
Proof. unfold one_line. intros Hm Hp. rewrite count_app, Hm, Hp. reflexivity. Qed.

Lemma text_lines_one_line (c : file_change) :
  well_formed c -> Forall one_line (text_lines c).
Proof.
  intros (Ho & Hn & _ & Hls & _). unfold text_lines.
  constructor; [apply one_line_marker; [reflexivity|exact Ho]|].
  constructor; [apply one_line_marker; [reflexivity|exact Hn]|].
  apply Forall_app. split; [exact Hls|repeat constructor].
Qed.

(** Inside a section, hunk lines only add to the accumulator. *)
Lemma sections_over_hunk (p : string) (ls rest acc : list string) :
  Forall (fun l => hunk_line l = true) ls ->
  sections_from (Some p) acc (ls ++ rest)
  = sections_from (Some p) (acc ++ kept_lines ls) rest.
Proof.
  intros H. revert acc. induction H as [|l ls Hl _ IH]; intros acc.
  - unfold kept_lines. cbn. rewrite app_nil_r. reflexivity.
  - cbn [app sections_from]. unfold classify, kept_lines. cbn [filter].
    unfold hunk_line in Hl.
    apply andb_true_iff in Hl as [Hl H3]. apply andb_true_iff in Hl as [H1 H2].
    apply negb_true_iff in H2, H3. unfold str_truthy in H1.
    apply negb_true_iff in H1. rewrite H3. unfold is_added at 1.
    destruct (startswith l "+" && negb (startswith l "+++"))%bool.
    + rewrite IH. cbn [map]. rewrite <- app_assoc. reflexivity.
    + rewrite H2, H1. cbn [orb]. apply IH.
Qed.

Lemma classify_old_marker (o : string) :
  classify ("--- a/" ++ o) = Other.
Proof. reflexivity. Qed.

Lemma classify_new_marker (p : string) :
  classify ("+++ b/" ++ p) = NewFile p.
Proof. destruct p; reflexivity. Qed.

Lemma sections_of_built_text (cs : list file_change) (acc : list string) :
  Forall well_formed cs ->
  sections_from None acc (flat_map text_lines cs)
  = map (fun c => (fc_new c, kept_lines (fc_lines c))) cs.
Proof.
  intros H. revert acc. induction H as [|c cs Hc _ IH]; intros acc;
    [reflexivity|].
  destruct Hc as (_ & _ & Hn & _ & Hls).
  cbn [flat_map map]. unfold text_lines at 1.
  cbn [app]. cbn [sections_from]. rewrite classify_old_marker.
  cbn [sections_from]. rewrite classify_new_marker, Hn.
  rewrite <- app_assoc.
  rewrite (sections_over_hunk (fc_new c) (fc_lines c) _ [] Hls).
  cbn [app sections_from]. change (classify EmptyString) with SectionEnd.
  cbv iota. rewrite IH. reflexivity.
Qed.

End DiffTextFacts.

Module ParserMore.
Import Py PyFacts DiffParser Observations DiffText DiffParserFacts
  DiffParserRefinement ParserInvariants DiffTextFacts Hunks.

Lemma sections_of_diff_from_input (diff : string) :
  Forall (from_input (split LF diff)) (sections diff).
Proof.
  unfold sections. apply sections_from_input; [auto|discriminate].
Qed.

Lemma entry_has_marker (diff p content : string) :
  dict_get (_parse_diff diff) p = Some content ->
  In ("+++ b/" ++ p)%string (split LF diff).
Proof.
  rewrite parse_diff_flushes_sections. intros H.
  destruct (flush_lookup _ _ _ _ H) as [H0|(added & Hin & _)];
    [discriminate H0|].
  pose proof (sections_of_diff_from_input diff) as Hall.
  rewrite Forall_forall in Hall. destruct (Hall _ Hin) as (_ & Hhdr & _).
  exact Hhdr.
Qed.

(** The paths of the parsed map are pairwise different and none of them
    is empty, whatever the text. *)
Theorem parse_diff_paths_distinct (diff : string) :
  NoDup (dict_keys (_parse_diff diff))
  /\ Forall (fun p => str_truthy p = true) (dict_keys (_parse_diff diff)).
Proof.
  rewrite parse_diff_flushes_sections. apply flush_keeps_keys.
  - eapply Forall_impl; [|apply sections_of_diff_from_input].
    intros s (H & _). exact H.
  - split; constructor.
Qed.

(** The parser invents nothing: an entry of the parsed map has a path
    that follows a ["+++ b/"] marker on a line of the text, and its content
    is one or more lines joined by line feeds, each of which follows a
    ["+"] on a line of the text. *)
Theorem parse_diff_entries_from_input (diff p content : string) :
  dict_get (_parse_diff diff) p = Some content ->
  str_truthy p = true
  /\ In ("+++ b/" ++ p)%string (split LF diff)
  /\ exists added,
      added <> [] /\ content = join NL added
      /\ Forall (fun t => In ("+" ++ t)%string (split LF diff)) added.
Proof.
  rewrite parse_diff_flushes_sections. intros H.
  destruct (flush_lookup _ _ _ _ H) as [H0|(added & Hin & Hne & Hc)];
    [discriminate H0|].
  pose proof (sections_of_diff_from_input diff) as Hall.
  rewrite Forall_forall in Hall.
  destruct (Hall _ Hin) as (Hp & Hhdr & Hadd). cbn [fst snd] in *.
  split; [exact Hp|]. split; [exact Hhdr|].
  exists added. repeat split; assumption.
Qed.

Lemma parse_diff_entries_from_input_witness :
  In "+++ b/test.js" (split LF Scenario.two_file_diff)
  /\ exists added,
      added <> [] /\ "    return null;" = join NL added
      /\ Forall (fun t => In ("+" ++ t)%string (split LF Scenario.two_file_diff))
                added.
Proof.
  exact (proj2 (parse_diff_entries_from_input
                  Scenario.two_file_diff "test.js" "    return null;" eq_refl)).
Defined.

(** A text without any new-file marker parses to the empty map. *)
Theorem parse_diff_without_marker (diff : string) :
  (forall l, In l (split LF diff) -> startswith l "+++ b/" = false) ->
  _parse_diff diff = [].
Proof.
  intros Hno. destruct (_parse_diff diff) as [|[p content] r] eqn:E;
    [reflexivity|].
  assert (H : dict_get (_parse_diff diff) p = Some content).
  { rewrite E. cbn. rewrite String.eqb_refl. reflexivity. }
  pose proof (entry_has_marker diff p content H) as Hin.
  specialize (Hno _ Hin). destruct p; discriminate Hno.
Qed.

Lemma parse_diff_without_marker_witness :
  _parse_diff (join NL ["@@ -1,2 +1,2 @@"; "-old line"; "+new line"]) = [].
Proof.
  apply parse_diff_without_marker. intros l Hin. vm_compute in Hin.
  destruct Hin as [<-|[<-|[<-|[]]]]; reflexivity.
Defined.

(** The parser on the text the repository host service builds, in terms
    of the lines of the diffs: when every changed file has a non-empty new
    path and its diff is made of hunk lines, each ended by a line feed,
    the parsed map is got by flushing, file after file, what the parser's
    test keeps of the lines of the file under its new path. *)
Lemma parse_diff_of_rendered_text (cs : list file_change) :
  Forall well_formed cs ->
  _parse_diff (join NL (flat_map GitLabService.change_lines (map to_change cs)))
  = fold_left flush (map (fun c => (fc_new c, kept_lines (fc_lines c))) cs) [].
Proof.
  intros H. rewrite built_text. destruct cs as [|c cs]; [reflexivity|].
  rewrite parse_diff_flushes_sections. unfold sections.
  rewrite split_join.
  - rewrite (sections_of_built_text _ [] H). reflexivity.
  - apply Forall_flat_map. eapply Forall_impl; [|exact H].
    intros c0 Hc0. apply text_lines_one_line. exact Hc0.
  - apply flat_map_text_lines_not_nil. discriminate.
Qed.

Lemma render_one_line (e : hunk_entry) :
  one_line (text_of e) -> one_line (render e).
Proof.
  unfold one_line. destruct e; cbn [render text_of]; intros H;
    try (rewrite count_app, H; reflexivity).
  reflexivity.
Qed.

Lemma render_hunk_line (e : hunk_entry) :
  no_marker e = true -> hunk_line (render e) = true.
Proof.
  destruct e as [t|t|t|t|]; cbn [no_marker render]; intros H;
    try reflexivity.
  unfold hunk_line. apply negb_true_iff in H.
  change (startswith ("+" ++ t) "+++ b/") with (startswith t "++ b/").
  rewrite H. reflexivity.
Qed.

(** What the parser keeps of the lines of a file are its added lines,
    but for those whose text begins with two plus signs. *)
Lemma kept_of_rendered (es : list hunk_entry) :
  kept_lines (map render es) = filter survives (added_lines es).
Proof.
  unfold kept_lines. induction es as [|e es IH]; [reflexivity|].
  cbn [map filter]. destruct e as [t|t|t|t|]; cbn [render added_lines flat_map app].
  - change (is_added ("@@" ++ t)) with false. exact IH.
  - change (is_added (" " ++ t)) with false. exact IH.
  - assert (Ht : is_added ("+" ++ t) = survives t)
      by (destruct t; reflexivity).
    rewrite Ht. cbn [filter]. destruct (survives t); cbn [map]; [|exact IH].
    change (drop 1 ("+" ++ t)) with t. rewrite IH. reflexivity.
  - change (is_added ("-" ++ t)) with false. exact IH.
  - exact IH.
Qed.

Lemma rendered_well_formed (c : changed_file) :
  proper c -> well_formed (rendered c).
Proof.
  intros (Hold & Hnew & Htrue & Hlines & Hmark).
  unfold well_formed, rendered. cbn [fc_old fc_new fc_lines].
  repeat split; try assumption.
  - apply Forall_map. eapply Forall_impl; [|exact Hlines].
    intros e He. apply render_one_line. exact He.
  - apply Forall_map. eapply Forall_impl; [|exact Hmark].
    intros e He. apply render_hunk_line. exact He.
Qed.

Lemma filter_all {A} (f : A -> bool) (l : list A) :
  Forall (fun x => f x = true) l -> filter f l = l.
Proof.
  induction 1 as [|x l Hx _ IH]; [reflexivity|].
  cbn [filter]. rewrite Hx, IH. reflexivity.
Qed.

(** The parser on the text the repository host service builds.  For
    changed files whose paths and lines hold no line feed, whose new path
    is not empty and none of whose added lines reads as a file header,
    the parsed map is got by flushing, file after file under the new
    path, the added lines of the file in order, without their plus sign,
    but for the added lines whose text begins with two plus signs: the
    parser takes those for header lines and drops them.  When no added
    line begins so, the content of a file is the list of its added lines,
    joined by line feeds.  A file without added lines gets no entry, and
    a path that comes again replaces the earlier content. *)
Theorem parse_diff_of_built_text (cs : list changed_file) :
  Forall proper cs ->
  LinterService._parse_diff (built_diff cs)
  = fold_left flush
              (map (fun c => (cf_new c,
                              filter survives (added_lines (cf_entries c))))
                   cs) []
  /\ (Forall (fun c => Forall (fun text => survives text = true)
                              (added_lines (cf_entries c))) cs ->
      LinterService._parse_diff (built_diff cs)
      = fold_left flush
                  (map (fun c => (cf_new c, added_lines (cf_entries c))) cs)
                  []).
Proof.
  intros H.
  assert (Hmain :
            LinterService._parse_diff (built_diff cs)
            = fold_left flush
                (map (fun c => (cf_new c,
                                filter survives (added_lines (cf_entries c))))
                     cs) []).
  { unfold built_diff, LinterService._parse_diff.
    rewrite <- (map_map rendered to_change).
    rewrite parse_diff_of_rendered_text.
    - rewrite map_map. f_equal. apply map_ext. intros c.
      cbn [rendered fc_new fc_lines]. rewrite kept_of_rendered. reflexivity.
    - apply Forall_map. eapply Forall_impl; [|exact H].
      intros c Hc. apply rendered_well_formed. exact Hc. }
  split; [exact Hmain|].
  intros Hplain. rewrite Hmain. f_equal.
  apply map_ext_in. intros c Hc.
  rewrite Forall_forall in Hplain.
  rewrite (filter_all survives _ (Hplain c Hc)). reflexivity.
Qed.

(** Two changed files; the second adds a line that begins with an
    increment, which is lost. *)
Lemma parse_diff_of_built_text_witness :
  LinterService._parse_diff
    (built_diff
       [ {| cf_old := "a.py"; cf_new := "a.py";
            cf_entries := [ RangeLine " -1 +1,2 @@"; ContextLine "x = 1";
                            AddedLine "y = 2" ] |};
         {| cf_old := "b.js"; cf_new := "c.js";
            cf_entries := [ RangeLine " -1,2 +1,3 @@"; RemovedLine "var a;";
                            AddedLine "let a;"; AddedLine "++a;";
                            AddedLine "let b;"; NoNewlineNote ] |} ])
  = [ ("a.py", "y = 2"); ("c.js", join NL ["let a;"; "let b;"]) ].
Proof.
  match goal with
  | |- LinterService._parse_diff (built_diff ?cs) = _ =>
      rewrite (proj1 (parse_diff_of_built_text cs ltac:(repeat constructor)))
  end.
  reflexivity.
Defined.

(** Why the added lines must not read as a file header: the lines that
    follow such a line are filed under the path it names. *)
Example added_line_taken_for_header :
  LinterService._parse_diff
    (built_diff [ {| cf_old := "notes.md"; cf_new := "notes.md";
                     cf_entries := [ AddedLine "++ b/run.py";
                                     AddedLine "import os" ] |} ])
  = [ ("run.py", "import os") ].
Proof. reflexivity. Qed.

(** A diff that does not end with a line feed is not closed before the
    next file starts: its added lines are lost. *)
Example unterminated_diff_is_lost :
  _parse_diff
    (join NL (flat_map GitLabService.change_lines
                [ {| Model.old_path := Some "a.py"; Model.new_path := Some "a.py";
                     Model.change_diff := Some "+y = 2" |};
                  {| Model.old_path := Some "b.js"; Model.new_path := Some "b.js";
                     Model.change_diff := Some "+let b;" |} ]))
  = [ ("b.js", "let b;") ].
Proof. reflexivity. Qed.

End ParserMore.

(** ** Which calls a computation makes *)

Module TraceFacts.
Import Py PyVal Eff Model EffFacts Observations Traces.

Section Emits.
Context {S : Type} (proj : S -> list event) (P : event -> bool).

Lemma emits_ret {A} (a : A) : emits proj P (@ret S A a).
Proof. intros s. exists []. cbn. rewrite app_nil_r. split; constructor. Qed.

Lemma emits_raise {A} (e : exn) : emits proj P (@raise S A e).
Proof. intros s. exists []. cbn. rewrite app_nil_r. split; constructor. Qed.

Lemma emits_lift {A} (r : res A) : emits proj P (@lift S A r).
Proof. intros s. exists []. cbn. rewrite app_nil_r. split; constructor. Qed.

Lemma emits_bind {A B} (m : M S A) (k : A -> M S B) :
  emits proj P m -> (forall a, emits proj P (k a)) -> emits proj P (bind m k).
Proof.
  intros Hm Hk s. unfold bind. destruct (Hm s) as (evs & E & F).
  destruct (m s) as [[a|e] s']; cbn [snd] in *.
  - destruct (Hk a s') as (evs' & E' & F'). exists (evs ++ evs').
    rewrite E', E, app_assoc. split; [reflexivity|].
    apply Forall_app. split; assumption.
  - exists evs. split; assumption.
Qed.

Lemma emits_try_except {A} (body : M S A) (catches : exn -> bool)
      (handler : exn -> M S A) :
  emits proj P body -> (forall e, emits proj P (handler e)) ->
  emits proj P (try_except body catches handler).
Proof.
  intros Hb Hh s. unfold try_except. destruct (Hb s) as (evs & E & F).
  destruct (body s) as [[a|e] s']; cbn [snd] in *.
  - exists evs. split; assumption.
  - destruct (catches e); [|exists evs; split; assumption].
    destruct (Hh e s') as (evs' & E' & F'). exists (evs ++ evs').
    rewrite E', E, app_assoc. split; [reflexivity|].
    apply Forall_app. split; assumption.
Qed.

Lemma emits_finally {A} (body : M S A) (cleanup : M S unit) :
  emits proj P body -> emits proj P cleanup ->
  emits proj P (finally body cleanup).
Proof.
  intros Hb Hc s. unfold finally. destruct (Hb s) as (evs & E & F).
  destruct (body s) as [r s']; cbn [snd] in *.
  destruct (Hc s') as (evs' & E' & F').
  exists (evs ++ evs').
  destruct (cleanup s') as [[u|e] s'']; cbn [snd] in *;
    rewrite E', E, app_assoc; (split; [reflexivity|]);
    apply Forall_app; split; assumption.
Qed.

Lemma emits_for_each {A} (l : list A) (body : A -> M S unit) :
  (forall a, emits proj P (body a)) -> emits proj P (for_each l body).
Proof.
  intros Hb. induction l as [|a l IH]; cbn [for_each].
  - apply emits_ret.
  - apply emits_bind; [apply Hb|]. intros _. exact IH.
Qed.

Lemma emits_for_fold {A B} (l : list A) (acc : B) (body : B -> A -> M S B) :
  (forall b a, emits proj P (body b a)) -> emits proj P (for_fold l acc body).
Proof.
  intros Hb. revert acc. induction l as [|a l IH]; intros acc; cbn [for_fold].
  - apply emits_ret.
  - apply emits_bind; [apply Hb|]. intros acc'. apply IH.
Qed.

Lemma emits_if {A} (b : bool) (m1 m2 : M S A) :
  emits proj P m1 -> emits proj P m2 -> emits proj P (if b then m1 else m2).
Proof. destruct b; intros; assumption. Qed.

End Emits.

Lemma emits_weaken {S A} (proj : S -> list event) (P Q : event -> bool)
      (m : M S A) :
  (forall ev, P ev = true -> Q ev = true) ->
  emits proj P m -> emits proj Q m.
Proof.
  intros HPQ Hm s. destruct (Hm s) as (evs & E & F). exists evs.
  split; [exact E|]. eapply Forall_impl; [|exact F]. exact HPQ.
Qed.

Lemma emits_call {A} (P : event -> bool) (e : event)
      (outcome : list event -> res A) :
  P e = true -> emits whole P (call e outcome).
Proof.
  intros HP h. exists [e]. split; [reflexivity|]. repeat constructor. exact HP.
Qed.

Lemma emits_ext {A} (P : event -> bool) (m : M (list event) A) :
  emits whole P m -> emits of_run P (LinterService.ext m).
Proof.
  intros Hm [h found]. unfold LinterService.ext, of_run. cbn [fst snd].
  destruct (Hm h) as (evs & E & F). unfold whole in E.
  destruct (m h) as [r h']. cbn [fst snd] in *. exists evs. split; assumption.
Qed.

Lemma emits_append_issue (P : event -> bool) (f : finding) :
  emits of_run P (LinterService.append_issue f).
Proof.
  intros [h found]. exists []. cbn. rewrite app_nil_r. split; constructor.
Qed.

Lemma emits_returning_results (P : event -> bool) (lang : string)
      (body : LinterService.L unit) :
  emits of_run P body ->
  emits whole P (LinterService.returning_results lang body).
Proof.
  intros Hb h. unfold LinterService.returning_results.
  destruct (Hb (h, [])) as (evs & E & F). unfold of_run in E. cbn [fst] in E.
  destruct (body (h, [])) as [[u|e] [h' found]]; cbn [fst snd] in *;
    exists evs; split; assumption.
Qed.

Create HintDb emits_db.

(** Break a computation into its steps; calls are closed by evaluating
    the class of their event, the functions of the services by the
    lemmas of [emits_db]. *)
Ltac emits_steps :=
  repeat first
    [ apply emits_ret | apply emits_raise | apply emits_lift
    | apply emits_append_issue
    | apply emits_call; reflexivity
    | solve [auto with emits_db]
    | apply emits_ext | apply emits_returning_results
    | apply emits_try_except | apply emits_finally
    | apply emits_for_each | apply emits_for_fold | apply emits_bind
    | apply emits_if
    | match goal with
      | |- forall _, _ => intro
      | |- emits _ _ (match ?x with _ => _ end) => destruct x
      end ].

End TraceFacts.

Module ServiceTraces.
Import Py PyVal Eff Model EffFacts Observations Traces TraceFacts.

Lemma get_project_emits env project_id :
  emits whole is_gitlab_event (GitLabService.get_project env project_id).
Proof. unfold GitLabService.get_project. emits_steps. Qed.
#[export] Hint Resolve get_project_emits : emits_db.

Lemma get_merge_request_emits env project_id merge_request_iid :
  emits whole is_gitlab_event
        (GitLabService.get_merge_request env project_id merge_request_iid).
Proof. unfold GitLabService.get_merge_request. emits_steps. Qed.
#[export] Hint Resolve get_merge_request_emits : emits_db.

Lemma get_merge_request_diff_emits env project_id merge_request_iid :
  emits whole is_gitlab_event
        (GitLabService.get_merge_request_diff env project_id merge_request_iid).
Proof. unfold GitLabService.get_merge_request_diff. emits_steps. Qed.

Lemma post_comment_emits env project_id merge_request_iid comment :
  emits whole is_gitlab_event
        (GitLabService.post_comment env project_id merge_request_iid comment).
Proof. unfold GitLabService.post_comment. emits_steps. Qed.

Lemma jira_init_emits env url username token :
  emits whole is_jira_event (JiraService.__init__ env url username token).
Proof. unfold JiraService.__init__. emits_steps. Qed.

Lemma get_ticket_info_emits env ticket_key :
  emits whole is_jira_event (JiraService.get_ticket_info env ticket_key).
Proof. unfold JiraService.get_ticket_info. emits_steps. Qed.

Lemma with_tempdir_emits {A} env (body : string -> LinterService.L A) :
  (forall temp_dir, emits of_run is_lint_event (body temp_dir)) ->
  emits of_run is_lint_event (LinterService.with_tempdir env body).
Proof. intros H. unfold LinterService.with_tempdir. emits_steps. Qed.

Lemma write_files_emits env temp_dir files :
  emits of_run is_lint_event (LinterService.write_files env temp_dir files).
Proof. unfold LinterService.write_files. emits_steps. Qed.
#[export] Hint Resolve write_files_emits : emits_db.

Lemma write_config_emits env temp_dir name config :
  emits of_run is_lint_event
        (LinterService.write_config env temp_dir name config).
Proof. unfold LinterService.write_config. emits_steps. Qed.
#[export] Hint Resolve write_config_emits : emits_db.

Lemma run_tool_emits env cmd :
  emits of_run is_lint_event (LinterService.run_tool env cmd).
Proof. unfold LinterService.run_tool. emits_steps. Qed.
#[export] Hint Resolve run_tool_emits : emits_db.

Lemma flake8_file_emits env temp_dir file_path :
  emits of_run is_lint_event (LinterService.flake8_file env temp_dir file_path).
Proof.
  unfold LinterService.flake8_file, LinterService.log_and_continue.
  emits_steps.
Qed.
#[export] Hint Resolve flake8_file_emits : emits_db.

Lemma pylint_file_emits env temp_dir file_path :
  emits of_run is_lint_event (LinterService.pylint_file env temp_dir file_path).
Proof.
  unfold LinterService.pylint_file, LinterService.log_and_continue.
  emits_steps.
Qed.
#[export] Hint Resolve pylint_file_emits : emits_db.

Lemma eslint_file_emits env temp_dir file_path :
  emits of_run is_lint_event (LinterService.eslint_file env temp_dir file_path).
Proof.
  unfold LinterService.eslint_file, LinterService.log_and_continue.
  emits_steps.
Qed.
#[export] Hint Resolve eslint_file_emits : emits_db.

Lemma go_vet_output_emits env file_path output :
  emits of_run is_lint_event
        (LinterService.go_vet_output env file_path output).
Proof. unfold LinterService.go_vet_output. emits_steps. Qed.
#[export] Hint Resolve go_vet_output_emits : emits_db.

Lemma go_vet_file_emits env temp_dir file_path :
  emits of_run is_lint_event (LinterService.go_vet_file env temp_dir file_path).
Proof. unfold LinterService.go_vet_file. emits_steps. Qed.
#[export] Hint Resolve go_vet_file_emits : emits_db.

Lemma regex_rule_emits (P : event -> bool) env pattern msg sev file_path content :
  emits of_run P
        (LinterService.regex_rule env pattern msg sev file_path content).
Proof. unfold LinterService.regex_rule. emits_steps. Qed.

Lemma run_python_emits env files :
  emits whole is_lint_event (LinterService._run_python_linters env files).
Proof.
  unfold LinterService._run_python_linters.
  apply emits_returning_results, with_tempdir_emits. emits_steps.
Qed.

Lemma run_javascript_emits env files :
  emits whole is_lint_event (LinterService._run_javascript_linters env files).
Proof.
  unfold LinterService._run_javascript_linters.
  apply emits_returning_results, with_tempdir_emits. emits_steps.
Qed.

Lemma run_typescript_emits env files :
  emits whole is_lint_event (LinterService._run_typescript_linters env files).
Proof.
  unfold LinterService._run_typescript_linters.
  apply emits_returning_results, with_tempdir_emits. emits_steps.
Qed.

Lemma run_java_emits (P : event -> bool) env files :
  emits whole P (LinterService._run_java_linters env files).
Proof.
  unfold LinterService._run_java_linters.
  apply emits_returning_results, emits_for_each. intros entry.
  apply emits_bind; [apply regex_rule_emits|]. intros _. apply regex_rule_emits.
Qed.

Lemma run_csharp_emits (P : event -> bool) env files :
  emits whole P (LinterService._run_csharp_linters env files).
Proof.
  unfold LinterService._run_csharp_linters.
  apply emits_returning_results, emits_for_each. intros entry.
  apply emits_bind; [apply regex_rule_emits|]. intros _. apply regex_rule_emits.
Qed.

Lemma run_go_emits env files :
  emits whole is_lint_event (LinterService._run_go_linters env files).
Proof.
  unfold LinterService._run_go_linters.
  apply emits_returning_results, with_tempdir_emits. emits_steps.
Qed.

#[export] Hint Resolve run_python_emits run_javascript_emits
  run_typescript_emits run_java_emits run_csharp_emits run_go_emits : emits_db.

Lemma run_linters_emits env diff :
  emits whole is_lint_event (LinterService.run_linters env diff).
Proof.
  unfold LinterService.run_linters, LinterService.run_linters_body.
  emits_steps.
Qed.

Lemma invoke_model_emits env model_id prompt :
  emits whole is_model_event (BedrockService._invoke_model env model_id prompt).
Proof.
  unfold BedrockService._invoke_model, BedrockService.invoke_and_decode.
  emits_steps.
Qed.
#[export] Hint Resolve invoke_model_emits : emits_db.

Lemma generate_review_emits env self diff jira_info linter_results :
  emits whole is_model_event
        (BedrockService.generate_review env self diff jira_info linter_results).
Proof.
  unfold BedrockService.generate_review, BedrockService.generate_review_body.
  emits_steps.
Qed.

End ServiceTraces.

Module WorkerTraces.
Import Py PyVal Eff Model EffFacts Observations Traces TraceFacts ServiceTraces
  Worker.

Lemma gitlab_is_processing ev :
  is_gitlab_event ev = true -> is_processing_event ev = true.
Proof. destruct ev; (discriminate || reflexivity). Qed.

Lemma jira_is_processing ev :
  is_jira_event ev = true -> is_processing_event ev = true.
Proof. destruct ev; (discriminate || reflexivity). Qed.

Lemma lint_is_processing ev :
  is_lint_event ev = true -> is_processing_event ev = true.
Proof. destruct ev; (discriminate || reflexivity). Qed.

Lemma model_is_processing ev :
  is_model_event ev = true -> is_processing_event ev = true.
Proof. destruct ev; (discriminate || reflexivity). Qed.

Lemma post_comment_processing env project_id merge_request_iid comment :
  emits whole is_processing_event
        (GitLabService.post_comment env project_id merge_request_iid comment).
Proof.
  eapply emits_weaken; [exact gitlab_is_processing|apply post_comment_emits].
Qed.

Lemma get_diff_processing env project_id merge_request_iid :
  emits whole is_processing_event
        (GitLabService.get_merge_request_diff env project_id merge_request_iid).
Proof.
  eapply emits_weaken;
    [exact gitlab_is_processing|apply get_merge_request_diff_emits].
Qed.

Lemma fetch_jira_info_emits env jira_ticket_key :
  emits whole is_jira_event (fetch_jira_info env jira_ticket_key).
Proof.
  unfold fetch_jira_info. apply emits_if; [|apply emits_ret].
  apply emits_bind; [apply jira_init_emits|]. intros _.
  apply get_ticket_info_emits.
Qed.

Lemma fetch_jira_info_processing env jira_ticket_key :
  emits whole is_processing_event (fetch_jira_info env jira_ticket_key).
Proof.
  eapply emits_weaken; [exact jira_is_processing|apply fetch_jira_info_emits].
Qed.

Lemma run_linters_processing env diff :
  emits whole is_processing_event (LinterService.run_linters env diff).
Proof.
  eapply emits_weaken; [exact lint_is_processing|apply run_linters_emits].
Qed.

Lemma generate_review_processing env self diff jira_info linter_results :
  emits whole is_processing_event
        (BedrockService.generate_review env self diff jira_info linter_results).
Proof.
  eapply emits_weaken; [exact model_is_processing|apply generate_review_emits].
Qed.

#[export] Hint Resolve post_comment_processing get_diff_processing
  fetch_jira_info_processing run_linters_processing
  generate_review_processing : emits_db.

Lemma review_and_post_emits env project_id merge_request_iid jira_ticket_key diff :
  emits whole is_processing_event
        (review_and_post env project_id merge_request_iid jira_ticket_key diff).
Proof. unfold review_and_post. emits_steps. Qed.
#[export] Hint Resolve review_and_post_emits : emits_db.

Lemma process_message_emits env msg :
  emits whole is_processing_event (process_message env msg).
Proof. unfold process_message, process_message_body. emits_steps. Qed.

End WorkerTraces.

Module PipelineGuarantees.
Import Py PyVal Eff Model EffFacts Observations Traces TraceFacts ServiceTraces
  WorkerTraces Worker.

(** [run_linters] calls nothing but the file system and processes:
    every call it adds to the history makes or removes a temporary
    directory, makes a directory, writes a file or runs a process, so
    the repository host, the issue tracker, the model and the queue are
    not called.  Where the files are written is not part of the
    statement: see [absolute_path_is_written_in_place] below.  For a diff
    none of whose files has a supported extension it makes no call at all
    and returns the empty report. *)
Theorem run_linters_only_runs_analyzers (env : Env) (diff : string)
        (h : list event) :
  (exists evs,
      snd (LinterService.run_linters env diff h) = h ++ evs
      /\ Forall (fun ev => is_lint_event ev = true) evs
      /\ Forall (fun ev => is_gitlab_event ev = false
                           /\ is_jira_event ev = false
                           /\ is_model_event ev = false
                           /\ is_queue_event ev = false) evs)
  /\ (LinterService._group_files_by_language (LinterService._parse_diff diff)
      = [] ->
      LinterService.run_linters env diff h = (Ret [], h)).
Proof.
  split.
  { destruct (run_linters_emits env diff h) as (evs & Hevs & Hlint).
    exists evs. split; [exact Hevs|]. split; [exact Hlint|].
    eapply Forall_impl; [|exact Hlint].
    intros ev Hev. destruct ev; cbn in Hev; try discriminate Hev;
      repeat split. }
  intros Hnone.
  unfold LinterService.run_linters, LinterService.run_linters_body, try_except.
  rewrite Hnone. reflexivity.
Qed.

Lemma run_linters_only_runs_analyzers_witness :
  LinterService.run_linters
    Scenario.env_ok
    (join NL ["--- a/README.md"; "+++ b/README.md"; "+More text"]) []
  = (Ret [], []).
Proof.
  apply (proj2 (run_linters_only_runs_analyzers Scenario.env_ok _ [])).
  reflexivity.
Defined.

(** The path of a file is joined to the temporary directory as
    [os.path.join] does it: a path of the diff that is absolute is
    written where it points, outside the temporary directory. *)
Example absolute_path_is_written_in_place :
  snd (LinterService.run_linters
         Scenario.env_ok
         (join NL ["+++ b//etc/cron.d/job.py"; "+import os"; EmptyString]) [])
  = [ TempDirCreate;
      MakeDirs "/etc/cron.d";
      WriteFile "/etc/cron.d/job.py" "import os";
      Subprocess ["flake8"; "--format=json"; "/etc/cron.d/job.py"];
      Subprocess ["pylint"; "--output-format=json"; "/etc/cron.d/job.py"];
      TempDirCleanup "/tmp/tmpq1w2e3" ].
Proof. vm_compute. reflexivity. Qed.

(** [generate_review] never raises; what it returns is either absent or
    a true value (never an empty text), and the calls it makes are model
    invocations only. *)
Theorem generate_review_returns_text_or_nothing
        (env : Env) (self : BedrockService.service) (diff : string)
        (jira_info : option ticket_info) (linter_results : lint_report)
        (h : list event) :
  exists review evs,
    BedrockService.generate_review env self diff jira_info linter_results h
    = (Ret review, h ++ evs)
    /\ (review = VNone \/ truthy review = true)
    /\ Forall (fun ev => is_model_event ev = true) evs.
Proof.
  destruct (generate_review_emits env self diff jira_info linter_results h)
    as (evs & E & F). unfold whole in E.
  assert (H : exists review,
             fst (BedrockService.generate_review env self diff jira_info
                                                 linter_results h) = Ret review
             /\ (review = VNone \/ truthy review = true)).
  { unfold BedrockService.generate_review, try_except,
      BedrockService.generate_review_body, bind.
    destruct (BedrockService._invoke_model env _ _ h) as [[r1|e1] h1];
      [|exists VNone; split; [reflexivity|left; reflexivity]].
    destruct (truthy r1) eqn:T1; cbn [negb].
    - exists r1. cbn. rewrite T1. split; [reflexivity|right; reflexivity].
    - destruct (BedrockService._invoke_model env _ _ h1) as [[r2|e2] h2];
        [|exists VNone; split; [reflexivity|left; reflexivity]].
      destruct (truthy r2) eqn:T2; cbn.
      + exists r2. split; [reflexivity|right; exact T2].
      + exists VNone. split; [reflexivity|left; reflexivity]. }
  destruct H as (review & Hr & Hv). exists review, evs.
  destruct (BedrockService.generate_review env self diff jira_info
                                           linter_results h) as [r h'].
  cbn [fst snd] in *. subst. repeat split; assumption.
Qed.

(** [process_message] never raises, and none of the calls it makes is a
    call to the queue: it neither receives nor deletes a message. *)
Theorem process_message_leaves_the_queue_alone (env : Env) (msg : message)
        (h : list event) :
  exists success evs,
    process_message env msg h = (Ret success, h ++ evs)
    /\ Forall (fun ev => is_queue_event ev = false) evs.
Proof.
  destruct (process_message_emits env msg h) as (evs & E & F).
  unfold whole in E.
  destruct (WorkerSteps.process_message_returns env msg h)
    as (success & h' & Hp).
  rewrite Hp in E. cbn [snd] in E. subst h'. exists success, evs.
  split; [exact Hp|]. eapply Forall_impl; [|exact F].
  intros ev Hev. unfold is_processing_event in Hev.
  apply negb_true_iff in Hev. exact Hev.
Qed.

(** The loop body and the delete.  A message without receipt handle is
    not processed at all.  For a message with a receipt handle, the calls
    the loop body adds hold a delete of that handle exactly when
    [process_message] returned [True]; the delete is then the last call,
    and what it raises is all the loop body can raise. *)
Theorem handle_message_deletes_on_success_only (env : Env) (msg : message)
        (h : list event) :
  (opt_str_truthy (ReceiptHandle msg) = false ->
   handle_message env msg h = (Ret tt, h))
  /\ forall receipt_handle,
      ReceiptHandle msg = Some receipt_handle ->
      str_truthy receipt_handle = true ->
      exists success evs,
        process_message env msg h = (Ret success, h ++ evs)
        /\ ~ In (SqsDelete receipt_handle) evs
        /\ handle_message env msg h
           = if success
             then (sqs_delete_message env (h ++ evs) receipt_handle,
                   h ++ evs ++ [SqsDelete receipt_handle])
             else (Ret tt, h ++ evs).
Proof.
  split.
  - intros Hno. unfold handle_message. rewrite Hno. reflexivity.
  - intros receipt_handle Hrh Htrue.
    destruct (process_message_emits env msg h) as (evs & E & F).
    unfold whole in E.
    destruct (WorkerSteps.process_message_returns env msg h)
      as (success & h' & Hp).
    rewrite Hp in E. cbn [snd] in E. subst h'. exists success, evs.
    split; [exact Hp|]. split.
    + intros Hin. rewrite Forall_forall in F. specialize (F _ Hin).
      discriminate F.
    + unfold handle_message. rewrite Hrh.
      cbn [opt_str_truthy GitLabService.or_empty]. rewrite Htrue. cbn [negb].
      rewrite (bind_eq_ret _ _ _ _ _ Hp). destruct success; [|reflexivity].
      unfold delete_message_from_sqs, call. rewrite app_assoc. reflexivity.
Qed.

Lemma handle_message_deletes_on_success_only_witness :
  handle_message Scenario.env_ok
                 {| Body := Some (Scenario.dumps (Scenario.job VNone));
                    ReceiptHandle := None |} []
  = (Ret tt, []).
Proof.
  apply (proj1 (handle_message_deletes_on_success_only Scenario.env_ok _ [])).
  reflexivity.
Defined.

End PipelineGuarantees.

Module ConsumerLoop.
Import Py PyVal Eff Model EffFacts Observations Traces Worker.

Lemma sleep_returns (seconds : Z) (h : list event) :
  sleep seconds h = (Ret tt, h ++ [Sleep seconds]).
Proof. reflexivity. Qed.

Lemma main_iteration_returns env h :
  exists h', main_iteration env h = (Ret tt, h').
Proof.
  destruct (try_except_all_returns
              (bind (receive_messages_from_sqs env)
                    (fun messages =>
                       if negb (list_truthy messages) then sleep 5
                       else for_each messages (handle_message env)))
              (fun _ => sleep 5) h) as ([] & h' & H).
  - intros e s'. exists tt, (s' ++ [Sleep 5]). reflexivity.
  - exists h'. exact H.
Qed.

(** One turn of the consumer loop never raises.  When the queue has no
    message, and also when receiving fails, the turn consists of the
    receive call and a pause of five seconds. *)
Theorem main_iteration_survives (env : Env) (h : list event) :
  (exists h', main_iteration env h = (Ret tt, h'))
  /\ (sqs_receive_message env h = Ret [] ->
      main_iteration env h = (Ret tt, h ++ [SqsReceive; Sleep 5]))
  /\ (forall e, sqs_receive_message env h = Raise e ->
                main_iteration env h = (Ret tt, h ++ [SqsReceive; Sleep 5])).
Proof.
  split; [apply main_iteration_returns|]. split.
  - intros Hnone.
    cbv [main_iteration try_except bind receive_messages_from_sqs call].
    rewrite Hnone. cbn [list_truthy negb]. rewrite sleep_returns.
    rewrite <- app_assoc. reflexivity.
  - intros e Hfail.
    cbv [main_iteration try_except bind receive_messages_from_sqs call].
    rewrite Hfail. cbn [any_exception]. rewrite sleep_returns.
    rewrite <- app_assoc. reflexivity.
Qed.

Lemma main_iteration_survives_witness :
  main_iteration QueueScenario.env_queue_down []
  = (Ret tt, [SqsReceive; Sleep 5]).
Proof.
  apply (proj2 (proj2 (main_iteration_survives
                         QueueScenario.env_queue_down [])) ClientError).
  reflexivity.
Defined.

(** The consumer loop never raises, however many turns it takes, and
    once the [running] flag is cleared it makes no further call. *)
Theorem main_stops_quietly (env : Env) (turns : nat) (h : list event) :
  (exists h', main env turns h = (Ret tt, h'))
  /\ (running env h = false -> main env turns h = (Ret tt, h)).
Proof.
  split.
  - revert h. induction turns as [|n IH]; intros h.
    + exists h. reflexivity.
    + cbn [main]. destruct (running env h); [|exists h; reflexivity].
      destruct (main_iteration_returns env h) as (h1 & H1).
      rewrite (bind_eq_ret _ _ _ _ _ H1). apply IH.
  - intros Hstop. destruct turns as [|n]; [reflexivity|].
    cbn [main]. rewrite Hstop. reflexivity.
Qed.

Lemma main_stops_quietly_witness :
  main (Shutdown.signalled_after 0 Scenario.env_ok) 5 [] = (Ret tt, []).
Proof.
  exact (proj2 (main_stops_quietly
                  (Shutdown.signalled_after 0 Scenario.env_ok) 5 [])
               eq_refl).
Defined.

(** Told to stop during its first turn on an empty queue, the worker
    finishes the turn and makes no further call. *)
Example worker_finishes_its_turn :
  main (Shutdown.signalled_after 1 QueueScenario.env_queue_down) 5 []
  = (Ret tt, [SqsReceive; Sleep 5]).
Proof. vm_compute. reflexivity. Qed.

(** A batch of messages.  A message whose processing fails does not
    stop the batch: the next messages are handled as usual.  A delete
    that raises does: the messages after it are not looked at in this
    turn, which ends with a pause of five seconds. *)
Theorem batch_goes_on_after_failure_but_not_after_delete_error
        (env : Env) (msg : message) (rest : list message)
        (h h1 : list event) (receipt_handle : string) :
  ReceiptHandle msg = Some receipt_handle ->
  str_truthy receipt_handle = true ->
  (process_message env msg h = (Ret false, h1) ->
   for_each (msg :: rest) (handle_message env) h
   = for_each rest (handle_message env) h1)
  /\ (forall e,
         process_message env msg h = (Ret true, h1) ->
         sqs_delete_message env h1 receipt_handle = Raise e ->
         for_each (msg :: rest) (handle_message env) h
         = (Raise e, h1 ++ [SqsDelete receipt_handle])
         /\ forall h0,
             h = h0 ++ [SqsReceive] ->
             sqs_receive_message env h0 = Ret (msg :: rest) ->
             main_iteration env h0
             = (Ret tt, h1 ++ [SqsDelete receipt_handle; Sleep 5])).
Proof.
  intros Hrh Htrue.
  assert (Hhandle : forall success,
             process_message env msg h = (Ret success, h1) ->
             handle_message env msg h
             = if success
               then (sqs_delete_message env h1 receipt_handle,
                     h1 ++ [SqsDelete receipt_handle])
               else (Ret tt, h1)).
  { intros success Hp. unfold handle_message. rewrite Hrh.
    cbn [opt_str_truthy GitLabService.or_empty]. rewrite Htrue. cbn [negb].
    rewrite (bind_eq_ret _ _ _ _ _ Hp). destruct success; reflexivity. }
  split.
  - intros Hp. cbn [for_each].
    rewrite (bind_eq_ret _ _ _ _ _ (Hhandle false Hp)). reflexivity.
  - intros e Hp Hdel.
    assert (Hbatch : for_each (msg :: rest) (handle_message env) h
                     = (Raise e, h1 ++ [SqsDelete receipt_handle])).
    { cbn [for_each]. apply bind_eq_raise.
      rewrite (Hhandle true Hp), Hdel. reflexivity. }
    split; [exact Hbatch|].
    intros h0 -> Hrecv.
    cbv [main_iteration try_except receive_messages_from_sqs].
    unfold bind at 1. unfold call at 1. rewrite Hrecv. cbn [list_truthy negb].
    rewrite Hbatch. cbn [any_exception]. rewrite sleep_returns.
    rewrite <- app_assoc. reflexivity.
Qed.

Lemma batch_goes_on_after_failure_but_not_after_delete_error_witness :
  main_iteration QueueScenario.env_delete_refused []
  = (Ret tt,
     snd (process_message QueueScenario.env_delete_refused
                          QueueScenario.first_message [SqsReceive])
     ++ [SqsDelete "rh-1"; Sleep 5]).
Proof.
  refine (proj2 (proj2 (batch_goes_on_after_failure_but_not_after_delete_error
                          QueueScenario.env_delete_refused
                          QueueScenario.first_message
                          [QueueScenario.second_message]
                          [SqsReceive] _ "rh-1" eq_refl eq_refl)
                       ClientError _ eq_refl)
                [] eq_refl eq_refl).
  vm_compute. reflexivity.
Defined.

(** A malformed message at the head of a batch is skipped and the next
    one is reviewed and deleted. *)
Example malformed_message_does_not_block_the_batch :
  existsb (is_delete_of "rh-2")
          (snd (main_iteration QueueScenario.env_malformed_first [])) = true
  /\ existsb (is_delete_of "rh-0")
             (snd (main_iteration QueueScenario.env_malformed_first []))
     = false.
Proof. split; vm_compute; reflexivity. Qed.

End ConsumerLoop.

Module ServiceErrors.
Import Py PyVal Eff Model EffFacts Observations Traces GitLabService
  JiraService Worker.

(** [get_merge_request_diff], call by call.  A [GitlabError] of the
    project request, of the merge request request or of the changes
    request gives an absent diff, and the calls after the failing one are
    not made; any other exception of the changes request is raised to the
    caller; when the three calls answer, the diff is the text built from
    the changes. *)
Theorem get_merge_request_diff_by_cases
        (env : Env) (project_id merge_request_iid : value) (h : list event) :
  (gitlab_projects_get env h project_id = Raise GitlabError ->
   get_merge_request_diff env project_id merge_request_iid h
   = (Ret None, h ++ [GitlabGetProject project_id]))
  /\ (gitlab_projects_get env h project_id = Ret tt ->
      gitlab_mergerequests_get env (h ++ [GitlabGetProject project_id])
                               project_id merge_request_iid
      = Raise GitlabError ->
      get_merge_request_diff env project_id merge_request_iid h
      = (Ret None,
         h ++ [ GitlabGetProject project_id;
                GitlabGetMergeRequest project_id merge_request_iid ]))
  /\ (forall outcome,
         gitlab_projects_get env h project_id = Ret tt ->
         gitlab_mergerequests_get env (h ++ [GitlabGetProject project_id])
                                  project_id merge_request_iid = Ret tt ->
         gitlab_changes
           env (h ++ [ GitlabGetProject project_id;
                       GitlabGetMergeRequest project_id merge_request_iid ])
           project_id merge_request_iid = outcome ->
         get_merge_request_diff env project_id merge_request_iid h
         = (match outcome with
            | Ret changes => Ret (Some (join NL (flat_map change_lines changes)))
            | Raise GitlabError => Ret None
            | Raise e => Raise e
            end,
            h ++ [ GitlabGetProject project_id;
                   GitlabGetMergeRequest project_id merge_request_iid;
                   GitlabChanges project_id merge_request_iid ])).
Proof.
  split; [|split].
  - intros H1.
    cbv [get_merge_request_diff get_merge_request get_project try_except bind
         call ret]. rewrite H1. reflexivity.
  - intros H1 H2.
    cbv [get_merge_request_diff get_merge_request get_project try_except bind
         call ret the_project_id]. rewrite H1. cbv beta iota. rewrite H2.
    cbn [is_GitlabError]. rewrite <- app_assoc. reflexivity.
  - intros outcome H1 H2 H3.
    cbv [get_merge_request_diff get_merge_request get_project try_except bind
         call ret the_project_id mr_project_id mr_iid].
    rewrite H1. cbv beta iota. rewrite H2. cbv beta iota.
    rewrite <- app_assoc. cbn [app]. rewrite H3.
    rewrite <- !app_assoc. cbn [app].
    destruct outcome as [changes|e]; [reflexivity|].
    destruct e; reflexivity.
Qed.

Lemma get_merge_request_diff_by_cases_witness :
  get_merge_request_diff Scenario.env_ok (VInt 7) (VInt 3) []
  = (Ret (Some (join NL (flat_map change_lines [Scenario.small_change]))),
     [ GitlabGetProject (VInt 7); GitlabGetMergeRequest (VInt 7) (VInt 3);
       GitlabChanges (VInt 7) (VInt 3) ]).
Proof.
  exact (proj2 (proj2 (get_merge_request_diff_by_cases
                         Scenario.env_ok (VInt 7) (VInt 3) []))
               (Ret [Scenario.small_change]) eq_refl eq_refl eq_refl).
Defined.

(** [post_comment] returns [True] exactly when the project request, the
    merge request request and the creation of the note all answered; the
    note created then carries the comment it was given. *)
Theorem post_comment_true_iff_note_created
        (env : Env) (project_id merge_request_iid comment : value)
        (h : list event) :
  fst (post_comment env project_id merge_request_iid comment h) = Ret true
  <-> (gitlab_projects_get env h project_id = Ret tt
       /\ gitlab_mergerequests_get env (h ++ [GitlabGetProject project_id])
                                   project_id merge_request_iid = Ret tt
       /\ gitlab_notes_create
            env (h ++ [ GitlabGetProject project_id;
                        GitlabGetMergeRequest project_id merge_request_iid ])
            project_id merge_request_iid comment = Ret tt).
Proof.
  cbv [post_comment get_merge_request get_project try_except bind call ret
       the_project_id mr_project_id mr_iid].
  destruct (gitlab_projects_get env h project_id) as [[]|e1]; cbv beta iota.
  - destruct (gitlab_mergerequests_get env _ project_id merge_request_iid)
      as [[]|e2]; cbv beta iota.
    + repeat rewrite <- app_assoc. cbn [app].
      destruct (gitlab_notes_create env _ project_id merge_request_iid comment)
        as [[]|e3]; cbv beta iota.
      * cbn [fst]. split; [intros _; repeat split|reflexivity].
      * split; [|intros (_ & _ & [=])].
        destruct (is_GitlabError e3); cbn [fst]; intros [=].
    + split; [|intros (_ & [=] & _)].
      WorkerFacts.split_outcomes; cbn [fst]; intros [=].
  - split; [|intros ([=] & _)].
    WorkerFacts.split_outcomes; cbn [fst]; intros [=].
Qed.

Lemma post_comment_true_iff_note_created_witness :
  fst (GitLabService.post_comment Scenario.env_ok (VInt 7) (VInt 3)
                                  (VStr "Looks good.") [])
  = Ret true.
Proof.
  exact (proj2 (post_comment_true_iff_note_created
                  Scenario.env_ok (VInt 7) (VInt 3) (VStr "Looks good.") [])
               (conj eq_refl (conj eq_refl eq_refl))).
Defined.

End ServiceErrors.

Module ProcessingOutcomes.
Import Py PyVal Eff Model EffFacts Observations Traces GitLabService
  JiraService Worker.

(** Processing up to the fetch of the diff. *)
Lemma process_message_after_fetch env msg h text d fetched h1 :
  Body msg = Some text ->
  json_loads env text = Ret (VDict d) ->
  truthy (of_option (dict_get d "project_id")) = true ->
  truthy (of_option (dict_get d "merge_request_iid")) = true ->
  get_merge_request_diff env (of_option (dict_get d "project_id"))
                         (of_option (dict_get d "merge_request_iid")) h
  = (Ret fetched, h1) ->
  process_message env msg h
  = try_except
      (if negb (opt_str_truthy fetched) then ret false
       else if (Z.of_nat (String.length (or_empty fetched))
                >? MAX_DIFF_SIZE (settings env))%Z
            then bind (post_comment env (of_option (dict_get d "project_id"))
                                    (of_option (dict_get d "merge_request_iid"))
                                    (VStr too_large_notice))
                      (fun _ => ret true)
            else review_and_post env (of_option (dict_get d "project_id"))
                                 (of_option (dict_get d "merge_request_iid"))
                                 (of_option (dict_get d "jira_ticket_key"))
                                 (or_empty fetched))
      any_exception (fun _ => ret false) h1.
Proof.
  intros Hbody Hjson Hpid Hiid Hdiff.
  unfold process_message, try_except, process_message_body.
  rewrite Hbody. unfold bind at 1, lift at 1. rewrite Hjson.
  unfold bind at 1, lift at 1. cbn [py_get].
  unfold bind at 1, lift at 1. unfold bind at 1, lift at 1.
  rewrite Hpid, Hiid. cbn [negb orb].
  rewrite (bind_eq_ret _ _ _ _ _ Hdiff). reflexivity.
Qed.

(** A diff that could not be fetched, and also an empty one, ends the
    processing with failure and without a further call.  A merge request
    without changes has an empty diff, so its message is never
    acknowledged. *)
Theorem absent_or_empty_diff_fails
        (env : Env) (msg : message) (h : list event) (text : string)
        (d : list (string * value)) :
  Body msg = Some text ->
  json_loads env text = Ret (VDict d) ->
  truthy (of_option (dict_get d "project_id")) = true ->
  truthy (of_option (dict_get d "merge_request_iid")) = true ->
  (forall fetched h1,
      get_merge_request_diff env (of_option (dict_get d "project_id"))
                             (of_option (dict_get d "merge_request_iid")) h
      = (Ret fetched, h1) ->
      fetched = None \/ fetched = Some EmptyString ->
      process_message env msg h = (Ret false, h1))
  /\ (forall h1,
         get_merge_request_diff env (of_option (dict_get d "project_id"))
                                (of_option (dict_get d "merge_request_iid")) h
         = (Ret (Some (join NL (flat_map change_lines []))), h1) ->
         process_message env msg h = (Ret false, h1)).
Proof.
  intros Hbody Hjson Hpid Hiid.
  assert (H : forall fetched h1,
             get_merge_request_diff env (of_option (dict_get d "project_id"))
                                    (of_option (dict_get d "merge_request_iid")) h
             = (Ret fetched, h1) ->
             fetched = None \/ fetched = Some EmptyString ->
             process_message env msg h = (Ret false, h1)).
  { intros fetched h1 Hdiff Hfetched.
    rewrite (process_message_after_fetch env msg h text d fetched h1
               Hbody Hjson Hpid Hiid Hdiff).
    destruct Hfetched as [-> | ->]; reflexivity. }
  split; [exact H|]. intros h1 Hdiff. apply (H _ _ Hdiff). right. reflexivity.
Qed.

Lemma absent_or_empty_diff_fails_witness :
  process_message QueueScenario.env_no_changes
                  (Scenario.message_of (Scenario.job VNone) "rh-1") []
  = (Ret false,
     [ GitlabGetProject (VInt 7); GitlabGetMergeRequest (VInt 7) (VInt 3);
       GitlabChanges (VInt 7) (VInt 3) ]).
Proof.
  apply (proj2 (absent_or_empty_diff_fails
                  QueueScenario.env_no_changes
                  (Scenario.message_of (Scenario.job VNone) "rh-1") []
                  (Scenario.dumps (Scenario.job VNone))
                  [ ("project_id", VInt 7); ("merge_request_iid", VInt 3);
                    ("source_branch", VStr "feature");
                    ("target_branch", VStr "main"); ("jira_ticket_key", VNone) ]
                  eq_refl eq_refl eq_refl eq_refl)).
  reflexivity.
Defined.

(** From the review to the comment.  For a diff within the ceiling, once
    the issue context is settled: when the model gives a text, that very
    value is what [post_comment] is called with, and [review_and_post]
    returns success if the call returns and raises what it raises (which
    [process_message] turns into failure); when the model
    gives nothing, [review_and_post] returns failure and [post_comment]
    is not called. *)
Theorem review_is_posted_as_generated
        (env : Env) (project_id merge_request_iid jira_ticket_key : value)
        (diff : string) (h h1 h2 h3 : list event)
        (jira_info : option ticket_info) (report : lint_report)
        (review : value) :
  fetch_jira_info env jira_ticket_key h = (Ret jira_info, h1) ->
  LinterService.run_linters env diff h1 = (Ret report, h2) ->
  BedrockService.generate_review env (bedrock_service env) diff jira_info
                                 report h2 = (Ret review, h3) ->
  (truthy review = true ->
   review_and_post env project_id merge_request_iid jira_ticket_key diff h
   = match post_comment env project_id merge_request_iid review h3 with
     | (Ret _, h4) => (Ret true, h4)
     | (Raise e, h4) => (Raise e, h4)
     end)
  /\ (truthy review = false ->
      review_and_post env project_id merge_request_iid jira_ticket_key diff h
      = (Ret false, h3)).
Proof.
  intros Hjira Hlint Hgen. unfold review_and_post.
  rewrite (bind_eq_ret _ _ _ _ _ Hjira), (bind_eq_ret _ _ _ _ _ Hlint),
    (bind_eq_ret _ _ _ _ _ Hgen).
  split; intros ->; cbn [negb]; [|reflexivity].
  unfold bind, ret.
  destruct (post_comment env project_id merge_request_iid review h3)
    as [[b|e] h4]; reflexivity.
Qed.

Lemma review_is_posted_as_generated_witness :
  review_and_post Scenario.env_bedrock_all_fail (VInt 7) (VInt 3) VNone
                  Scenario.two_file_diff []
  = (Ret false,
     snd (BedrockService.generate_review
            Scenario.env_bedrock_all_fail
            (bedrock_service Scenario.env_bedrock_all_fail)
            Scenario.two_file_diff None
            (match fst (LinterService.run_linters Scenario.env_bedrock_all_fail
                          Scenario.two_file_diff []) with
             | Ret r => r
             | Raise _ => []
             end)
            (snd (LinterService.run_linters Scenario.env_bedrock_all_fail
                    Scenario.two_file_diff [])))).
Proof.
  refine (proj2 (review_is_posted_as_generated
                   Scenario.env_bedrock_all_fail (VInt 7) (VInt 3) VNone
                   Scenario.two_file_diff [] [] _ _ None _ VNone
                   eq_refl _ _) eq_refl).
  - vm_compute. reflexivity.
  - vm_compute. reflexivity.
Defined.

End ProcessingOutcomes.

Module IssueTracker.
Import Py PyVal Eff Model EffFacts Observations Traces JiraService.



(** An issue on which the assignee field is hidden: the information is
    not built, and processing the message fails. *)
Example issue_without_assignee_fails :
  get_ticket_info IssueScenario.env_assignee_hidden (VStr "PROJ-1") []
  = (Raise AttributeError, [JiraIssue (VStr "PROJ-1")])
  /\ fst (Worker.process_message
            IssueScenario.env_assignee_hidden
            (Scenario.message_of (Scenario.job (VStr "PROJ-1")) "rh-1") [])
     = Ret false.
Proof. split; vm_compute; reflexivity. Qed.

End IssueTracker.

Module LintRuns.
Import Py PyVal PyFacts Eff Model EffFacts Observations Traces TraceFacts
  LinterService LintTerms.

Lemma regex_rule_run env pattern msg sev file_path content h found :
  regex_rule env pattern msg sev file_path content (h, found)
  = (Ret tt,
     (h, found ++ regex_findings env pattern msg sev file_path content)).
Proof.
  unfold regex_rule, regex_findings.
  generalize (re_finditer env pattern content) as starts.
  intros starts. revert found.
  induction starts as [|start starts IH]; intros found; cbn [for_each map].
  - cbn. rewrite app_nil_r. reflexivity.
  - unfold bind at 1, append_issue at 1. cbn [fst snd].
    rewrite IH, <- app_assoc. reflexivity.
Qed.

Lemma count_take_le (c : ascii) (n : nat) (s : string) :
  (count c (take n s) <= count c s)%nat.
Proof.
  revert n. induction s as [|a s IH]; intros [|n]; cbn; try lia.
  specialize (IH n). lia.
Qed.

Lemma regex_findings_point_into env pattern msg sev file_path content files :
  In (file_path, content) files ->
  Forall (points_into files)
         (regex_findings env pattern msg sev file_path content).
Proof.
  intros Hin. unfold regex_findings. apply Forall_map, Forall_forall.
  intros start _. exists content, (Z.of_nat (count LF (take start content) + 1)).
  cbn [file line]. split; [exact Hin|]. split; [reflexivity|].
  pose proof (count_take_le LF start content). lia.
Qed.

Lemma in_process_loop env (rule : Env -> string * string -> list finding)
      (body : string * string -> L unit) files h found :
  (forall entry h0 found0,
      body entry (h0, found0) = (Ret tt, (h0, found0 ++ rule env entry))) ->
  for_each files body (h, found)
  = (Ret tt, (h, found ++ flat_map (rule env) files)).
Proof.
  intros Hbody. revert found.
  induction files as [|entry files IH]; intros found; cbn [for_each flat_map].
  - cbn. rewrite app_nil_r. reflexivity.
  - unfold bind at 1. rewrite Hbody, IH, <- app_assoc. reflexivity.
Qed.

(** The in-process rule strategy (Java, C#): no call leaves the process
    and nothing is raised; the report holds, file after file, one finding
    per match of the empty-handler pattern (a warning) followed by one per
    match of the print pattern (an info).  Every finding names a file of
    the bucket and a line between 1 and one more than the number of line
    feeds of its content. *)
Theorem in_process_rules_report (env : Env) (files : list (string * string))
        (h : list event) :
  _run_java_linters env files h
  = (Ret {| language := "java"; issues := flat_map (java_findings env) files |},
     h)
  /\ _run_csharp_linters env files h
     = (Ret {| language := "csharp";
               issues := flat_map (csharp_findings env) files |}, h)
  /\ Forall (points_into files) (flat_map (java_findings env) files)
  /\ Forall (points_into files) (flat_map (csharp_findings env) files).
Proof.
  split; [|split; [|split]].
  - unfold _run_java_linters, returning_results.
    rewrite (in_process_loop env java_findings); [reflexivity|].
    intros entry h0 found0. unfold bind at 1. rewrite regex_rule_run.
    rewrite regex_rule_run. unfold java_findings. rewrite app_assoc.
    reflexivity.
  - unfold _run_csharp_linters, returning_results.
    rewrite (in_process_loop env csharp_findings); [reflexivity|].
    intros entry h0 found0. unfold bind at 1. rewrite regex_rule_run.
    rewrite regex_rule_run. unfold csharp_findings. rewrite app_assoc.
    reflexivity.
  - apply Forall_flat_map, Forall_forall. intros [p c] Hin.
    apply Forall_app. split; apply regex_findings_point_into; exact Hin.
  - apply Forall_flat_map, Forall_forall. intros [p c] Hin.
    apply Forall_app. split; apply regex_findings_point_into; exact Hin.
Qed.

End LintRuns.

Module AnalyzerIsolation.
Import Py PyVal PyFacts Eff Model EffFacts Observations Traces TraceFacts
  LinterService LinterFacts LintTerms.

Lemma silent_history {A} (m : L A) (h : list event) (found : list finding) :
  emits of_run silent m -> fst (snd (m (h, found))) = h.
Proof.
  intros Hm. destruct (Hm (h, found)) as (evs & E & F).
  unfold of_run in E. cbn [fst] in E. rewrite E.
  destruct evs as [|ev evs]; [apply app_nil_r|].
  inversion F as [|? ? Hev _]. discriminate Hev.
Qed.

(** The shape of the per-file run of a JSON analyzer. *)
Lemma json_tool_isolated env (cmd : list string) (k : string -> L unit)
      (h : list event) (found : list finding) :
  (forall out, emits of_run silent (k out)) ->
  (forall out, appends (k out)) ->
  exists new,
    try_except (bind (run_tool env cmd) k) any_exception log_and_continue
               (h, found)
    = (Ret tt, (h ++ [Subprocess cmd], found ++ new)).
Proof.
  intros Hsilent Happ. unfold try_except, bind, run_tool, ext, call.
  cbn [fst snd]. destruct (check_output env h cmd) as [out|e].
  - rewrite (Happ out). pose proof (silent_history (k out)
      (h ++ [Subprocess cmd]) [] (Hsilent out)) as Hh.
    destruct (k out (h ++ [Subprocess cmd], [])) as [[[]|e] [h' new]];
      cbn [fst snd] in *; subst h'; exists new; reflexivity.
  - exists []. cbn. rewrite app_nil_r. reflexivity.
Qed.

Lemma go_vet_output_quiet env file_path output h found :
  exists new,
    go_vet_output env file_path output (h, found) = (Ret tt, (h, found ++ new)).
Proof.
  unfold go_vet_output. generalize (split LF output) as lines. intros lines.
  revert found. induction lines as [|l lines IH]; intros found.
  - exists []. cbn. rewrite app_nil_r. reflexivity.
  - cbn [for_each]. unfold bind at 1.
    assert (Hstep : exists new,
               (if contains ":" l then
                  if Nat.leb 3 (List.length (split_max ":" 3 l)) then
                    try_except
                      (bind (lift (match py_int env (nth 1 (split_max ":" 3 l)
                                                         EmptyString) with
                                   | Some n => Ret n
                                   | None => Raise ValueError
                                   end))
                            (fun line_number =>
                               append_issue
                                 {| file := file_path; line := VInt line_number;
                                    column := VInt 1;
                                    message_text :=
                                      VStr (py_strip env
                                              (nth 2 (split_max ":" 3 l)
                                                   EmptyString));
                                    severity := "warning";
                                    source := "go vet" |}))
                      is_ValueError_or_IndexError (fun _ => ret tt)
                  else ret tt
                else ret tt) (h, found)
               = (Ret tt, (h, found ++ new))).
    { destruct (contains ":" l);
        [|exists []; cbn; rewrite app_nil_r; reflexivity].
      destruct (Nat.leb 3 (List.length (split_max ":" 3 l)));
        [|exists []; cbn; rewrite app_nil_r; reflexivity].
      unfold try_except, bind, lift.
      destruct (py_int env (nth 1 (split_max ":" 3 l) EmptyString)).
      - eexists. reflexivity.
      - exists []. cbn. rewrite app_nil_r. reflexivity. }
    destruct Hstep as (new1 & ->).
    destruct (IH (found ++ new1)) as (new2 & ->).
    exists (new1 ++ new2). rewrite app_assoc. reflexivity.
Qed.

Lemma go_vet_file_isolated env temp_dir :
  isolated (go_vet_file env temp_dir) (go_vet_cmd temp_dir).
Proof.
  intros file_path h found. unfold go_vet_file, try_except, bind, run_tool,
    ext, call, go_vet_cmd. cbn [fst snd].
  destruct (check_output env h _) as [out|e].
  - exists []. cbn. rewrite app_nil_r. reflexivity.
  - cbn [any_exception]. destruct e;
      try (exists []; cbn; rewrite app_nil_r; reflexivity).
    apply go_vet_output_quiet.
Qed.

Lemma isolated_loop (run : string -> L unit) (cmd : string -> list string)
      (files : list string) (h : list event) (found : list finding) :
  isolated run cmd ->
  exists new,
    for_each files run (h, found)
    = (Ret tt,
       (h ++ map (fun file_path => Subprocess (cmd file_path)) files,
        found ++ new)).
Proof.
  intros Hrun. revert h found.
  induction files as [|f files IH]; intros h found.
  - exists []. cbn. rewrite !app_nil_r. reflexivity.
  - cbn [for_each map]. unfold bind at 1.
    destruct (Hrun f h found) as (new1 & ->).
    destruct (IH (h ++ [Subprocess (cmd f)]) (found ++ new1)) as (new2 & ->).
    exists (new1 ++ new2). rewrite <- !app_assoc. reflexivity.
Qed.

(** The analyzers are isolated per file.  The run of flake8, pylint,
    ESLint or go vet on one file never raises, whatever the process or its
    output does: it makes the one call of the analyzer and keeps the
    findings collected so far.  A loop over the files of a bucket therefore
    runs the analyzer once on every file, in order, and never raises. *)
Theorem analyzers_are_isolated_per_file (env : Env) (temp_dir : string) :
  isolated (flake8_file env temp_dir) (flake8_cmd temp_dir)
  /\ isolated (pylint_file env temp_dir) (pylint_cmd temp_dir)
  /\ isolated (eslint_file env temp_dir) (eslint_cmd temp_dir)
  /\ isolated (go_vet_file env temp_dir) (go_vet_cmd temp_dir)
  /\ forall run cmd,
      isolated run cmd ->
      forall files h found,
      exists new,
        for_each files run (h, found)
        = (Ret tt,
           (h ++ map (fun file_path => Subprocess (cmd file_path)) files,
            found ++ new)).
Proof.
  split; [|split; [|split; [|split]]].
  - intros file_path h found. unfold flake8_file, flake8_cmd.
    apply json_tool_isolated; intros out.
    + emits_steps.
    + LinterFacts.appends_steps.
  - intros file_path h found. unfold pylint_file, pylint_cmd.
    apply json_tool_isolated; intros out.
    + emits_steps.
    + LinterFacts.appends_steps.
  - intros file_path h found. unfold eslint_file, eslint_cmd.
    apply json_tool_isolated; intros out.
    + emits_steps.
    + LinterFacts.appends_steps.
  - apply go_vet_file_isolated.
  - intros run cmd Hrun files h found. apply isolated_loop. exact Hrun.
Qed.

Lemma analyzers_are_isolated_per_file_witness :
  exists new,
    for_each ["a.py"; "b.py"] (flake8_file Scenario.env_ok "/tmp/review")
             ([], [])
    = (Ret tt,
       ([] ++ map (fun file_path =>
                     Subprocess (flake8_cmd "/tmp/review" file_path))
                  ["a.py"; "b.py"],
        [] ++ new)).
Proof.
  exact (proj2 (proj2 (proj2 (proj2
           (analyzers_are_isolated_per_file
              Scenario.env_ok "/tmp/review"))))
           _ _
           (proj1 (analyzers_are_isolated_per_file
                     Scenario.env_ok "/tmp/review"))
           ["a.py"; "b.py"] [] []).
Defined.

End AnalyzerIsolation.

Module Grouping.
Import Py PyVal PyFacts Eff Model Observations LinterService LintTerms
  ParserInvariants.

Lemma supported_language_truthy (ext language : string) :
  dict_get supported_languages ext = Some language ->
  str_truthy language = true.
Proof.
  unfold supported_languages. cbn [dict_get].
  repeat (destruct (String.eqb _ ext); [intros [= <-]; reflexivity|]).
  discriminate.
Qed.

Lemma dict_mem_get {V} (d : list (string * V)) (k : string) :
  dict_mem d k = false -> dict_get d k = None.
Proof. unfold dict_mem. destruct (dict_get d k); [discriminate|reflexivity]. Qed.

(** One file more in the buckets. *)
Lemma group_file_in_bucket (groups : list (string * list (string * string)))
      (p c lang file_path : string) :
  in_bucket (group_file groups (p, c)) lang file_path
  = if in_language lang p && String.eqb p file_path then Some c
    else in_bucket groups lang file_path.
Proof.
  unfold group_file, in_language, language_of, in_bucket.
  destruct (dict_get supported_languages (snd (PosixPath.splitext p)))
    as [l|] eqn:El; [|reflexivity].
  rewrite (supported_language_truthy _ _ El).
  destruct (dict_mem groups l) eqn:Em.
  - unfold dict_mem in Em.
    destruct (dict_get groups l) as [bucket|] eqn:Eb; [|discriminate].
    destruct (String.eqb l lang) eqn:E.
    + apply String.eqb_eq in E. subst lang. rewrite dict_get_set_same, Eb.
      cbn [andb]. destruct (String.eqb p file_path) eqn:Ep.
      * apply String.eqb_eq in Ep. subst. apply dict_get_set_same.
      * apply String.eqb_neq in Ep. apply dict_get_set_other. exact Ep.
    + apply String.eqb_neq in E. rewrite dict_get_set_other by exact E.
      reflexivity.
  - rewrite dict_get_set_same.
    destruct (String.eqb l lang) eqn:E.
    + apply String.eqb_eq in E. subst lang. rewrite dict_get_set_same.
      rewrite (dict_mem_get _ _ Em). cbn [andb dict_set dict_get].
      destruct (String.eqb p file_path); reflexivity.
    + apply String.eqb_neq in E.
      rewrite !dict_get_set_other by exact E. reflexivity.
Qed.

Lemma dict_get_not_in_keys {V} (d : list (string * V)) (k : string) :
  ~ In k (dict_keys d) -> dict_get d k = None.
Proof.
  intros H. apply dict_mem_get. destruct (dict_mem d k) eqn:E; [|reflexivity].
  apply dict_mem_in_keys in E. contradiction.
Qed.

Lemma group_files_in_bucket (files : list (string * string))
      (groups : list (string * list (string * string)))
      (lang file_path : string) :
  NoDup (dict_keys files) ->
  in_bucket (fold_left group_file files groups) lang file_path
  = match dict_get files file_path with
    | Some c => if in_language lang file_path then Some c
                else in_bucket groups lang file_path
    | None => in_bucket groups lang file_path
    end.
Proof.
  revert groups. induction files as [|[p c] files IH]; intros groups Hnd;
    [reflexivity|].
  inversion Hnd as [|? ? Hnotin Hnd']. subst.
  cbn [fold_left]. rewrite (IH _ Hnd'). rewrite group_file_in_bucket.
  cbn [dict_get]. destruct (String.eqb p file_path) eqn:Ep.
  - apply String.eqb_eq in Ep. subst p.
    rewrite (dict_get_not_in_keys files file_path Hnotin).
    rewrite andb_true_r. reflexivity.
  - rewrite andb_false_r. reflexivity.
Qed.

(** Grouping by language loses and invents nothing.  For files with
    pairwise different paths, a path is found with a content in the bucket
    of a language exactly when the files hold that content under the path
    and the extension of the path is one of that language; a file with an
    unlisted extension is in no bucket. *)
Theorem grouping_is_exact (files : list (string * string))
        (lang file_path content : string) :
  NoDup (dict_keys files) ->
  (in_bucket (_group_files_by_language files) lang file_path = Some content
   <-> dict_get files file_path = Some content
       /\ language_of file_path = Some lang)
  /\ (language_of file_path = None ->
      in_bucket (_group_files_by_language files) lang file_path = None).
Proof.
  intros Hnd. unfold _group_files_by_language.
  rewrite (group_files_in_bucket files [] lang file_path Hnd).
  unfold in_language, in_bucket. cbn [dict_get].
  destruct (dict_get files file_path) as [c|].
  - destruct (language_of file_path) as [l|].
    + destruct (String.eqb l lang) eqn:E.
      * apply String.eqb_eq in E. subst l.
        split; [|discriminate].
        split; [intros [= <-]; split; reflexivity|intros ([= <-] & _); reflexivity].
      * apply String.eqb_neq in E. split; [|discriminate].
        split; [discriminate|intros (_ & [= H]); contradiction].
    + split; [|reflexivity]. split; [discriminate|intros (_ & [=])].
  - split; [|reflexivity]. split; [discriminate|intros ([=] & _)].
Qed.

Lemma grouping_is_exact_witness :
  in_bucket (_group_files_by_language
               [ ("src/app.py", "x = 1"); ("notes.txt", "hello");
                 ("web/ui.tsx", "let a;") ])
            "typescript" "web/ui.tsx" = Some "let a;"
  /\ in_bucket (_group_files_by_language
                  [ ("src/app.py", "x = 1"); ("notes.txt", "hello");
                    ("web/ui.tsx", "let a;") ])
               "python" "notes.txt" = None.
Proof.
  split.
  - apply (proj1 (grouping_is_exact
                    [ ("src/app.py", "x = 1"); ("notes.txt", "hello");
                      ("web/ui.tsx", "let a;") ]
                    "typescript" "web/ui.tsx" "let a;"
                    ltac:(repeat constructor; cbn; intuition discriminate))).
    split; reflexivity.
  - apply (proj2 (grouping_is_exact
                    [ ("src/app.py", "x = 1"); ("notes.txt", "hello");
                      ("web/ui.tsx", "let a;") ]
                    "python" "notes.txt" "hello"
                    ltac:(repeat constructor; cbn; intuition discriminate))).
    reflexivity.
Defined.

End Grouping.

Module PromptAndInvocation.
Import Py PyVal PyFacts Eff Model EffFacts Observations Traces BedrockService
  DiffTextFacts.

(** The prompt.  Whatever the inputs, the diff is in the prompt verbatim,
    inside a fenced block.  The encoding follows the identifier of the
    primary model alone: with the prefix ["anthropic.claude"] the prompt
    opens with the human tag and closes with the closing system tag,
    otherwise it opens with ["System: "] and closes with ["Assistant:"];
    two services with the same primary model get the same prompt whatever
    their fallback model is. *)
Theorem prompt_embeds_diff_in_primary_encoding
        (env : Env) (self : service) (diff : string)
        (jira_info : option ticket_info) (linter_results : lint_report) :
  (exists before after,
      _construct_prompt env self diff jira_info linter_results
      = (before ++ "```diff" ++ NL ++ diff ++ NL ++ "```" ++ after)%string)
  /\ (startswith (primary_model_id self) "anthropic.claude" = true ->
      startswith (_construct_prompt env self diff jira_info linter_results)
                 "<human>" = true
      /\ exists before,
          _construct_prompt env self diff jira_info linter_results
          = (before ++ "</system>")%string)
  /\ (startswith (primary_model_id self) "anthropic.claude" = false ->
      startswith (_construct_prompt env self diff jira_info linter_results)
                 "System: " = true
      /\ exists before,
          _construct_prompt env self diff jira_info linter_results
          = (before ++ "Assistant:")%string)
  /\ (forall other : service,
         primary_model_id other = primary_model_id self ->
         _construct_prompt env other diff jira_info linter_results
         = _construct_prompt env self diff jira_info linter_results).
Proof.
  split; [|split; [|split]].
  - unfold _construct_prompt, human_prompt.
    destruct (startswith (primary_model_id self) "anthropic.claude").
    + exists ("<human>" ++ NL ++ "Please review the following code diff:"
                ++ NL ++ NL)%string.
      eexists. rewrite !append_assoc. reflexivity.
    + exists ("System: " ++ system_prompt ++ NL ++ NL ++ "Human: "
                ++ "Please review the following code diff:" ++ NL ++ NL)%string.
      eexists. rewrite !append_assoc. reflexivity.
  - intros Hfam. unfold _construct_prompt. rewrite Hfam.
    split; [reflexivity|]. eexists. rewrite <- !append_assoc. reflexivity.
  - intros Hfam. unfold _construct_prompt. rewrite Hfam.
    split; [reflexivity|]. eexists. rewrite <- !append_assoc. reflexivity.
  - intros other Hsame. unfold _construct_prompt. rewrite Hsame. reflexivity.
Qed.

Lemma prompt_embeds_diff_in_primary_encoding_witness :
  startswith (_construct_prompt Scenario.env_ok Scenario.the_service
                                Scenario.two_file_diff None [])
             "<human>" = true.
Proof.
  exact (proj1 (proj1 (proj2 (prompt_embeds_diff_in_primary_encoding
                                Scenario.env_ok Scenario.the_service
                                Scenario.two_file_diff None []))
                      eq_refl)).
Defined.

(** One model invocation, case by case.  An identifier of neither family
    makes no call and gives nothing.  When the call answers with a JSON
    object, a model of the first family gives the value under
    ["completion"] (nothing when the key is missing) and a model of the
    second family the ["outputText"] of the first of its ["results"]; an
    empty list of results raises [IndexError] to the caller.  When the
    call raises, a [ClientError] gives nothing and any other exception is
    raised to the caller. *)
Theorem invoke_model_by_cases (env : Env) (model_id prompt : string)
        (h : list event) :
  (request_for model_id prompt = None ->
   _invoke_model env model_id prompt h = (Ret VNone, h))
  /\ (forall request_body text d,
         request_for model_id prompt = Some request_body ->
         bedrock_invoke_model env h model_id (json_dumps env request_body)
         = Ret text ->
         json_loads env text = Ret (VDict d) ->
         (startswith model_id "anthropic.claude" = true ->
          _invoke_model env model_id prompt h
          = (Ret (of_option (dict_get d "completion")),
             h ++ [BedrockInvoke model_id (json_dumps env request_body)]))
         /\ (startswith model_id "anthropic.claude" = false ->
             forall r rest,
               dict_get d "results" = Some (VList (VDict r :: rest)) ->
               _invoke_model env model_id prompt h
               = (Ret (of_option (dict_get r "outputText")),
                  h ++ [BedrockInvoke model_id (json_dumps env request_body)]))
         /\ (startswith model_id "anthropic.claude" = false ->
             dict_get d "results" = Some (VList []) ->
             _invoke_model env model_id prompt h
             = (Raise IndexError,
                h ++ [BedrockInvoke model_id (json_dumps env request_body)])))
  /\ (forall request_body e,
         request_for model_id prompt = Some request_body ->
         bedrock_invoke_model env h model_id (json_dumps env request_body)
         = Raise e ->
         _invoke_model env model_id prompt h
         = (if is_ClientError e then Ret VNone else Raise e,
            h ++ [BedrockInvoke model_id (json_dumps env request_body)])).
Proof.
  unfold request_for. split; [|split].
  - intros Hnone. unfold _invoke_model, try_except.
    destruct (startswith model_id "anthropic.claude"); [discriminate|].
    destruct (startswith model_id "amazon.titan"); [discriminate|].
    reflexivity.
  - intros request_body text d Hreq Hcall Hjson.
    cbv [_invoke_model try_except bind invoke_and_decode call lift].
    destruct (startswith model_id "anthropic.claude").
    + injection Hreq as <-. rewrite Hcall, Hjson.
      split; [intros _; reflexivity|]. split; discriminate.
    + destruct (startswith model_id "amazon.titan"); [|discriminate].
      injection Hreq as <-. rewrite Hcall, Hjson.
      split; [discriminate|]. split.
      * intros _ r rest Hres. cbn [py_get]. rewrite Hres. reflexivity.
      * intros _ Hres. cbn [py_get]. rewrite Hres. reflexivity.
  - intros request_body e Hreq Hcall.
    cbv [_invoke_model try_except bind invoke_and_decode call lift].
    destruct (startswith model_id "anthropic.claude").
    + injection Hreq as <-. rewrite Hcall.
      destruct (is_ClientError e); reflexivity.
    + destruct (startswith model_id "amazon.titan"); [|discriminate].
      injection Hreq as <-. rewrite Hcall.
      destruct (is_ClientError e); reflexivity.
Qed.

Lemma invoke_model_by_cases_witness :
  fst (_invoke_model Scenario.env_ok "amazon.titan-text-lite-v1" "Review this." [])
  = Ret (VStr "Fine.").
Proof.
  destruct (proj1 (proj2 (invoke_model_by_cases
                            Scenario.env_ok "amazon.titan-text-lite-v1"
                            "Review this." []))
                  (titan_request "Review this.")
                  (Scenario.dumps Scenario.titan_text)
                  [ ("results", VList [VDict [("outputText", VStr "Fine.")]]) ]
                  eq_refl eq_refl eq_refl) as (_ & Htitan & _).
  rewrite (Htitan eq_refl [("outputText", VStr "Fine.")] [] eq_refl).
  reflexivity.
Defined.

End PromptAndInvocation.

Module Webhook.
Import Py PyVal Eff Model Ingress.

(** The check of the webhook token.  A request is accepted exactly when
    no token is configured (absent or empty) or the request carries the
    configured token; the error text is empty exactly for an accepted
    request, and tells a missing header from a wrong token. *)
Theorem webhook_token_check (aenv : AppEnv) (req : request) :
  (fst (validate_gitlab_webhook aenv req) = true
   <-> (GITLAB_WEBHOOK_TOKEN aenv = None
        \/ GITLAB_WEBHOOK_TOKEN aenv = Some EmptyString
        \/ x_gitlab_token req = GITLAB_WEBHOOK_TOKEN aenv))
  /\ (fst (validate_gitlab_webhook aenv req) = true
      -> snd (validate_gitlab_webhook aenv req) = EmptyString)
  /\ (fst (validate_gitlab_webhook aenv req) = false
      -> snd (validate_gitlab_webhook aenv req)
         = if match x_gitlab_token req with
              | Some t => str_truthy t
              | None => false
              end
           then "Invalid GitLab webhook token"
           else "Missing X-Gitlab-Token header").
Proof.
  unfold validate_gitlab_webhook, str_truthy.
  destruct (GITLAB_WEBHOOK_TOKEN aenv) as [t|] eqn:Ht; cbn.
  - destruct (String.eqb t EmptyString) eqn:Et; cbn.
    + apply String.eqb_eq in Et. subst t.
      repeat split; auto; discriminate.
    + apply String.eqb_neq in Et.
      destruct (x_gitlab_token req) as [g|] eqn:Hg; cbn.
      * destruct (String.eqb g EmptyString) eqn:Eg; cbn.
        -- apply String.eqb_eq in Eg. subst g.
           repeat split; try discriminate; auto.
           intros [H|[H|H]]; try discriminate; congruence.
        -- destruct (String.eqb g t) eqn:Egt; cbn.
           ++ apply String.eqb_eq in Egt. subst g.
              repeat split; auto; discriminate.
           ++ apply String.eqb_neq in Egt.
              repeat split; try discriminate; auto.
              intros [H|[H|H]]; try discriminate; congruence.
      * repeat split; try discriminate; auto.
        intros [H|[H|H]]; discriminate || congruence.
  - repeat split; auto; discriminate.
Qed.

Lemma webhook_token_check_witness :
  fst (validate_gitlab_webhook
         the_app {| request_body := EmptyString;
                    x_gitlab_token := Some "secret" |}) = true.
Proof.
  exact (proj2 (proj1 (webhook_token_check
                         the_app {| request_body := EmptyString;
                                    x_gitlab_token := Some "secret" |}))
               (or_intror (or_intror eq_refl))).
Defined.

(** Requests that [review_code] refuses.  A body that is not JSON is
    answered 400.  A request refused by the token check, or a merge
    request event of a handled action that lacks one of the four required
    fields, raises the 400 inside the [try] of [review_code]; the
    [except Exception] clause catches it, so the client is answered 500,
    the detail quoting the text of the 400.  No task is handed over in
    any of the three cases. *)
Theorem refused_requests_are_answered (aenv : AppEnv) (req : request)
        (h : list app_event) :
  (json_loads (worker_env aenv) (request_body req) = Raise JSONDecodeError ->
   serve_review aenv req h
   = (http_exception_handler 400 "Invalid JSON payload", h))
  /\ (forall payload msg,
         json_loads (worker_env aenv) (request_body req) = Ret payload ->
         validate_gitlab_webhook aenv req = (false, msg) ->
         serve_review aenv req h
         = (http_exception_handler
              500
              ("Error processing webhook: "
                 ++ str_of_failure
                      aenv
                      (HTTPException
                         400 ("Invalid GitLab webhook: " ++ msg)%string))%string,
            h))
  /\ (forall payload attributes,
         json_loads (worker_env aenv) (request_body req)
         = Ret (VDict payload) ->
         fst (validate_gitlab_webhook aenv req) = true ->
         dict_get payload "object_kind" = Some (VStr "merge_request") ->
         dict_get payload "object_attributes" = Some (VDict attributes) ->
         in_strs (of_option (dict_get attributes "action")) valid_actions
         = true ->
         forallb truthy
                 [ of_option (dict_get attributes "target_project_id");
                   of_option (dict_get attributes "iid");
                   of_option (dict_get attributes "source_branch");
                   of_option (dict_get attributes "target_branch") ] = false ->
         serve_review aenv req h
         = (http_exception_handler
              500
              ("Error processing webhook: "
                 ++ str_of_failure
                      aenv
                      (HTTPException
                         400 "Missing required merge request information"))%string,
            h)).
Proof.
  split; [|split].
  - intros Hj.
    cbv [serve_review review_code review_code_body try_ then_ pure].
    rewrite Hj. reflexivity.
  - intros payload msg Hj Hv.
    cbv [serve_review review_code review_code_body try_ then_ pure].
    rewrite Hj, Hv. reflexivity.
  - intros payload attributes Hj Hv Hkind Hattrs Haction Hall.
    cbv [serve_review review_code review_code_body try_ then_ pure].
    rewrite Hj. cbv beta iota.
    destruct (validate_gitlab_webhook aenv req) as [v msg].
    cbn [fst] in Hv. subst v.
    cbv [py_get py_get_default negb]. rewrite Hkind, Hattrs.
    cbn [of_option eq_str String.eqb Ascii.eqb Bool.eqb andb].
    cbv beta iota.
    rewrite Haction. cbv beta iota. rewrite Hall. reflexivity.
Qed.

Lemma refused_requests_are_answered_witness :
  serve_review the_app
               {| request_body := Scenario.dumps opened_event;
                  x_gitlab_token := Some "guess" |} []
  = (http_exception_handler
       500
       "Error processing webhook: 400: Invalid GitLab webhook: Invalid GitLab webhook token",
     []).
Proof.
  exact (proj1 (proj2 (refused_requests_are_answered
                         the_app
                         {| request_body := Scenario.dumps opened_event;
                            x_gitlab_token := Some "guess" |} []))
               opened_event "Invalid GitLab webhook token"
               eq_refl eq_refl).
Defined.

(** A task is handed over only for a complete request.  Serving a
    request either hands nothing over, and the answer is not 202, or it
    hands over exactly one task, for a request that passed the token
    check and whose project, merge request number, source branch and
    target branch are all truthy; the answer is then 202 exactly when the
    hand-over did not raise. *)
Theorem task_only_for_complete_requests (aenv : AppEnv) (req : request)
        (h : list app_event) :
  (snd (serve_review aenv req h) = h
   /\ status_code (fst (serve_review aenv req h)) <> 202%Z)
  \/ (exists project_id merge_request_iid source_branch target_branch
             description,
         snd (serve_review aenv req h)
         = h ++ [TaskDelay project_id merge_request_iid source_branch
                           target_branch description]
         /\ fst (validate_gitlab_webhook aenv req) = true
         /\ truthy project_id = true
         /\ truthy merge_request_iid = true
         /\ truthy source_branch = true
         /\ truthy target_branch = true
         /\ (status_code (fst (serve_review aenv req h)) = 202%Z
             <-> celery_delay aenv h = Ret tt)).
Proof.
  cbv [serve_review review_code review_code_body try_ then_ pure app_call
       done fail].
  destruct (json_loads (worker_env aenv) (request_body req)) as [payload|e].
  2:{ left. destruct e; cbn; split; (reflexivity || discriminate). }
  destruct (validate_gitlab_webhook aenv req) as [[|] msg]; cbn [negb fst].
  2:{ left. cbn. split; [reflexivity|discriminate]. }
  cbv [py_get py_get_default].
  destruct payload as [| | | | | |payload];
    try (left; cbn; split; [reflexivity|discriminate]).
  cbv beta iota.
  destruct (negb (eq_str (of_option (dict_get payload "object_kind"))
                         "merge_request"));
    [left; cbn; split; [reflexivity|discriminate]|].
  destruct (match dict_get payload "object_attributes" with
            | Some x => x
            | None => VDict []
            end) as [| | | | | |attributes];
    try (left; cbn; split; [reflexivity|discriminate]).
  cbv beta iota.
  destruct (negb (in_strs (of_option (dict_get attributes "action"))
                          valid_actions));
    [left; cbn; split; [reflexivity|discriminate]|].
  destruct (forallb truthy
                    [ of_option (dict_get attributes "target_project_id");
                      of_option (dict_get attributes "iid");
                      of_option (dict_get attributes "source_branch");
                      of_option (dict_get attributes "target_branch") ])
           eqn:Hall; cbn [negb]; cbv beta iota.
  2:{ left. cbn. split; [reflexivity|discriminate]. }
  right.
  cbn [forallb] in Hall.
  repeat (apply andb_prop in Hall; destruct Hall as [? Hall]).
  eexists _, _, _, _, _.
  destruct (celery_delay aenv h) as [[]|e] eqn:Hd; cbn [fst snd status_code].
  - repeat split; eauto.
  - destruct e; cbn [fst snd status_code http_exception_handler];
      repeat split; eauto; discriminate.
Qed.

(** The task, case by case.  For a description that is a string the job
    of five fields is sent to the queue once, the ticket key being the
    first match of the pattern in the description or [None]; when the
    queue answers, the task returns its message id; when sending raises,
    the task asks for a retry after the one attempt.  For a description
    that is not a string, such as [None], the search raises, nothing is
    sent, and the task asks for a retry. *)
Theorem task_queues_job_or_retries
        (aenv : AppEnv)
        (project_id merge_request_iid source_branch target_branch
                    description : value) (h : list app_event) :
  (forall text body response,
      description = VStr text ->
      body = json_dumps
               (worker_env aenv)
               (job_message project_id merge_request_iid source_branch
                            target_branch
                            (match re_search aenv jira_pattern text with
                             | Some key => VStr key
                             | None => VNone
                             end)) ->
      sqs_send_message aenv h body = Ret (VDict response) ->
      process_pull_request aenv project_id merge_request_iid source_branch
                           target_branch description h
      = (Done {| task_status := "success";
                 task_message :=
                   ("Merge request " ++ py_str (worker_env aenv) project_id
                      ++ "/" ++ py_str (worker_env aenv) merge_request_iid
                      ++ " sent to SQS for review")%string;
                 sqs_message_id := of_option (dict_get response "MessageId") |},
         h ++ [SqsSend body]))
  /\ (forall text body e,
         description = VStr text ->
         body = json_dumps
                  (worker_env aenv)
                  (job_message project_id merge_request_iid source_branch
                               target_branch
                               (match re_search aenv jira_pattern text with
                                | Some key => VStr key
                                | None => VNone
                                end)) ->
         sqs_send_message aenv h body = Raise e ->
         process_pull_request aenv project_id merge_request_iid source_branch
                              target_branch description h
         = (Failed (celery_retry aenv (h ++ [SqsSend body]) (Python e)),
            h ++ [SqsSend body; TaskRetry (Python e)]))
  /\ ((forall text, description <> VStr text) ->
      process_pull_request aenv project_id merge_request_iid source_branch
                           target_branch description h
      = (Failed (celery_retry aenv h (Python TypeError)),
         h ++ [TaskRetry (Python TypeError)])).
Proof.
  split; [|split].
  - intros text body response -> -> Hs.
    cbv [process_pull_request try_ then_ pure extract_ticket_key
         send_message_to_sqs app_call done py_get].
    rewrite Hs. reflexivity.
  - intros text body e -> -> Hs.
    cbv [process_pull_request try_ then_ pure extract_ticket_key
         send_message_to_sqs app_call done py_get].
    rewrite Hs. rewrite <- app_assoc. reflexivity.
  - intros Hd.
    cbv [process_pull_request try_ then_ pure extract_ticket_key].
    destruct description; try reflexivity.
    exfalso. eapply Hd. reflexivity.
Qed.

Lemma task_queues_job_or_retries_witness :
  process_pull_request the_app (VInt 7) (VInt 3) (VStr "feature")
                       (VStr "main") (VStr "Closes PROJ-1") []
  = (Done {| task_status := "success";
             task_message := "Merge request 7/3 sent to SQS for review";
             sqs_message_id := VStr "m-1" |},
     [SqsSend (Scenario.dumps (Scenario.job (VStr "PROJ-1")))]).
Proof.
  exact (proj1 (task_queues_job_or_retries
                  the_app (VInt 7) (VInt 3) (VStr "feature") (VStr "main")
                  (VStr "Closes PROJ-1") [])
               "Closes PROJ-1"
               (Scenario.dumps (Scenario.job (VStr "PROJ-1")))
               [("MessageId", VStr "m-1")]
               eq_refl eq_refl eq_refl).
Defined.

(** The event of an opened merge request, with the configured token. *)
Example opened_merge_request_is_accepted :
  serve_review the_app
               {| request_body := Scenario.dumps opened_event;
                  x_gitlab_token := Some "secret" |} []
  = ({| status_code := 202; content_key := "message";
        content_text := "Code review initiated for merge request 7/3" |},
     [TaskDelay (VInt 7) (VInt 3) (VStr "feature") (VStr "main")
                (VStr "Closes PROJ-1")]).
Proof. vm_compute. reflexivity. Qed.

(** The event of a closed merge request is acknowledged and dropped. *)
Example closed_merge_request_is_ignored :
  serve_review the_app
               {| request_body := Scenario.dumps closed_event;
                  x_gitlab_token := Some "secret" |} []
  = (ok_200 "Ignoring merge request action: close", []).
Proof. vm_compute. reflexivity. Qed.

(** A task handed over without a description sends nothing. *)
Example task_without_description_sends_nothing :
  process_pull_request the_app (VInt 7) (VInt 3) (VStr "feature")
                       (VStr "main") VNone []
  = (Failed (Python TypeError), [TaskRetry (Python TypeError)]).
Proof. vm_compute. reflexivity. Qed.

End Webhook.

Module ProducerToConsumer.
Import Py PyVal Eff Model EffFacts Observations Traces TraceFacts ServiceTraces
  WorkerTraces Worker Ingress.
Local Open Scope eff_scope.

(** The first call of [get_merge_request_diff] is the project request. *)
Lemma diff_starts_with_project env project_id merge_request_iid h :
  exists evs,
    snd (GitLabService.get_merge_request_diff env project_id
                                              merge_request_iid h)
    = h ++ GitlabGetProject project_id :: evs.
Proof.
  cbv [GitLabService.get_merge_request_diff GitLabService.get_merge_request
       GitLabService.get_project try_except bind call ret
       GitLabService.the_project_id GitLabService.mr_project_id
       GitLabService.mr_iid].
  destruct (gitlab_projects_get env h project_id) as [[]|e1].
  - cbv beta iota.
    destruct (gitlab_mergerequests_get env (h ++ [GitlabGetProject project_id])
                                       project_id merge_request_iid)
      as [[]|e2].
    + cbv beta iota.
      destruct (gitlab_changes
                  env ((h ++ [GitlabGetProject project_id])
                         ++ [GitlabGetMergeRequest project_id
                                                   merge_request_iid])
                  project_id merge_request_iid) as [changes|e3].
      * eexists. cbn [snd]. rewrite <- !app_assoc. reflexivity.
      * destruct (GitLabService.is_GitlabError e3);
          eexists; cbn [snd]; rewrite <- !app_assoc; reflexivity.
    + destruct (GitLabService.is_GitlabError e2) eqn:E;
        cbv beta iota; rewrite ?E;
        eexists; cbn [snd]; rewrite <- !app_assoc; reflexivity.
  - destruct (GitLabService.is_GitlabError e1) eqn:E;
      cbv beta iota; rewrite ?E; cbv beta iota; rewrite ?E;
      eexists; cbn [snd]; reflexivity.
Qed.

(** The job the task queues is one the worker takes up.  When the
    endpoint's conditions on the project and the merge request number
    hold and the worker's [json.loads] reads back what the task's
    [json.dumps] wrote, the worker does not reject the message as
    malformed: its first call is the request for that project. *)
Theorem queued_job_is_taken_up
        (aenv : AppEnv) (env : Env)
        (project_id merge_request_iid source_branch target_branch
                    jira_ticket_key : value)
        (receipt_handle : option string) (h : list event) :
  truthy project_id = true ->
  truthy merge_request_iid = true ->
  json_loads env (json_dumps (worker_env aenv)
                             (job_message project_id merge_request_iid
                                          source_branch target_branch
                                          jira_ticket_key))
  = Ret (job_message project_id merge_request_iid source_branch target_branch
                     jira_ticket_key) ->
  exists evs,
    snd (process_message
           env
           {| Body := Some (json_dumps
                              (worker_env aenv)
                              (job_message project_id merge_request_iid
                                           source_branch target_branch
                                           jira_ticket_key));
              ReceiptHandle := receipt_handle |} h)
    = h ++ GitlabGetProject project_id :: evs.
Proof.
  intros Hp Hi Hj.
  set (k := fun diff : option string =>
              if negb (opt_str_truthy diff) then ret false
              else
                let diff := GitLabService.or_empty diff in
                if (Z.of_nat (String.length diff)
                    >? MAX_DIFF_SIZE (settings env))%Z
                then
                  GitLabService.post_comment env project_id merge_request_iid
                                             (VStr too_large_notice) ;;;
                  ret true
                else
                  review_and_post env project_id merge_request_iid
                                  jira_ticket_key diff).
  assert (Hk : forall diff, emits whole is_processing_event (k diff)).
  { intros diff. unfold k. emits_steps. }
  assert (Hbody :
            process_message
              env
              {| Body := Some (json_dumps
                                 (worker_env aenv)
                                 (job_message project_id merge_request_iid
                                              source_branch target_branch
                                              jira_ticket_key));
                 ReceiptHandle := receipt_handle |} h
            = try_except
                (bind (GitLabService.get_merge_request_diff
                         env project_id merge_request_iid) k)
                any_exception (fun _ => ret false) h).
  { unfold process_message, process_message_body, try_except.
    unfold bind at 1. unfold lift at 1. cbn [Body]. rewrite Hj.
    unfold job_message.
    unfold bind at 1. unfold lift at 1.
    cbn [py_get dict_get of_option String.eqb Ascii.eqb Bool.eqb andb
         fst snd find].
    unfold bind at 1. unfold lift at 1.
    cbn [py_get dict_get of_option String.eqb Ascii.eqb Bool.eqb andb
         fst snd find].
    unfold bind at 1. unfold lift at 1.
    cbn [py_get dict_get of_option String.eqb Ascii.eqb Bool.eqb andb
         fst snd find].
    rewrite Hp, Hi. reflexivity. }
  rewrite Hbody. clear Hbody.
  destruct (diff_starts_with_project env project_id merge_request_iid h)
    as [evs Hevs].
  unfold try_except, bind.
  destruct (GitLabService.get_merge_request_diff env project_id
                                                 merge_request_iid h)
    as [[diff|e] h1].
  - cbn [snd] in Hevs. subst h1.
    destruct (Hk diff (h ++ GitlabGetProject project_id :: evs))
      as [evs2 [Hevs2 _]].
    unfold whole in Hevs2.
    destruct (k diff (h ++ GitlabGetProject project_id :: evs))
      as [[b|e] h2]; cbn [snd] in *; subst h2;
      exists (evs ++ evs2); rewrite <- app_assoc; reflexivity.
  - cbn [snd] in Hevs. subst h1. exists evs. reflexivity.
Qed.

Lemma queued_job_is_taken_up_witness :
  exists evs,
    snd (process_message
           Scenario.env_ok
           {| Body := Some (Scenario.dumps (Scenario.job (VStr "PROJ-1")));
              ReceiptHandle := Some "rh-1" |} [])
    = [] ++ GitlabGetProject (VInt 7) :: evs.
Proof.
  exact (queued_job_is_taken_up
           the_app Scenario.env_ok (VInt 7) (VInt 3) (VStr "feature")
           (VStr "main") (VStr "PROJ-1") (Some "rh-1") []
           eq_refl eq_refl eq_refl).
Defined.

End ProducerToConsumer.
